(** * Account lifecycle of the wynngrid backend (auth router)

    A shallow embedding of the Express router that owns signup, OTP
    verification, login, password reset, account deletion, logout and
    Google sign-in, together with the properties its specification
    states about it.

    Conventions of the embedding:
    - a JavaScript string is a [string], a sequence of code units
      below 256; request bodies are well typed, i.e. every field a
      handler destructures is a JSON string;
    - a [Date] is its millisecond timestamp, a [Z] (sums of timestamps
      are integers far below 2^53, hence exact);
    - a non-negative finite binary64 number is the integer multiple of
      2^-1074 it denotes (module [Float64]);
    - the database is a record of tables (lists of rows); Prisma calls
      are functions over it, run in a state-and-exception monad [M];
    - everything the handlers obtain from outside (random draw, clock,
      bcrypt, jsonwebtoken, SMTP, Google's verifier, storage faults) is
      a field of the environment record [Env]. *)

From Stdlib Require Import ZArith List String Ascii Bool Lia SpecFloat.
Import ListNotations.

Local Open Scope string_scope.
Local Open Scope Z_scope.

(* ================================================================== *)
(** * Strings and the regular expression of [validatePassword]        *)
(* ================================================================== *)

(** [c.charCodeAt(0)] *)
Definition char_code (c : ascii) : nat := nat_of_ascii c.

(** A character class [lo-hi] of a regular expression. *)
Definition in_range (lo hi c : ascii) : bool :=
  (char_code lo <=? char_code c)%nat && (char_code c <=? char_code hi)%nat.

(** [[a-z]] *)
Definition is_lower (c : ascii) : bool := in_range "a" "z" c.
(** [[A-Z]] *)
Definition is_upper (c : ascii) : bool := in_range "A" "Z" c.
(** [\d], which without the unicode flag is [[0-9]] *)
Definition is_digit (c : ascii) : bool := in_range "0" "9" c.
(** [[@$!%*?&]] *)
Definition is_symbol (c : ascii) : bool :=
  existsb (Ascii.eqb c) ["@"; "$"; "!"; "%"; "*"; "?"; "&"]%char.
(** [[A-Za-z\d@$!%*?&]] *)
Definition is_allowed (c : ascii) : bool :=
  is_upper c || is_lower c || is_digit c || is_symbol c.

(** Line terminators, the characters [.] does not match (U+2028 and
    U+2029 lie outside the 8-bit range of [ascii]). *)
Definition is_line_terminator (c : ascii) : bool :=
  Ascii.eqb c "010" || Ascii.eqb c "013".

(** [.] *)
Definition dot (c : ascii) : bool := negb (is_line_terminator c).

(** [(?=.*[cls])] tried where the remaining input is [s]: some run of
    [.]-characters is followed by a character of the class. *)
Fixpoint lookahead (cls : ascii -> bool) (s : string) : bool :=
  match s with
  | EmptyString => false
  | String c rest => cls c || (dot c && lookahead cls rest)
  end.

Fixpoint all_chars (cls : ascii -> bool) (s : string) : bool :=
  match s with
  | EmptyString => true
  | String c rest => cls c && all_chars cls rest
  end.

Fixpoint has_char (cls : ascii -> bool) (s : string) : bool :=
  match s with
  | EmptyString => false
  | String c rest => cls c || has_char cls rest
  end.

(** [[cls]{n,}$] tried at the start of [s] (no [m] flag, so [$] is the
    end of the input): the whole of [s] is in the class and is at least
    [n] long. *)
Definition at_least_to_end (n : nat) (cls : ascii -> bool) (s : string) : bool :=
  all_chars cls s && (n <=? String.length s)%nat.

(** [validatePassword]:
    [/^(?=.*[a-z])(?=.*[A-Z])(?=.*\d)(?=.*[@$!%*?&])[A-Za-z\d@$!%*?&]{6,}$/.test(password)] *)
Definition validatePassword (password : string) : bool :=
  lookahead is_lower password &&
  lookahead is_upper password &&
  lookahead is_digit password &&
  lookahead is_symbol password &&
  at_least_to_end 6 is_allowed password.

(** The password policy in the words of the specification: at least one
    lowercase letter, one uppercase letter, one digit, one symbol of the
    allowed set, and length at least 6. *)
Definition policy_spec (password : string) : bool :=
  has_char is_lower password &&
  has_char is_upper password &&
  has_char is_digit password &&
  has_char is_symbol password &&
  (6 <=? String.length password)%nat.

(** [s.split(sep)] for a one-character separator: the pieces between
    the occurrences of [sep]; never the empty list. *)
Fixpoint split (sep : ascii) (s : string) : list string :=
  match s with
  | EmptyString => [""]
  | String c rest =>
      if Ascii.eqb c sep then "" :: split sep rest
      else match split sep rest with
           | [] => [String c ""]
           | piece :: pieces => String c piece :: pieces
           end
  end.

(** [parts.join(sep)] *)
Fixpoint join (sep : string) (parts : list string) : string :=
  match parts with
  | [] => ""
  | [p] => p
  | p :: rest => p ++ sep ++ join sep rest
  end.

(** [parts.slice(1)] *)
Definition slice1 (parts : list string) : list string := tl parts.

(** [parts[0]], [undefined] past the end. *)
Definition index0 (parts : list string) : option string := hd_error parts.

(** Truthiness of a value that is a string or [undefined]/[null]. *)
Definition truthy (v : option string) : bool :=
  match v with
  | Some s => negb (String.eqb s "")
  | None => false
  end.

(** [v || ''] for a value that is a string or [undefined]. *)
Definition or_empty (v : option string) : string :=
  match v with
  | Some s => s
  | None => ""
  end.

(** [s || ''] for a string [s]. *)
Definition string_or_empty (s : string) : string :=
  if String.eqb s "" then "" else s.

(** Whitespace in the sense of the specification's "split on
    whitespace": space, tab, line feed, vertical tab, form feed,
    carriage return. *)
Definition is_whitespace (c : ascii) : bool :=
  Ascii.eqb c " " || ((9 <=? char_code c)%nat && (char_code c <=? 13)%nat).

(** The tokens of [s]: its maximal runs of non-whitespace characters.
    [cur] is the token being read. *)
Fixpoint tokens_from (cur : string) (s : string) : list string :=
  match s with
  | EmptyString => match cur with EmptyString => [] | _ => [cur] end
  | String c rest =>
      if is_whitespace c
      then match cur with
           | EmptyString => tokens_from "" rest
           | _ => cur :: tokens_from "" rest
           end
      else tokens_from (cur ++ String c "") rest
  end.

Definition tokens (s : string) : list string := tokens_from "" s.

(* ================================================================== *)
(** * Numbers: binary64 arithmetic on non-negative values             *)
(* ================================================================== *)

Module Float64.

(** Every finite binary64 number is an integer multiple of 2^-1074 (the
    smallest subnormal).  A non-negative finite number is represented
    by that multiple, so [unit] is the number 1.  The operations below
    round to nearest, ties to even, with 53 significant bits; overflow
    to [Infinity] is left out, the handlers keep every value below
    2^20. *)
Definition unit : Z := 2 ^ 1074.

(** A numeric literal that is an integer below 2^53 (exact). *)
Definition of_int (n : Z) : Z := n * unit.

(** [n / 2^q] rounded to the nearest integer, ties to the even one
    ([0 < q]). *)
Definition round_half_even (n q : Z) : Z :=
  let a := n / 2 ^ q in
  let r := n mod 2 ^ q in
  let h := 2 ^ (q - 1) in
  if r <? h then a
  else if h <? r then a + 1
  else if Z.even a then a else a + 1.

(** The number of low bits of [p] that rounding the exact value
    [p * 2^-(1074+t)] takes away: as many as leave 53 significant bits,
    and at least the [t] bits below the weight 2^-1074. *)
Definition cut (t p : Z) : Z := Z.max (Z.log2 p - 52) t.

(** The binary64 number nearest to the exact value [p * 2^-(1074+t)]
    ([0 <= p], [0 <= t]). *)
Definition round (t p : Z) : Z :=
  let q := cut t p in
  if q =? 0 then p else round_half_even p q * 2 ^ (q - t).

(** [x * y] *)
Definition mul (x y : Z) : Z := round 1074 (x * y).

(** [x + y] *)
Definition add (x y : Z) : Z := round 0 (x + y).

(** [Math.floor(x)], as an integer. *)
Definition floor (x : Z) : Z := x / unit.

(** [x] denotes a non-negative binary64 number. *)
Definition is_double (x : Z) : bool := (0 <=? x) && (round 0 x =? x).

(** What [Math.random()] may return: a binary64 number in [0, 1). *)
Definition is_random (r : Z) : Prop := is_double r = true /\ r < unit.

(** The same number in the Standard Library's model of IEEE 754
    ([spec_float], with the precision 53 and the exponent bound 1024 of
    binary64), against which the operations above are checked on
    sample values. *)
Definition to_spec_float (x : Z) : spec_float :=
  match x with
  | Zpos p => binary_normalize 53 1024 (Zpos p) (-1074) false
  | _ => S754_zero false
  end.

Definition of_spec_float (f : spec_float) : option Z :=
  match f with
  | S754_zero _ => Some 0
  | S754_finite false m e => Some (Zpos m * 2 ^ (e + 1074))
  | _ => None
  end.

Definition sample_draws : list Z :=
  [ 0; 1; 3; 2 ^ 1020; 2 ^ 1000 + 2 ^ 990; 2 ^ 1073 + 2 ^ 1021;
    12345678901234 * 2 ^ 1021; 4503599627370497 * 2 ^ 1021;
    7036874417766 * 2 ^ 1021; 8444249301319681 * 2 ^ 1021;
    6004799503160661 * 2 ^ 1019; (2 ^ 53 - 1) * 2 ^ 1021 ].

End Float64.

(** The decimal digit of [d], [0 <= d < 10]. *)
Definition digit_char (d : Z) : ascii := ascii_of_nat (48 + Z.to_nat d).

(** The decimal digits of [n], most significant first, in front of
    [acc]; [fuel] bounds the number of digits. *)
Fixpoint digits_onto (fuel : nat) (n : Z) (acc : string) : string :=
  match fuel with
  | O => acc
  | S fuel' =>
      let acc' := String (digit_char (n mod 10)) acc in
      if n <? 10 then acc' else digits_onto fuel' (n / 10) acc'
  end.

(** [n.toString()] for a non-negative integer below 10^21, which
    JavaScript prints in plain decimal notation. *)
Definition Number_toString (n : Z) : string :=
  digits_onto (S (Z.to_nat (Z.log2 n))) n "".

(** [Math.floor(100000 + r * 900000)], [r] being the value of
    [Math.random()]. *)
Definition otp_number (r : Z) : Z :=
  Float64.floor
    (Float64.add (Float64.of_int 100000)
                 (Float64.mul r (Float64.of_int 900000))).

(** [Math.floor(100000 + Math.random() * 900000).toString()] *)
Definition generateOtp (r : Z) : string := Number_toString (otp_number r).

(** The number a decimal numeral denotes. *)
Definition digit_value (c : ascii) : Z := Z.of_nat (char_code c) - 48.

Fixpoint decimal_value_from (acc : Z) (s : string) : Z :=
  match s with
  | EmptyString => acc
  | String c rest => decimal_value_from (acc * 10 + digit_value c) rest
  end.

Definition decimal_value (s : string) : Z := decimal_value_from 0 s.

(** A draw that yields the code [n]: the binary64 number
    [k * 2^-53] with [k] the integer part of
    [(n - 100000 + 1/2) * 2^53 / 900000]. *)
Definition draw_for (n : Z) : Z :=
  ((2 * (n - 100000) + 1) * 2 ^ 52 / 900000) * 2 ^ 1021.

(* ================================================================== *)
(** * The database                                                    *)
(* ================================================================== *)

(** A row of the [User] table, with the columns the router reads and
    writes.  [otp] and [otpExpiry] are nullable; [otpExpiry] is a
    timestamp in milliseconds. *)
Record User := mkUser {
  user_id : Z;
  user_firstName : string;
  user_lastName : string;
  user_email : string;
  user_password : string;
  user_otp : option string;
  user_otpExpiry : option Z;
  user_isVerified : bool
}.

(** Rows of the tables that depend on a user; only their keys matter
    to the router.  A profile belongs to one user, a project to one
    user, a project average to one profile. *)
Record Profile := mkProfile { profile_id : Z; profile_userId : Z }.
Record Project := mkProject { project_id : Z; project_userId : Z }.
Record ProjectAverage := mkProjectAverage { average_id : Z; average_profileId : Z }.

Record Db := mkDb {
  users : list User;
  profiles : list Profile;
  projects : list Project;
  projectAverages : list ProjectAverage;
  nextUserId : Z
}.

(** The data of [prisma.user.create]: the columns a caller supplies. *)
Record UserCreate := mkUserCreate {
  new_firstName : string;
  new_lastName : string;
  new_email : string;
  new_password : string;
  new_otp : option string;
  new_otpExpiry : option Z;
  new_isVerified : option bool
}.

(** Modelled from the spec: the Prisma schema (prisma/schema.prisma) is
    not among the sources.  [isVerified] "starts false" unless a caller
    sets it, the two OTP columns are nullable and start null, [email]
    is the unique key, and the identifier is assigned by the store. *)
Definition new_row (d : Db) (data : UserCreate) : User :=
  {| user_id := nextUserId d;
     user_firstName := new_firstName data;
     user_lastName := new_lastName data;
     user_email := new_email data;
     user_password := new_password data;
     user_otp := new_otp data;
     user_otpExpiry := new_otpExpiry data;
     user_isVerified :=
       match new_isVerified data with Some b => b | None => false end |}.

Definition has_email (email : string) (u : User) : bool :=
  String.eqb (user_email u) email.

Definition set_users (d : Db) (us : list User) : Db :=
  {| users := us; profiles := profiles d; projects := projects d;
     projectAverages := projectAverages d; nextUserId := nextUserId d |}.

(** The user with its [include]d relations, as [findUnique] returns it
    in [delete-account]. *)
Record UserWithRelations := mkUserWithRelations {
  the_user : User;
  the_profile : option Profile
}.

(* ================================================================== *)
(** * Effects: state, exceptions, and what leaves the process          *)
(* ================================================================== *)

(** What a handler does besides reading and writing the database. *)
Inductive Event :=
| BcryptHash (s : string)
| BcryptCompare (s hash : string)
| JwtSign (userId : Z) (expiresIn : string)
| SendMail (to subject text : string)
| VerifyIdToken (idToken : string).

Record World := mkWorld { db : Db; log : list Event }.

Inductive Result (A : Type) :=
| Ok (a : A)
| Throw (message : string).
Arguments Ok {A} a.
Arguments Throw {A} message.

(** A computation that reads and writes the world and either returns a
    value or throws an [Error] with a message. *)
Definition M (A : Type) : Type := World -> Result A * World.

Definition ret {A} (a : A) : M A := fun w => (Ok a, w).

Definition bind {A B} (m : M A) (k : A -> M B) : M B :=
  fun w => match m w with
           | (Ok a, w') => k a w'
           | (Throw e, w') => (Throw e, w')
           end.

Definition throw {A} (message : string) : M A := fun w => (Throw message, w).

Notation "x <- m ;; k" := (bind m (fun x => k))
  (at level 61, m at next level, right associativity).
Notation "m ;;; k" := (bind m (fun _ => k))
  (at level 61, right associativity).

(** [try { body } catch (error) { handler(error.message) }] *)
Definition try_catch {A} (body : M A) (handler : string -> M A) : M A :=
  fun w => match body w with
           | (Ok a, w') => (Ok a, w')
           | (Throw e, w') => handler e w'
           end.

Definition get_db : M Db := fun w => (Ok (db w), w).

Definition put_db (d : Db) : M unit :=
  fun w => (Ok tt, {| db := d; log := log w |}).

Definition emit (e : Event) : M unit :=
  fun w => (Ok tt, {| db := db w; log := log w ++ [e] |}).

(** The payload of a verified Google ID token; every claim may be
    absent. *)
Record Payload := mkPayload {
  payload_email : option string;
  payload_name : option string;
  payload_given_name : option string;
  payload_family_name : option string
}.

(** What a request obtains from outside the process. *)
Record Env := mkEnv {
  (** the value of [Math.random()] *)
  Math_random : Z;
  (** the value of [Date.now()] / [new Date()], in milliseconds *)
  Date_now : Z;
  (** [bcrypt.hash(s, 10)] (the salt is the library's) *)
  bcrypt_digest : string -> string;
  (** whether [s] hashes to the 60-character hash [hash] *)
  bcrypt_matches : string -> string -> bool;
  (** [jwt.sign({ userId }, process.env.JWT_SECRET, { expiresIn })] *)
  jwt_sign : Z -> string -> string;
  (** the error of [transporter.sendMail], if it fails *)
  smtp_error : option string;
  (** [client.verifyIdToken(...)] then [ticket.getPayload()]:
      a rejection, or a payload that may be [undefined] *)
  google_ticket : string -> Result (option Payload);
  (** the error the store raises at the given statement of the
      deleting transaction (1 to 4, and 5 for the commit), if any *)
  tx_error : nat -> option string
}.

Section Collaborators.

Variable E : Env.

(** [bcrypt.hash(s, 10)] *)
Definition bcrypt_hash (s : string) : M string :=
  emit (BcryptHash s) ;;;
  ret (bcrypt_digest E s).

(** [bcrypt.compare(s, hash)] of bcryptjs: a [hash] that is not 60
    characters long compares unequal without being looked at. *)
Definition bcrypt_compare (s hash : string) : M bool :=
  emit (BcryptCompare s hash) ;;;
  ret (if (String.length hash =? 60)%nat then bcrypt_matches E s hash else false).

(** [jwt.sign({ userId }, process.env.JWT_SECRET, { expiresIn })] *)
Definition jwt_sign_userId (userId : Z) (expiresIn : string) : M string :=
  emit (JwtSign userId expiresIn) ;;;
  ret (jwt_sign E userId expiresIn).

(** [sendEmail(to, subject, text)] of utils/email.js: the transport's
    error is logged and thrown again. *)
Definition sendEmail (to subject text : string) : M unit :=
  emit (SendMail to subject text) ;;;
  match smtp_error E with
  | Some e => throw e
  | None => ret tt
  end.

(** [client.verifyIdToken({ idToken, audience })] and
    [ticket.getPayload()] *)
Definition verifyIdToken (idToken : string) : M (option Payload) :=
  emit (VerifyIdToken idToken) ;;;
  match google_ticket E idToken with
  | Ok p => ret p
  | Throw e => throw e
  end.

(* ------------------------------------------------------------------ *)
(** ** Prisma calls                                                    *)
(* ------------------------------------------------------------------ *)

(** [prisma.user.findUnique({ where: { email } })] *)
Definition user_findUnique (email : string) : M (option User) :=
  d <- get_db ;;
  ret (find (has_email email) (users d)).

(** [prisma.user.findUnique({ where: { email }, include: { profile:
    { include: { projectAverages: true } }, projects: true } })] *)
Definition user_findUnique_include (email : string) : M (option UserWithRelations) :=
  d <- get_db ;;
  ret (match find (has_email email) (users d) with
       | Some u =>
           Some {| the_user := u;
                   the_profile :=
                     find (fun p => profile_userId p =? user_id u) (profiles d) |}
       | None => None
       end).

(** [prisma.user.create({ data })]: the unique key is enforced. *)
Definition user_create (data : UserCreate) : M User :=
  d <- get_db ;;
  if existsb (has_email (new_email data)) (users d)
  then throw "Unique constraint failed on the fields: (`email`)"
  else
    let u := new_row d data in
    put_db {| users := users d ++ [u]; profiles := profiles d;
              projects := projects d; projectAverages := projectAverages d;
              nextUserId := nextUserId d + 1 |} ;;;
    ret u.

(** [prisma.user.update({ where: { email }, data })], [change] being
    the effect of [data] on the row; [email] is a unique key, so this
    is the one row of that email. *)
Definition user_update (email : string) (change : User -> User) : M unit :=
  d <- get_db ;;
  if existsb (has_email email) (users d)
  then put_db (set_users d
         (map (fun u => if has_email email u then change u else u) (users d)))
  else throw "Record to update not found.".

(** A statement of the transaction: the store may fail at it. *)
Definition tx_statement (n : nat) (run : M unit) : M unit :=
  match tx_error E n with
  | Some e => throw e
  | None => run
  end.

(** [prisma.projectAverage.deleteMany({ where: { profileId } })] *)
Definition projectAverage_deleteMany (profileId : Z) : M unit :=
  d <- get_db ;;
  put_db {| users := users d; profiles := profiles d; projects := projects d;
            projectAverages :=
              filter (fun a => negb (average_profileId a =? profileId))
                     (projectAverages d);
            nextUserId := nextUserId d |}.

(** [prisma.project.deleteMany({ where: { userId } })] *)
Definition project_deleteMany (userId : Z) : M unit :=
  d <- get_db ;;
  put_db {| users := users d; profiles := profiles d;
            projects := filter (fun p => negb (project_userId p =? userId)) (projects d);
            projectAverages := projectAverages d;
            nextUserId := nextUserId d |}.

(** [prisma.profile.delete({ where: { userId } })] *)
Definition profile_delete (userId : Z) : M unit :=
  d <- get_db ;;
  if existsb (fun p => profile_userId p =? userId) (profiles d)
  then put_db {| users := users d;
                 profiles := filter (fun p => negb (profile_userId p =? userId)) (profiles d);
                 projects := projects d; projectAverages := projectAverages d;
                 nextUserId := nextUserId d |}
  else throw "Record to delete does not exist.".

(** [prisma.user.delete({ where: { id } })] *)
Definition user_delete (id : Z) : M unit :=
  d <- get_db ;;
  if existsb (fun u => user_id u =? id) (users d)
  then put_db (set_users d (filter (fun u => negb (user_id u =? id)) (users d)))
  else throw "Record to delete does not exist.".

(** [prisma.$transaction(async (prisma) => { body })]: the statements
    of [body] take effect together at the commit, or not at all. *)
Definition transaction (body : M unit) : M unit :=
  fun w => match (body ;;; tx_statement 5 (ret tt)) w with
           | (Ok _, w') => (Ok tt, w')
           | (Throw e, w') => (Throw e, {| db := db w; log := log w' |})
           end.

End Collaborators.

(* ================================================================== *)
(** * Responses                                                       *)
(* ================================================================== *)

#[local] Set Warnings "-register-all".

Inductive Json :=
| JNum (n : Z)
| JStr (s : string)
| JObj (fields : list (string * Json)).

#[local] Set Warnings "+register-all".

(** [res.status(status).json(body)]; [res.json(body)] has status 200. *)
Record Response := mkResponse { status : Z; body : Json }.

Definition message_only (status : Z) (message : string) : Response :=
  {| status := status; body := JObj [("message", JStr message)] |}.

(** The body of every [catch] block. *)
Definition server_error (message error : string) : Response :=
  {| status := 500;
     body := JObj [("message", JStr message); ("error", JStr error)] |}.

Definition password_rule : string :=
  "Password must be at least 6 characters long and include at least one uppercase letter, one lowercase letter, one special character, and one number.".

(** The failures of the specification, as the router answers them. *)
Definition ValidationError : Response := message_only 400 password_rule.
Definition ConflictError : Response := message_only 400 "Email already registered".
Definition NotFoundError : Response := message_only 404 "User not found".
Definition InvalidOtpError : Response := message_only 400 "Invalid or expired OTP".
Definition UnverifiedError : Response := message_only 400 "Please verify your email first".
Definition InvalidCredentialError : Response := message_only 400 "Invalid password".
Definition InvalidAssertionError : Response :=
  message_only 400 "Invalid Google token or missing email".

(** The [user] object of the Google sign-in answers. *)
Definition identity (u : User) : Json :=
  JObj [("id", JNum (user_id u)); ("email", JStr (user_email u));
        ("firstName", JStr (user_firstName u));
        ("lastName", JStr (user_lastName u))].

(** Whether a response carries a session token. *)
Definition has_token (r : Response) : bool :=
  match body r with
  | JObj fields => existsb (fun f => String.eqb (fst f) "token") fields
  | _ => false
  end.

(* ================================================================== *)
(** * The routes                                                      *)
(* ================================================================== *)

(** [stored !== supplied] for a nullable column and a string. *)
Definition strict_neq (stored : option string) (supplied : string) : bool :=
  match stored with
  | Some s => negb (String.eqb s supplied)
  | None => true
  end.

(** [new Date() > expiry] for a nullable [DateTime] column: both sides
    are converted to numbers, [null] to 0. *)
Definition date_gt (now : Z) (expiry : option Z) : bool :=
  match expiry with
  | Some t => t <? now
  | None => 0 <? now
  end.

(** The name fallbacks of [google-signup]: [(firstName, lastName)].
    [email.split('@')[0]] is never [undefined], a split having at least
    one piece. *)
Definition googleNames (email : string) (name given_name family_name : option string)
  : string * string :=
  if truthy given_name && truthy family_name then
    (or_empty given_name, or_empty family_name)
  else if truthy name then
    let nameParts := split " " (or_empty name) in
    (or_empty (index0 nameParts), string_or_empty (join " " (slice1 nameParts)))
  else
    (hd "" (split "@" email), "").

(** The name fallbacks in the words of the specification: the given
    and family names when supplied; otherwise the display name split on
    whitespace into its first token and its remaining tokens; otherwise
    the local part of the email and an empty last name. *)
Definition googleNames_spec (email : string) (name given_name family_name : option string)
  : string * string :=
  if truthy given_name && truthy family_name then
    (or_empty given_name, or_empty family_name)
  else if truthy name then
    let ts := tokens (or_empty name) in
    (hd "" ts, join " " (tl ts))
  else
    (hd "" (split "@" email), "").

Section Routes.

Variable E : Env.

(** [router.post('/signup', ...)] *)
Definition signup (firstName lastName email password : string) : M Response :=
  try_catch
    (if negb (validatePassword password) then ret ValidationError
     else
       existingUser <- user_findUnique email ;;
       match existingUser with
       | Some _ => ret ConflictError
       | None =>
           hashedPassword <- bcrypt_hash E password ;;
           let otp := generateOtp (Math_random E) in
           let otpExpiry := Date_now E + 10 * 60 * 1000 in
           user <- user_create
                     {| new_firstName := firstName; new_lastName := lastName;
                        new_email := email; new_password := hashedPassword;
                        new_otp := Some otp; new_otpExpiry := Some otpExpiry;
                        new_isVerified := None |} ;;
           sendEmail E email "Verify your email" ("Your OTP is: " ++ otp) ;;;
           ret (message_only 201 "User created. Please verify your email.")
       end)
    (fun error => ret (server_error "Error creating user" error)).

(** [router.post('/verify-otp', ...)] *)
Definition verify_otp (email otp : string) : M Response :=
  try_catch
    (user <- user_findUnique email ;;
     match user with
     | None => ret NotFoundError
     | Some user =>
         if strict_neq (user_otp user) otp || date_gt (Date_now E) (user_otpExpiry user)
         then ret InvalidOtpError
         else
           user_update email
             (fun u => {| user_id := user_id u;
                          user_firstName := user_firstName u;
                          user_lastName := user_lastName u;
                          user_email := user_email u;
                          user_password := user_password u;
                          user_otp := None; user_otpExpiry := None;
                          user_isVerified := true |}) ;;;
           token <- jwt_sign_userId E (user_id user) "240h" ;;
           ret {| status := 200;
                  body := JObj [("message", JStr "Email verified successfully");
                                ("token", JStr token)] |}
     end)
    (fun error => ret (server_error "Error verifying OTP" error)).

(** [router.post('/login', ...)] *)
Definition login (email password : string) : M Response :=
  try_catch
    (user <- user_findUnique email ;;
     match user with
     | None => ret NotFoundError
     | Some user =>
         if negb (user_isVerified user) then ret UnverifiedError
         else
           validPassword <- bcrypt_compare E password (user_password user) ;;
           if negb validPassword then ret InvalidCredentialError
           else
             token <- jwt_sign_userId E (user_id user) "240h" ;;
             ret {| status := 200; body := JObj [("token", JStr token)] |}
     end)
    (fun error => ret (server_error "Error logging in" error)).

(** [router.post('/forgot-password', ...)] *)
Definition forgot_password (email : string) : M Response :=
  try_catch
    (user <- user_findUnique email ;;
     match user with
     | None => ret NotFoundError
     | Some _ =>
         let otp := generateOtp (Math_random E) in
         let otpExpiry := Date_now E + 10 * 60 * 1000 in
         user_update email
           (fun u => {| user_id := user_id u;
                        user_firstName := user_firstName u;
                        user_lastName := user_lastName u;
                        user_email := user_email u;
                        user_password := user_password u;
                        user_otp := Some otp; user_otpExpiry := Some otpExpiry;
                        user_isVerified := user_isVerified u |}) ;;;
         sendEmail E email "Reset Password" ("Your password reset OTP is: " ++ otp) ;;;
         ret (message_only 200 "Password reset OTP sent to email")
     end)
    (fun error => ret (server_error "Error processing request" error)).

(** [router.post('/reset-password', ...)] *)
Definition reset_password (email otp newPassword : string) : M Response :=
  try_catch
    (if negb (validatePassword newPassword) then ret ValidationError
     else
       user <- user_findUnique email ;;
       match user with
       | None => ret NotFoundError
       | Some user =>
           if strict_neq (user_otp user) otp || date_gt (Date_now E) (user_otpExpiry user)
           then ret InvalidOtpError
           else
             hashedPassword <- bcrypt_hash E newPassword ;;
             user_update email
               (fun u => {| user_id := user_id u;
                            user_firstName := user_firstName u;
                            user_lastName := user_lastName u;
                            user_email := user_email u;
                            user_password := hashedPassword;
                            user_otp := None; user_otpExpiry := None;
                            user_isVerified := user_isVerified u |}) ;;;
             ret (message_only 200 "Password reset successfully")
       end)
    (fun error => ret (server_error "Error resetting password" error)).

(** The body of the transaction of [delete-account]. *)
Definition delete_cascade (user : UserWithRelations) : M unit :=
  (match the_profile user with
   | Some profile =>
       tx_statement E 1 (projectAverage_deleteMany (profile_id profile))
   | None => ret tt
   end) ;;;
  tx_statement E 2 (project_deleteMany (user_id (the_user user))) ;;;
  (match the_profile user with
   | Some _ => tx_statement E 3 (profile_delete (user_id (the_user user)))
   | None => ret tt
   end) ;;;
  tx_statement E 4 (user_delete (user_id (the_user user))).

(** [router.delete('/delete-account', ...)] *)
Definition delete_account (email password : string) : M Response :=
  try_catch
    (user <- user_findUnique_include email ;;
     match user with
     | None => ret NotFoundError
     | Some user =>
         validPassword <- bcrypt_compare E password (user_password (the_user user)) ;;
         if negb validPassword then ret InvalidCredentialError
         else
           transaction E (delete_cascade user) ;;;
           ret (message_only 200 "Account deleted successfully")
     end)
    (fun error => ret (server_error "Error deleting account" error)).

(** [router.post('/logout', ...)]; the token may be missing from the
    body. *)
Definition logout (token : option string) : M Response :=
  try_catch
    (if negb (truthy token)
     then ret (message_only 400 "Token is required for logout")
     else ret (message_only 200 "Logged out successfully"))
    (fun error => ret (server_error "Error logging out" error)).

(** [router.post('/google-signup', ...)] *)
Definition google_signup (token : string) : M Response :=
  try_catch
    (payload <- verifyIdToken E token ;;
     match payload with
     | None => ret InvalidAssertionError
     | Some payload =>
         if negb (truthy (payload_email payload)) then ret InvalidAssertionError
         else
           let email := or_empty (payload_email payload) in
           user <- user_findUnique email ;;
           match user with
           | Some user =>
               token <- jwt_sign_userId E (user_id user) "24h" ;;
               ret {| status := 200;
                      body := JObj [("message", JStr "User already exists");
                                    ("token", JStr token);
                                    ("user", identity user)] |}
           | None =>
               let '(firstName, lastName) :=
                 googleNames email (payload_name payload)
                   (payload_given_name payload) (payload_family_name payload) in
               user <- user_create
                         {| new_firstName := firstName; new_lastName := lastName;
                            new_email := email; new_password := "";
                            new_otp := None; new_otpExpiry := None;
                            new_isVerified := Some true |} ;;
               jwtToken <- jwt_sign_userId E (user_id user) "24h" ;;
               ret {| status := 201;
                      body := JObj [("message", JStr "User created successfully");
                                    ("token", JStr jwtToken);
                                    ("user", identity user)] |}
           end
     end)
    (fun error => ret (server_error "Error during Google signup" error)).

End Routes.

(** A request to the router. *)
Inductive Request :=
| Signup (firstName lastName email password : string)
| VerifyOtp (email otp : string)
| Login (email password : string)
| ForgotPassword (email : string)
| ResetPassword (email otp newPassword : string)
| DeleteAccount (email password : string)
| Logout (token : option string)
| GoogleSignup (token : string).

Definition handle (E : Env) (q : Request) : M Response :=
  match q with
  | Signup f l e p => signup E f l e p
  | VerifyOtp e o => verify_otp E e o
  | Login e p => login E e p
  | ForgotPassword e => forgot_password E e
  | ResetPassword e o p => reset_password E e o p
  | DeleteAccount e p => delete_account E e p
  | Logout t => logout t
  | GoogleSignup t => google_signup E t
  end.

(** Serving a request on a database: the response, the database
    afterwards, and what the handler did on the way. *)
Definition serve (E : Env) (q : Request) (d : Db) : Result Response * World :=
  handle E q {| db := d; log := [] |}.

Definition response_of (r : Result Response * World) : option Response :=
  match fst r with Ok resp => Some resp | Throw _ => None end.

Definition db_of (r : Result Response * World) : Db := db (snd r).
Definition log_of (r : Result Response * World) : list Event := log (snd r).

Definition empty_db : Db :=
  {| users := []; profiles := []; projects := []; projectAverages := [];
     nextUserId := 1 |}.

(** The databases the router can be in: any database other parts of
    the application produce without touching the OTP columns is a
    start ([fresh]: no pending code anywhere), and each served request
    leads to the next. *)
Definition no_pending (u : User) : Prop :=
  user_otp u = None /\ user_otpExpiry u = None.

Inductive reachable : Db -> Prop :=
| reach_fresh d : Forall no_pending (users d) -> reachable d
| reach_serve E q d : reachable d -> reachable (db_of (serve E q d)).

(** The two OTP columns are null together or set together. *)
Definition paired (u : User) : Prop :=
  user_otp u = None <-> user_otpExpiry u = None.

(* ================================================================== *)
(** * The vocabulary of the properties                                *)
(* ================================================================== *)

(** [now] is past the stored expiry, a cleared expiry counting as the
    epoch (what [new Date() > null] compares with). *)
Definition expired (now : Z) (expiry : option Z) : Prop :=
  match expiry with
  | Some t => t < now
  | None => 0 < now
  end.

(** The unique keys the router relies on: [email] of a user
    ([findUnique({ where: { email } })]) and [userId] of a profile
    ([profile.delete({ where: { userId } })]). *)
Definition unique_keys (d : Db) : Prop :=
  NoDup (map user_email (users d)) /\ NoDup (map profile_userId (profiles d)).

(** No row of or below the account [u] is left in [d']; [d] is the
    database the account was read from. *)
Definition account_gone (d : Db) (u : User) (d' : Db) : Prop :=
  find (has_email (user_email u)) (users d') = None /\
  (forall x, In x (users d') -> user_id x <> user_id u) /\
  (forall p, In p (profiles d') -> profile_userId p <> user_id u) /\
  (forall j, In j (projects d') -> project_userId j <> user_id u) /\
  (forall p a, In p (profiles d) -> profile_userId p = user_id u ->
               In a (projectAverages d') -> average_profileId a <> profile_id p).

(** The statements the deleting transaction runs for an account with
    or without a profile, the commit included. *)
Definition tx_statements (has_profile : bool) : list nat :=
  if has_profile then [1; 2; 3; 4; 5]%nat else [2; 4; 5]%nat.

(** The decimal numerals of six digits. *)
Definition six_digits (s : string) : Prop :=
  String.length s = 6%nat /\ all_chars is_digit s = true.

(* ================================================================== *)
(** * Sample environments and data                                    *)
(* ================================================================== *)

Definition some_env : Env :=
  {| Math_random := 0; Date_now := 1700000000000;
     bcrypt_digest := fun s => "$2a$10$" ++ s;
     bcrypt_matches := fun s hash => String.eqb ("$2a$10$" ++ s) hash;
     jwt_sign := fun userId expiresIn => "jwt." ++ expiresIn;
     smtp_error := None;
     google_ticket := fun _ => Throw "Wrong number of segments in token";
     tx_error := fun _ => None |}.


Definition alice : User :=
  {| user_id := 1; user_firstName := "Alice"; user_lastName := "Liddell";
     user_email := "alice@example.com";
     user_password := "$2a$10$N9qo8uLOickgx2ZMRZoMyeIjZAgcfl7p92ldGxad68LJZdL17lhWy";
     user_otp := Some "482913"; user_otpExpiry := Some 1700000300000;
     user_isVerified := false |}.

Definition alice_db : Db :=
  {| users := [alice]; profiles := []; projects := []; projectAverages := [];
     nextUserId := 2 |}.

(** An account as Google sign-in creates it. *)
Definition bob : User :=
  {| user_id := 1; user_firstName := "Bob"; user_lastName := "Stone";
     user_email := "bob@example.com"; user_password := "";
     user_otp := None; user_otpExpiry := None; user_isVerified := true |}.

Definition bob_db : Db :=
  {| users := [bob]; profiles := []; projects := []; projectAverages := [];
     nextUserId := 2 |}.

Definition bob_payload : Payload :=
  {| payload_email := Some "bob@example.com"; payload_name := Some "Bob Stone";
     payload_given_name := Some "Bob"; payload_family_name := Some "Stone" |}.

(** An environment in which Google's verifier accepts every token as
    Bob's. *)
Definition google_env : Env :=
  {| Math_random := 0; Date_now := 1700000000000;
     bcrypt_digest := fun s => "$2a$10$" ++ s;
     bcrypt_matches := fun s hash => String.eqb ("$2a$10$" ++ s) hash;
     jwt_sign := fun userId expiresIn => "jwt." ++ expiresIn;
     smtp_error := None;
     google_ticket := fun _ => Ok (Some bob_payload);
     tx_error := fun _ => None |}.

(** A display name whose two words are separated by a tab. *)
Definition tabbed_name : string := "Ada" ++ String "009" "Lovelace".

Definition ada_payload : Payload :=
  {| payload_email := Some "ada@example.com"; payload_name := Some "Ada King Lovelace";
     payload_given_name := None; payload_family_name := None |}.

Definition ada_env : Env :=
  {| Math_random := 0; Date_now := 1700000000000;
     bcrypt_digest := fun s => "$2a$10$" ++ s;
     bcrypt_matches := fun s hash => String.eqb ("$2a$10$" ++ s) hash;
     jwt_sign := fun userId expiresIn => "jwt." ++ expiresIn;
     smtp_error := None;
     google_ticket := fun _ => Ok (Some ada_payload);
     tx_error := fun _ => None |}.

(** The number of accounts registered under [email]. *)
Definition accounts_with (email : string) (d : Db) : nat :=
  List.length (filter (has_email email) (users d)).

(** A computation keeps a property of the database: it holds after
    the computation, returned or thrown, when it held before. *)
Definition keeps (P : Db -> Prop) {A} (m : M A) : Prop :=
  forall w, P (db w) -> P (db (snd (m w))).

Definition all_paired (d : Db) : Prop := Forall paired (users d).

(** The database after a signup on the empty one. *)
Definition signed_up_db : Db :=
  db_of (serve some_env (Signup "Ann" "Lee" "ann@example.com" "Abc123!") empty_db).

Definition ann : User :=
  {| user_id := 1; user_firstName := "Ann"; user_lastName := "Lee";
     user_email := "ann@example.com"; user_password := "$2a$10$Abc123!";
     user_otp := Some "100000"; user_otpExpiry := Some 1700000600000;
     user_isVerified := false |}.

(** The first of the statements [ns] at which the store fails. *)
Fixpoint first_error (E : Env) (ns : list nat) : option string :=
  match ns with
  | [] => None
  | n :: rest =>
      match tx_error E n with
      | Some e => Some e
      | None => first_error E rest
      end
  end.

(** The profile of the user [u], as [include: { profile }] loads it. *)
Definition profile_of (d : Db) (u : User) : option Profile :=
  find (fun p => profile_userId p =? user_id u) (profiles d).

Definition has_profile (d : Db) (u : User) : bool :=
  match profile_of d u with Some _ => true | None => false end.

(** The database once the four deletions for [u] are committed. *)
Definition without_account (d : Db) (u : User) : Db :=
  {| users := filter (fun x => negb (user_id x =? user_id u)) (users d);
     profiles :=
       match profile_of d u with
       | Some _ => filter (fun p => negb (profile_userId p =? user_id u)) (profiles d)
       | None => profiles d
       end;
     projects := filter (fun p => negb (project_userId p =? user_id u)) (projects d);
     projectAverages :=
       match profile_of d u with
       | Some p => filter (fun a => negb (average_profileId a =? profile_id p))
                     (projectAverages d)
       | None => projectAverages d
       end;
     nextUserId := nextUserId d |}.

(** A verified account with a profile, two projects and averages, next
    to another account's rows. *)
Definition carol : User :=
  {| user_id := 7; user_firstName := "Carol"; user_lastName := "Reyes";
     user_email := "carol@example.com";
     user_password := "$2a$10$CwTycUXWue0Thq9StjUM0uJ8m3Zz0pJ9o8W1eH8c8n0Zk1y2AbCdE";
     user_otp := None; user_otpExpiry := None; user_isVerified := true |}.

Definition carol_db : Db :=
  {| users := [bob; carol];
     profiles := [ {| profile_id := 70; profile_userId := 7 |};
                   {| profile_id := 10; profile_userId := 1 |} ];
     projects := [ {| project_id := 1; project_userId := 7 |};
                   {| project_id := 2; project_userId := 1 |};
                   {| project_id := 3; project_userId := 7 |} ];
     projectAverages := [ {| average_id := 1; average_profileId := 70 |};
                          {| average_id := 2; average_profileId := 10 |} ];
     nextUserId := 8 |}.

(** An environment whose bcrypt accepts every password and whose store
    fails at the third statement of the deleting transaction. *)
Definition failing_env : Env :=
  {| Math_random := 0; Date_now := 1700000000000;
     bcrypt_digest := fun s => "$2a$10$" ++ s;
     bcrypt_matches := fun _ _ => true;
     jwt_sign := fun userId expiresIn => "jwt." ++ expiresIn;
     smtp_error := None;
     google_ticket := fun _ => Throw "Wrong number of segments in token";
     tx_error := fun n => if (n =? 3)%nat then Some "Connection lost" else None |}.

(** The same with a store that does not fail. *)
Definition accepting_env : Env :=
  {| Math_random := 0; Date_now := 1700000000000;
     bcrypt_digest := fun s => "$2a$10$" ++ s;
     bcrypt_matches := fun _ _ => true;
     jwt_sign := fun userId expiresIn => "jwt." ++ expiresIn;
     smtp_error := None;
     google_ticket := fun _ => Throw "Wrong number of segments in token";
     tx_error := fun _ => None |}.

(* ================================================================== *)
(** * Further vocabulary: what the routes keep                        *)
(* ================================================================== *)

(** No two accounts share an email. *)
Definition unique_emails (d : Db) : Prop := NoDup (map user_email (users d)).

(** The identity fields of an account: the ones Google sign-in
    answers with. *)
Definition same_identity (x x' : User) : Prop :=
  user_id x' = user_id x /\ user_email x' = user_email x /\
  user_firstName x' = user_firstName x /\ user_lastName x' = user_lastName x.

(** An update that leaves the identity fields alone and does not take
    a verification away. *)
Definition keeps_identity (change : User -> User) : Prop :=
  forall u, same_identity u (change u) /\
            (user_isVerified u = true -> user_isVerified (change u) = true).

Definition is_delete (q : Request) : bool :=
  match q with
  | DeleteAccount _ _ => true
  | _ => false
  end.

(** [email] has an account and it is verified. *)
Definition verified_account (email : string) (d : Db) : Prop :=
  exists u, find (has_email email) (users d) = Some u /\ user_isVerified u = true.

(** The account [x] is still in [d], with the identity it had. *)
Definition still_there (x : User) (d : Db) : Prop :=
  exists x', In x' (users d) /\ same_identity x x'.

(** The tables below the accounts are the ones of [d0]. *)
Definition same_dependents (d0 d : Db) : Prop :=
  profiles d = profiles d0 /\ projects d = projects d0 /\
  projectAverages d = projectAverages d0.

(** Whether [bcrypt.compare(s, hash)] answers true. *)
Definition password_accepted (E : Env) (s hash : string) : bool :=
  if (String.length hash =? 60)%nat then bcrypt_matches E s hash else false.

(** The row the deleting transaction leaves alone: it does not belong
    to the account [u] of the database [d]. *)
Definition foreign_average (d : Db) (u : User) (a : ProjectAverage) : Prop :=
  forall p, profile_of d u = Some p -> average_profileId a <> profile_id p.

(** An environment like [E] at a later request: another clock. *)
Definition at_time (E : Env) (now : Z) : Env :=
  {| Math_random := Math_random E; Date_now := now;
     bcrypt_digest := bcrypt_digest E; bcrypt_matches := bcrypt_matches E;
     jwt_sign := jwt_sign E; smtp_error := smtp_error E;
     google_ticket := google_ticket E; tx_error := tx_error E |}.

(** An environment whose mail transport is down. *)
Definition smtp_down_env : Env :=
  {| Math_random := 0; Date_now := 1700000000000;
     bcrypt_digest := fun s => "$2a$10$" ++ s;
     bcrypt_matches := fun s hash => String.eqb ("$2a$10$" ++ s) hash;
     jwt_sign := fun userId expiresIn => "jwt." ++ expiresIn;
     smtp_error := Some "connect ECONNREFUSED";
     google_ticket := fun _ => Throw "Wrong number of segments in token";
     tx_error := fun _ => None |}.

(** An environment in which Google's verifier accepts every token as
    Alice's. *)
Definition alice_payload : Payload :=
  {| payload_email := Some "alice@example.com"; payload_name := Some "Alice Liddell";
     payload_given_name := None; payload_family_name := None |}.

Definition alice_google_env : Env :=
  {| Math_random := 0; Date_now := 1700000000000;
     bcrypt_digest := fun s => "$2a$10$" ++ s;
     bcrypt_matches := fun s hash => String.eqb ("$2a$10$" ++ s) hash;
     jwt_sign := fun userId expiresIn => "jwt." ++ expiresIn;
     smtp_error := None;
     google_ticket := fun _ => Ok (Some alice_payload);
     tx_error := fun _ => None |}.

(** An account waiting for its verification, with a bcrypt hash. *)
Definition dora : User :=
  {| user_id := 4; user_firstName := "Dora"; user_lastName := "Moss";
     user_email := "dora@example.com";
     user_password := "$2a$10$7EqJtq98hPqEX7fNZaFWoOa8n1pG3r5s2kV0yT4uW6xZ9bC1dE3fG";
     user_otp := Some "654321"; user_otpExpiry := Some 1700000600000;
     user_isVerified := false |}.

Definition dora_db : Db :=
  {| users := [bob; dora]; profiles := []; projects := []; projectAverages := [];
     nextUserId := 5 |}.

(** The email a request is about: the one in its body, or the one of
    the payload Google's verifier returns for its token. *)
Definition subject (E : Env) (q : Request) : option string :=
  match q with
  | Signup _ _ email _ | VerifyOtp email _ | Login email _
  | ForgotPassword email | ResetPassword email _ _ | DeleteAccount email _ =>
      Some email
  | Logout _ => None
  | GoogleSignup token =>
      match google_ticket E token with
      | Ok (Some payload) => payload_email payload
      | _ => None
      end
  end.
(* ================================================================== *)
(** * The password policy                                             *)
(* ================================================================== *)

Lemma allowed_is_dot c : is_allowed c = true -> dot c = true.
Proof.
  destruct c as [[] [] [] [] [] [] [] []]; vm_compute; congruence.
Qed.

Lemma lookahead_allowed cls s :
  all_chars is_allowed s = true -> lookahead cls s = has_char cls s.
Proof.
  induction s as [|c rest IH]; cbn; [reflexivity|].
  intros H. apply andb_prop in H. destruct H as [Hc Hrest].
  rewrite (allowed_is_dot _ Hc), (IH Hrest). reflexivity.
Qed.

(** The regular expression accepts exactly the passwords that meet the
    stated policy and are written in the allowed alphabet. *)
Lemma validatePassword_spec password :
  validatePassword password =
  policy_spec password && all_chars is_allowed password.
Proof.
  unfold validatePassword, policy_spec, at_least_to_end.
  destruct (all_chars is_allowed password) eqn:Hall.
  - rewrite !(lookahead_allowed _ _ Hall), andb_true_r. reflexivity.
  - cbn. rewrite !andb_false_r. reflexivity.
Qed.

Lemma policy_spec_rejects password :
  policy_spec password = false -> validatePassword password = false.
Proof. intros H. rewrite validatePassword_spec, H. reflexivity. Qed.

Lemma foreign_char_rejects password :
  has_char (fun c => negb (is_allowed c)) password = true ->
  all_chars is_allowed password = false.
Proof.
  induction password as [|c rest IH]; cbn; [discriminate|].
  destruct (is_allowed c); cbn; auto.
Qed.

Lemma signup_invalid E firstName lastName email password d :
  validatePassword password = false ->
  serve E (Signup firstName lastName email password) d
  = (Ok ValidationError, {| db := d; log := [] |}).
Proof.
  intros H. unfold serve, handle, signup, try_catch. rewrite H. reflexivity.
Qed.

Lemma reset_password_invalid E email otp newPassword d :
  validatePassword newPassword = false ->
  serve E (ResetPassword email otp newPassword) d
  = (Ok ValidationError, {| db := d; log := [] |}).
Proof.
  intros H. unfold serve, handle, reset_password, try_catch. rewrite H. reflexivity.
Qed.

(** C6. A password that fails the stated policy (one lowercase letter,
    one uppercase letter, one digit, one allowed symbol, length at
    least 6), or more generally one the regular expression rejects,
    makes [signup] and [resetPassword] answer 400 with the whole rule
    as the one message, and nothing else happens: the database is the
    one before the call and no collaborator was called. *)
Theorem rejected_password_is_validation_error :
  forall E firstName lastName email otp password d,
    policy_spec password = false \/ validatePassword password = false ->
    serve E (Signup firstName lastName email password) d
    = (Ok {| status := 400; body := JObj [("message", JStr password_rule)] |},
       {| db := d; log := [] |}) /\
    serve E (ResetPassword email otp password) d
    = (Ok {| status := 400; body := JObj [("message", JStr password_rule)] |},
       {| db := d; log := [] |}).
Proof.
  intros E firstName lastName email otp password d H.
  assert (Hv : validatePassword password = false).
  { destruct H as [H|H]; [now apply policy_spec_rejects | exact H]. }
  split.
  - now apply signup_invalid.
  - now apply reset_password_invalid.
Qed.

Lemma rejected_password_is_validation_error_witness :
  policy_spec "abcdef" = false /\
  serve some_env (Signup "A" "B" "a@x.com" "abcdef") empty_db
  = (Ok ValidationError, {| db := empty_db; log := [] |}) /\
  serve some_env (ResetPassword "a@x.com" "123456" "abcdef") empty_db
  = (Ok ValidationError, {| db := empty_db; log := [] |}).
Proof.
  split; [reflexivity|].
  apply (rejected_password_is_validation_error
           some_env "A" "B" "a@x.com" "123456" "abcdef" empty_db).
  left. reflexivity.
Defined.

(** C10. The policy restricts the alphabet: a password with a character
    that is not a letter, a digit or one of [@ $ ! % * ? &] is rejected
    by [signup] and [resetPassword] with the validation error, also
    when it has a character of each required class and six or more
    characters. *)
Theorem foreign_character_is_validation_error :
  forall E firstName lastName email otp password d,
    has_char (fun c => negb (is_allowed c)) password = true ->
    validatePassword password = false /\
    serve E (Signup firstName lastName email password) d
    = (Ok ValidationError, {| db := d; log := [] |}) /\
    serve E (ResetPassword email otp password) d
    = (Ok ValidationError, {| db := d; log := [] |}).
Proof.
  intros E firstName lastName email otp password d H.
  assert (Hv : validatePassword password = false).
  { rewrite validatePassword_spec, (foreign_char_rejects _ H).
    apply andb_false_r. }
  split; [exact Hv|]. split.
  - now apply signup_invalid.
  - now apply reset_password_invalid.
Qed.

Lemma foreign_character_is_validation_error_witness :
  policy_spec "Abc123!#" = true /\
  validatePassword "Abc123!#" = false /\
  serve some_env (Signup "A" "B" "a@x.com" "Abc123!#") empty_db
  = (Ok ValidationError, {| db := empty_db; log := [] |}) /\
  serve some_env (ResetPassword "a@x.com" "123456" "Abc123!#") empty_db
  = (Ok ValidationError, {| db := empty_db; log := [] |}).
Proof.
  split; [reflexivity|].
  apply (foreign_character_is_validation_error
           some_env "A" "B" "a@x.com" "123456" "Abc123!#" empty_db).
  reflexivity.
Defined.

(* ================================================================== *)
(** * Login                                                           *)
(* ================================================================== *)

Ltac run_route :=
  unfold serve, handle, signup, verify_otp, login, forgot_password,
    reset_password, delete_account, logout, google_signup, try_catch,
    user_findUnique, user_findUnique_include, user_update, user_create,
    bcrypt_hash, bcrypt_compare, jwt_sign_userId, sendEmail, verifyIdToken,
    bind, ret, throw, get_db, put_db, emit;
  cbn [db log fst snd].

Ltac step := cbn [db log fst snd negb or_empty app new_email].

Lemma find_has_email email us u :
  find (has_email email) us = Some u -> user_email u = email /\ In u us.
Proof.
  intros H. apply find_some in H. destruct H as [Hin He].
  split; [now apply String.eqb_eq | exact Hin].
Qed.

Lemma find_existsb {A} (f : A -> bool) l x :
  find f l = Some x -> existsb f l = true.
Proof.
  intros H. apply find_some in H. apply existsb_exists. now exists x.
Qed.

Lemma find_none_existsb {A} (f : A -> bool) l :
  find f l = None -> existsb f l = false.
Proof.
  induction l as [|a l IH]; cbn; [reflexivity|].
  destruct (f a); [discriminate|]. exact IH.
Qed.

Lemma find_app_new {A} (f : A -> bool) l x :
  find f l = None -> f x = true -> find f (l ++ [x]) = Some x.
Proof.
  induction l as [|a l IH]; cbn; intros Hn Hx.
  - now rewrite Hx.
  - destruct (f a); [discriminate|]. now apply IH.
Qed.

(** C2. An account that is not verified cannot log in: whatever the
    submitted password, the answer is the unverified error, it carries
    no token, and the handler stops before bcrypt or jsonwebtoken is
    called (nothing is logged) and without touching the database. *)
Theorem unverified_login_is_rejected :
  forall E d email password user,
    find (has_email email) (users d) = Some user ->
    user_isVerified user = false ->
    serve E (Login email password) d
    = (Ok UnverifiedError, {| db := d; log := [] |}) /\
    has_token UnverifiedError = false /\
    (forall s hash, ~ In (BcryptCompare s hash)
                         (log_of (serve E (Login email password) d))) /\
    (forall userId expiresIn, ~ In (JwtSign userId expiresIn)
                                   (log_of (serve E (Login email password) d))).
Proof.
  intros E d email password user Hfind Hver.
  assert (Hrun : serve E (Login email password) d
                 = (Ok UnverifiedError, {| db := d; log := [] |})).
  { run_route. rewrite Hfind, Hver. reflexivity. }
  split; [exact Hrun|]. split; [reflexivity|].
  unfold log_of. rewrite Hrun. cbn. split; intros; tauto.
Qed.

Lemma unverified_login_is_rejected_witness :
  serve some_env (Login "alice@example.com" "Secret1!") alice_db
  = (Ok UnverifiedError, {| db := alice_db; log := [] |}).
Proof.
  apply (unverified_login_is_rejected
           some_env alice_db "alice@example.com" "Secret1!" alice);
    reflexivity.
Defined.

Lemma login_empty_hash E d email password user :
  find (has_email email) (users d) = Some user ->
  user_password user = "" ->
  user_isVerified user = true ->
  serve E (Login email password) d
  = (Ok InvalidCredentialError,
     {| db := d; log := [BcryptCompare password ""] |}).
Proof.
  intros Hfind Hpw Hver. run_route. rewrite Hfind, Hver, Hpw. reflexivity.
Qed.

Lemma google_signup_creates E d token payload email :
  google_ticket E token = Ok (Some payload) ->
  payload_email payload = Some email ->
  email <> "" ->
  find (has_email email) (users d) = None ->
  exists u,
    find (has_email email) (users (db_of (serve E (GoogleSignup token) d))) = Some u /\
    users (db_of (serve E (GoogleSignup token) d)) = (users d ++ [u])%list /\
    user_id u = nextUserId d /\
    user_email u = email /\
    (user_firstName u, user_lastName u)
    = googleNames email (payload_name payload) (payload_given_name payload)
        (payload_family_name payload) /\
    user_password u = "" /\ user_isVerified u = true /\
    user_otp u = None /\ user_otpExpiry u = None /\
    response_of (serve E (GoogleSignup token) d)
    = Some {| status := 201;
              body := JObj [("message", JStr "User created successfully");
                            ("token", JStr (jwt_sign E (user_id u) "24h"));
                            ("user", identity u)] |}.
Proof.
  intros Hticket Hemail Hne Hfind.
  assert (Htruthy : truthy (payload_email payload) = true).
  { rewrite Hemail. cbn. destruct (String.eqb_spec email ""); [contradiction|reflexivity]. }
  unfold db_of, response_of. run_route.
  rewrite Hticket. step. rewrite Htruthy. step. rewrite Hemail. step.
  rewrite Hfind.
  destruct (googleNames email (payload_name payload) (payload_given_name payload)
              (payload_family_name payload)) as [firstName lastName] eqn:Hnames.
  step. rewrite (find_none_existsb _ _ Hfind). step.
  eexists. split.
  - apply find_app_new; [exact Hfind|]. unfold has_email, new_row. cbn.
    apply String.eqb_refl.
  - cbn. repeat split; reflexivity.
Qed.

(** C3. A federated-only account, one whose stored hash is empty as
    Google sign-in creates it, rejects password login whatever the
    submitted password: the answer is the invalid-credential error, it
    carries no token, jsonwebtoken is never called and the database is
    untouched.  This holds for any verified account with an empty hash,
    and in particular for the account a Google sign-in has just
    created. *)
Theorem federated_account_rejects_password_login :
  forall E d email password,
    (exists user,
        find (has_email email) (users d) = Some user /\
        user_password user = "" /\ user_isVerified user = true) \/
    (exists E0 d0 token payload,
        google_ticket E0 token = Ok (Some payload) /\
        payload_email payload = Some email /\ email <> "" /\
        find (has_email email) (users d0) = None /\
        d = db_of (serve E0 (GoogleSignup token) d0)) ->
    serve E (Login email password) d
    = (Ok InvalidCredentialError,
       {| db := d; log := [BcryptCompare password ""] |}) /\
    has_token InvalidCredentialError = false.
Proof.
  intros E d email password H.
  split; [|reflexivity].
  destruct H as [(user & Hfind & Hpw & Hver)
                | (E0 & d0 & token & payload & Ht & He & Hne & Hfind & ->)].
  - now apply (login_empty_hash E d email password user).
  - destruct (google_signup_creates E0 d0 token payload email Ht He Hne Hfind)
      as (u & Hu & _ & _ & _ & _ & Hpw & Hver & _).
    now apply (login_empty_hash E _ email password u).
Qed.

Lemma federated_account_rejects_password_login_witness :
  serve some_env (Login "bob@example.com" "Secret1!")
        (db_of (serve google_env (GoogleSignup "id-token") empty_db))
  = (Ok InvalidCredentialError,
     {| db := db_of (serve google_env (GoogleSignup "id-token") empty_db);
        log := [BcryptCompare "Secret1!" ""] |}) /\
  has_token InvalidCredentialError = false.
Proof.
  apply (federated_account_rejects_password_login some_env).
  right. exists google_env, empty_db, "id-token", bob_payload.
  repeat split; try reflexivity. discriminate.
Defined.

(* ================================================================== *)
(** * One-time codes: the check                                       *)
(* ================================================================== *)

Lemma strict_neq_true stored supplied :
  strict_neq stored supplied = true <-> stored <> Some supplied.
Proof.
  destruct stored as [s|]; cbn.
  - destruct (String.eqb_spec s supplied) as [->|Hne]; cbn.
    + split; [discriminate | intros H; now elim H].
    + split; [intros _ H; injection H; exact Hne | reflexivity].
  - split; [intros _; discriminate | reflexivity].
Qed.

Lemma date_gt_true now expiry :
  date_gt now expiry = true <-> expired now expiry.
Proof. destruct expiry; cbn; apply Z.ltb_lt. Qed.

Lemma otp_check_true now user supplied :
  strict_neq (user_otp user) supplied || date_gt now (user_otpExpiry user) = true
  <-> (user_otp user <> Some supplied \/ expired now (user_otpExpiry user)).
Proof.
  rewrite orb_true_iff, strict_neq_true, date_gt_true. reflexivity.
Qed.

Lemma verify_otp_run E d email supplied user :
  find (has_email email) (users d) = Some user ->
  serve E (VerifyOtp email supplied) d
  = if strict_neq (user_otp user) supplied || date_gt (Date_now E) (user_otpExpiry user)
    then (Ok InvalidOtpError, {| db := d; log := [] |})
    else (Ok {| status := 200;
                body := JObj [("message", JStr "Email verified successfully");
                              ("token", JStr (jwt_sign E (user_id user) "240h"))] |},
          {| db := set_users d
                     (map (fun u => if has_email email u
                                    then {| user_id := user_id u;
                                            user_firstName := user_firstName u;
                                            user_lastName := user_lastName u;
                                            user_email := user_email u;
                                            user_password := user_password u;
                                            user_otp := None; user_otpExpiry := None;
                                            user_isVerified := true |}
                                    else u) (users d));
             log := [JwtSign (user_id user) "240h"] |}).
Proof.
  intros Hfind. run_route. rewrite Hfind.
  destruct (strict_neq (user_otp user) supplied || date_gt (Date_now E) (user_otpExpiry user));
    [reflexivity|].
  step. rewrite (find_existsb _ _ _ Hfind). reflexivity.
Qed.

Lemma reset_password_run E d email supplied newPassword user :
  validatePassword newPassword = true ->
  find (has_email email) (users d) = Some user ->
  serve E (ResetPassword email supplied newPassword) d
  = if strict_neq (user_otp user) supplied || date_gt (Date_now E) (user_otpExpiry user)
    then (Ok InvalidOtpError, {| db := d; log := [] |})
    else (Ok (message_only 200 "Password reset successfully"),
          {| db := set_users d
                     (map (fun u => if has_email email u
                                    then {| user_id := user_id u;
                                            user_firstName := user_firstName u;
                                            user_lastName := user_lastName u;
                                            user_email := user_email u;
                                            user_password := bcrypt_digest E newPassword;
                                            user_otp := None; user_otpExpiry := None;
                                            user_isVerified := user_isVerified u |}
                                    else u) (users d));
             log := [BcryptHash newPassword] |}).
Proof.
  intros Hvalid Hfind. run_route. rewrite Hvalid. step. rewrite Hfind.
  destruct (strict_neq (user_otp user) supplied || date_gt (Date_now E) (user_otpExpiry user));
    [reflexivity|].
  step. rewrite (find_existsb _ _ _ Hfind). reflexivity.
Qed.

(** C5, as the code has it.  For an existing account, [verifyOtp]
    fails with the invalid-OTP error exactly when the stored code
    differs from the supplied one or the current time is past the
    stored expiry (a cleared expiry counting as past); [resetPassword]
    does so too once the new password has passed the policy, which it
    checks first.  Whichever of the two conditions holds, a wrong code
    or a correct but expired one, the outcome is the same: status 400,
    the message "Invalid or expired OTP", the database untouched and no
    collaborator called. *)
Theorem otp_failure_is_one_generic_error :
  forall E d email supplied newPassword user,
    find (has_email email) (users d) = Some user ->
    (response_of (serve E (VerifyOtp email supplied) d) = Some InvalidOtpError
     <-> (user_otp user <> Some supplied \/
          expired (Date_now E) (user_otpExpiry user))) /\
    (validatePassword newPassword = true ->
     (response_of (serve E (ResetPassword email supplied newPassword) d)
      = Some InvalidOtpError
      <-> (user_otp user <> Some supplied \/
           expired (Date_now E) (user_otpExpiry user)))) /\
    (user_otp user <> Some supplied \/ expired (Date_now E) (user_otpExpiry user) ->
     serve E (VerifyOtp email supplied) d
     = (Ok {| status := 400;
              body := JObj [("message", JStr "Invalid or expired OTP")] |},
        {| db := d; log := [] |}) /\
     (validatePassword newPassword = true ->
      serve E (ResetPassword email supplied newPassword) d
      = (Ok {| status := 400;
               body := JObj [("message", JStr "Invalid or expired OTP")] |},
         {| db := d; log := [] |}))).
Proof.
  intros E d email supplied newPassword user Hfind.
  pose proof (otp_check_true (Date_now E) user supplied) as Hcheck.
  pose proof (verify_otp_run E d email supplied user Hfind) as Hv.
  split; [|split].
  - unfold response_of. rewrite Hv.
    destruct (strict_neq (user_otp user) supplied
              || date_gt (Date_now E) (user_otpExpiry user)); cbn.
    + split; [intros _; now apply Hcheck | reflexivity].
    + split; [discriminate | intros H; apply Hcheck in H; discriminate].
  - intros Hvalid.
    unfold response_of.
    rewrite (reset_password_run E d email supplied newPassword user Hvalid Hfind).
    destruct (strict_neq (user_otp user) supplied
              || date_gt (Date_now E) (user_otpExpiry user)); cbn.
    + split; [intros _; now apply Hcheck | reflexivity].
    + split; [discriminate | intros H; apply Hcheck in H; discriminate].
  - intros Hfail. apply Hcheck in Hfail. split.
    + rewrite Hv, Hfail. reflexivity.
    + intros Hvalid.
      rewrite (reset_password_run E d email supplied newPassword user Hvalid Hfind),
        Hfail.
      reflexivity.
Qed.

(** The stored code is right but the clock is past the expiry: the
    same answer as for a wrong code. *)
Lemma otp_failure_is_one_generic_error_witness :
  serve {| Math_random := 0; Date_now := 1700000300001;
           bcrypt_digest := bcrypt_digest some_env;
           bcrypt_matches := bcrypt_matches some_env;
           jwt_sign := jwt_sign some_env; smtp_error := None;
           google_ticket := google_ticket some_env;
           tx_error := tx_error some_env |}
        (VerifyOtp "alice@example.com" "482913") alice_db
  = serve some_env (VerifyOtp "alice@example.com" "000000") alice_db.
Proof.
  transitivity (Ok InvalidOtpError, {| db := alice_db; log := [] |}).
  - refine (proj1 (proj2 (proj2
      (otp_failure_is_one_generic_error _ alice_db "alice@example.com"
         "482913" "Secret1!" alice eq_refl)) _)).
    right. cbn. lia.
  - symmetry.
    refine (proj1 (proj2 (proj2
      (otp_failure_is_one_generic_error some_env alice_db "alice@example.com"
         "000000" "Secret1!" alice eq_refl)) _)).
    left. discriminate.
Defined.

(** C5 as stated fails for [resetPassword]: with a wrong code and a
    new password that does not meet the policy, the failure is the
    validation error, not the invalid-OTP error. *)
Lemma reset_password_checks_policy_before_otp :
  ~ (forall E d email supplied newPassword user,
        find (has_email email) (users d) = Some user ->
        (response_of (serve E (ResetPassword email supplied newPassword) d)
         = Some InvalidOtpError
         <-> (user_otp user <> Some supplied \/
              expired (Date_now E) (user_otpExpiry user)))).
Proof.
  intros H.
  specialize (H some_env alice_db "alice@example.com" "000000" "weak" alice
                eq_refl).
  destruct H as [_ H].
  assert (Hwrong : user_otp alice <> Some "000000") by discriminate.
  specialize (H (or_introl Hwrong)).
  vm_compute in H. discriminate.
Qed.

(* ================================================================== *)
(** * Google sign-in: the names of a new account                      *)
(* ================================================================== *)

Lemma split_nonempty sep s : split sep s <> [].
Proof.
  destruct s as [|c rest]; cbn; [discriminate|].
  destruct (Ascii.eqb c sep); [discriminate|].
  destruct (split sep rest); discriminate.
Qed.

Lemma join_split sep s : join (String sep "") (split sep s) = s.
Proof.
  induction s as [|c rest IH]; cbn; [reflexivity|].
  destruct (Ascii.eqb_spec c sep) as [->|Hne].
  - pose proof (split_nonempty sep rest) as Hnil.
    destruct (split sep rest) as [|p ps]; [contradiction|].
    cbn in IH |- *. now rewrite IH.
  - destruct (split sep rest) as [|p ps]; cbn in IH |- *.
    + now rewrite <- IH.
    + destruct ps; cbn in IH |- *; now rewrite <- IH.
Qed.

(** The first piece of [s.split(sep)] is [s] up to its first [sep], and
    the other pieces joined by [sep] are what follows that [sep]. *)
Lemma split_first sep s :
  exists p ps,
    split sep s = p :: ps /\
    has_char (fun c => Ascii.eqb c sep) p = false /\
    ((ps = [] /\ s = p) \/
     (ps <> [] /\ s = p ++ String sep (join (String sep "") ps))).
Proof.
  induction s as [|c rest IH]; cbn.
  - exists "", []. repeat split. now left.
  - destruct (Ascii.eqb_spec c sep) as [->|Hne].
    + exists "", (split sep rest). repeat split. right. split.
      * apply split_nonempty.
      * cbn. now rewrite join_split.
    + destruct IH as (p & ps & Hsplit & Hp & Hs). rewrite Hsplit.
      exists (String c p), ps. split; [reflexivity|]. split.
      * cbn. rewrite Hp. destruct (Ascii.eqb_spec c sep); [contradiction|reflexivity].
      * destruct Hs as [[-> ->]|[Hps ->]]; [left | right]; split; auto.
Qed.

Lemma string_or_empty_id s : string_or_empty s = s.
Proof.
  unfold string_or_empty. now destruct (String.eqb_spec s "") as [->|].
Qed.

Lemma truthy_some v s : v = Some s -> s <> "" -> truthy v = true.
Proof.
  intros -> Hne. cbn. destruct (String.eqb_spec s ""); [contradiction|reflexivity].
Qed.

(** C9, as the code has it.  The names of an account that Google
    sign-in creates are, in this order of preference: (a) the given and
    family names of the payload when both are non-empty; (b) otherwise,
    when the display name is non-empty, the display name cut at its
    first space character: what precedes it is the first name, what
    follows it the last name (all of it the first name when it has no
    space); (c) otherwise the email up to its first [@] as first name
    and the empty last name. *)
Theorem google_names_by_preference :
  forall E d token payload email,
    google_ticket E token = Ok (Some payload) ->
    payload_email payload = Some email ->
    email <> "" ->
    find (has_email email) (users d) = None ->
    exists u,
      users (db_of (serve E (GoogleSignup token) d)) = (users d ++ [u])%list /\
      user_email u = email /\
      (forall given family,
          payload_given_name payload = Some given -> given <> "" ->
          payload_family_name payload = Some family -> family <> "" ->
          user_firstName u = given /\ user_lastName u = family) /\
      (truthy (payload_given_name payload)
       && truthy (payload_family_name payload) = false ->
       forall name,
         payload_name payload = Some name -> name <> "" ->
         has_char (fun c => Ascii.eqb c " ") (user_firstName u) = false /\
         ((has_char (fun c => Ascii.eqb c " ") name = false /\
           user_firstName u = name /\ user_lastName u = "") \/
          name = user_firstName u ++ " " ++ user_lastName u)) /\
      (truthy (payload_given_name payload)
       && truthy (payload_family_name payload) = false ->
       truthy (payload_name payload) = false ->
       has_char (fun c => Ascii.eqb c "@") (user_firstName u) = false /\
       user_lastName u = "" /\
       (email = user_firstName u \/
        exists domain, email = user_firstName u ++ "@" ++ domain)).
Proof.
  intros E d token payload email Hticket Hemail Hne Hfind.
  destruct (google_signup_creates E d token payload email Hticket Hemail Hne Hfind)
    as (u & _ & Husers & _ & Huemail & Hnames & _).
  exists u. split; [exact Husers|]. split; [exact Huemail|].
  unfold googleNames in Hnames. rewrite string_or_empty_id in Hnames.
  split; [|split].
  - intros given family Hg Hgne Hf Hfne.
    rewrite (truthy_some _ _ Hg Hgne), (truthy_some _ _ Hf Hfne), Hg, Hf in Hnames.
    cbn in Hnames. injection Hnames as Hfirst Hlast. now split.
  - intros Hnot name Hname Hnne.
    rewrite Hnot, (truthy_some _ _ Hname Hnne), Hname in Hnames.
    cbn [or_empty] in Hnames.
    destruct (split_first " " name) as (p & ps & Hsplit & Hp & Hs).
    rewrite Hsplit in Hnames. cbn in Hnames.
    injection Hnames as Hfirst Hlast. rewrite Hfirst, Hlast.
    split; [exact Hp|].
    destruct Hs as [[-> ->]|[_ ->]].
    + left. now rewrite Hp.
    + right. reflexivity.
  - intros Hnot Hnoname.
    rewrite Hnot, Hnoname in Hnames.
    destruct (split_first "@" email) as (p & ps & Hsplit & Hp & Hs).
    rewrite Hsplit in Hnames. cbn in Hnames.
    injection Hnames as Hfirst Hlast. rewrite Hfirst, Hlast.
    split; [exact Hp|]. split; [reflexivity|].
    destruct Hs as [[_ ->]|[_ ->]].
    + now left.
    + right. eexists. reflexivity.
Qed.

Lemma google_names_by_preference_witness :
  exists u,
    users (db_of (serve ada_env (GoogleSignup "id-token") bob_db)) = [bob; u] /\
    user_firstName u = "Ada" /\ user_lastName u = "King Lovelace".
Proof.
  destruct (google_names_by_preference ada_env bob_db "id-token" ada_payload
              "ada@example.com" eq_refl eq_refl)
    as (u & Husers & _ & _ & Hb & _).
  - discriminate.
  - reflexivity.
  - exists u. split; [exact Husers|].
    destruct (Hb eq_refl "Ada King Lovelace" eq_refl) as [_ [[Hno _]|Hcut]].
    + discriminate.
    + vm_compute in Hno. discriminate.
    + cbn in Husers. injection Husers as <-. cbn. split; reflexivity.
Defined.

(** C9 as stated fails: the display name is split at space characters
    only, not at whitespace.  A name whose two words are separated by a
    tab is kept whole as the first name, where splitting on whitespace
    gives a first and a last name. *)
Lemma google_names_split_on_space_only :
  googleNames "ada@example.com" (Some tabbed_name) None None
  = (tabbed_name, "") /\
  googleNames_spec "ada@example.com" (Some tabbed_name) None None
  = ("Ada", "Lovelace") /\
  ~ (forall email name given_name family_name,
        googleNames email name given_name family_name
        = googleNames_spec email name given_name family_name).
Proof.
  split; [reflexivity|]. split; [reflexivity|].
  intros H. specialize (H "ada@example.com" (Some tabbed_name) None None).
  vm_compute in H. discriminate.
Qed.

(* ================================================================== *)
(** * Google sign-in: one account per email                           *)
(* ================================================================== *)

Lemma google_signup_existing E d token payload email u :
  google_ticket E token = Ok (Some payload) ->
  payload_email payload = Some email ->
  email <> "" ->
  find (has_email email) (users d) = Some u ->
  serve E (GoogleSignup token) d
  = (Ok {| status := 200;
           body := JObj [("message", JStr "User already exists");
                         ("token", JStr (jwt_sign E (user_id u) "24h"));
                         ("user", identity u)] |},
     {| db := d; log := [VerifyIdToken token; JwtSign (user_id u) "24h"] |}).
Proof.
  intros Hticket Hemail Hne Hfind.
  run_route. rewrite Hticket. step.
  rewrite (truthy_some _ _ Hemail Hne). step. rewrite Hemail. step.
  rewrite Hfind. reflexivity.
Qed.

Lemma find_none_filter {A} (f : A -> bool) l :
  find f l = None -> filter f l = [].
Proof.
  induction l as [|a l IH]; cbn; [reflexivity|].
  destruct (f a); [discriminate | exact IH].
Qed.

Lemma find_some_filter {A} (f : A -> bool) l x :
  find f l = Some x -> (1 <= List.length (filter f l))%nat.
Proof.
  induction l as [|a l IH]; cbn; [discriminate|].
  destruct (f a); cbn; [lia | exact IH].
Qed.

(** C8. Two Google sign-ins whose assertions resolve to the same email
    create at most one account.  After the first, the email has an
    account [u]; the second creates nothing (the database is the one
    the first call left) and answers 200 with a session token and the
    identity fields of [u].  The number of accounts under the email is
    what it was before the two calls, or one if there was none. *)
Theorem google_signin_twice_creates_one_account :
  forall E1 E2 d token1 token2 payload1 payload2 email,
    google_ticket E1 token1 = Ok (Some payload1) ->
    payload_email payload1 = Some email ->
    google_ticket E2 token2 = Ok (Some payload2) ->
    payload_email payload2 = Some email ->
    email <> "" ->
    exists u,
      find (has_email email) (users (db_of (serve E1 (GoogleSignup token1) d)))
      = Some u /\
      user_email u = email /\
      serve E2 (GoogleSignup token2) (db_of (serve E1 (GoogleSignup token1) d))
      = (Ok {| status := 200;
               body := JObj [("message", JStr "User already exists");
                             ("token", JStr (jwt_sign E2 (user_id u) "24h"));
                             ("user",
                              JObj [("id", JNum (user_id u));
                                    ("email", JStr (user_email u));
                                    ("firstName", JStr (user_firstName u));
                                    ("lastName", JStr (user_lastName u))])] |},
         {| db := db_of (serve E1 (GoogleSignup token1) d);
            log := [VerifyIdToken token2; JwtSign (user_id u) "24h"] |}) /\
      accounts_with email
        (db_of (serve E2 (GoogleSignup token2)
                  (db_of (serve E1 (GoogleSignup token1) d))))
      = Nat.max 1 (accounts_with email d).
Proof.
  intros E1 E2 d token1 token2 payload1 payload2 email Ht1 He1 Ht2 He2 Hne.
  destruct (find (has_email email) (users d)) as [u|] eqn:Hfind.
  - pose proof (google_signup_existing E1 d token1 payload1 email u Ht1 He1 Hne Hfind)
      as Hfirst.
    assert (Hd1 : db_of (serve E1 (GoogleSignup token1) d) = d).
    { unfold db_of. now rewrite Hfirst. }
    rewrite Hd1.
    pose proof (google_signup_existing E2 d token2 payload2 email u Ht2 He2 Hne Hfind)
      as Hsecond.
    exists u. split; [exact Hfind|].
    split; [apply (find_has_email _ _ _ Hfind)|].
    split; [exact Hsecond|].
    unfold db_of at 1. rewrite Hsecond. cbn [snd db].
    pose proof (find_some_filter _ _ _ Hfind). unfold accounts_with. lia.
  - destruct (google_signup_creates E1 d token1 payload1 email Ht1 He1 Hne Hfind)
      as (u & Hu & Husers & _ & Huemail & _).
    pose proof (google_signup_existing E2 _ token2 payload2 email u Ht2 He2 Hne Hu)
      as Hsecond.
    exists u. split; [exact Hu|]. split; [exact Huemail|].
    split; [exact Hsecond|].
    unfold db_of at 1. rewrite Hsecond. cbn [snd db].
    unfold accounts_with. rewrite Husers, filter_app, (find_none_filter _ _ Hfind).
    cbn. unfold has_email at 1. rewrite Huemail, String.eqb_refl. reflexivity.
Qed.

Lemma google_signin_twice_creates_one_account_witness :
  accounts_with "bob@example.com"
    (db_of (serve google_env (GoogleSignup "second")
              (db_of (serve google_env (GoogleSignup "first") empty_db))))
  = 1%nat.
Proof.
  destruct (google_signin_twice_creates_one_account google_env google_env
              empty_db "first" "second" bob_payload bob_payload "bob@example.com"
              eq_refl eq_refl eq_refl eq_refl)
    as (u & _ & _ & _ & Hcount).
  - discriminate.
  - exact Hcount.
Defined.

(* ================================================================== *)
(** * The OTP columns are set and cleared together                    *)
(* ================================================================== *)

Section Keeps.

Variable P : Db -> Prop.

Lemma keeps_ret {A} (a : A) : keeps P (ret a).
Proof. intros w H. exact H. Qed.

Lemma keeps_throw {A} e : keeps P (@throw A e).
Proof. intros w H. exact H. Qed.

Lemma keeps_emit ev : keeps P (emit ev).
Proof. intros w H. exact H. Qed.

Lemma keeps_bind {A B} (m : M A) (k : A -> M B) :
  keeps P m -> (forall a, keeps P (k a)) -> keeps P (bind m k).
Proof.
  intros Hm Hk w H. unfold bind. specialize (Hm w H).
  destruct (m w) as [[a|e] w']; cbn in *; [now apply Hk | exact Hm].
Qed.

Lemma keeps_try_catch {A} (body : M A) handler :
  keeps P body -> (forall e, keeps P (handler e)) -> keeps P (try_catch body handler).
Proof.
  intros Hb Hh w H. unfold try_catch. specialize (Hb w H).
  destruct (body w) as [[a|e] w']; cbn in *; [exact Hb | now apply Hh].
Qed.

(** Reading the database and then writing [f] of it. *)
Lemma keeps_modify {A} (f : Db -> M A) :
  (forall d w, db w = d -> P d -> P (db (snd (f d w)))) ->
  keeps P (bind get_db f).
Proof. intros Hf w H. unfold bind, get_db. cbn. now apply Hf. Qed.

Lemma keeps_transaction E body : keeps P body -> keeps P (transaction E body).
Proof.
  intros Hb w H. unfold transaction.
  assert (Hk : keeps P (body ;;; tx_statement E 5 (ret tt))).
  { apply keeps_bind; [exact Hb|]. intros _. unfold tx_statement.
    destruct (tx_error E 5); [apply keeps_throw | apply keeps_ret]. }
  specialize (Hk w H).
  destruct ((body ;;; tx_statement E 5 (ret tt)) w) as [[a|e] w']; cbn in *;
    [exact Hk | exact H].
Qed.

Lemma keeps_tx_statement E n run : keeps P run -> keeps P (tx_statement E n run).
Proof.
  intros H. unfold tx_statement. destruct (tx_error E n); [apply keeps_throw | exact H].
Qed.

End Keeps.

Lemma keeps_findUnique P email : keeps P (user_findUnique email).
Proof. intros w H. exact H. Qed.

Lemma keeps_findUnique_include P email : keeps P (user_findUnique_include email).
Proof. intros w H. exact H. Qed.

Lemma keeps_paired_create data :
  (new_otp data = None <-> new_otpExpiry data = None) ->
  keeps all_paired (user_create data).
Proof.
  intros Hdata. unfold user_create. apply keeps_modify. intros d w Hw Hd.
  destruct (existsb (has_email (new_email data)) (users d)); cbn.
  - now rewrite Hw.
  - unfold all_paired. cbn. apply Forall_app. split; [exact Hd|].
    constructor; [exact Hdata | constructor].
Qed.

Lemma keeps_paired_update email change :
  (forall u, paired (change u)) -> keeps all_paired (user_update email change).
Proof.
  intros Hchange. unfold user_update. apply keeps_modify. intros d w Hw Hd.
  destruct (existsb (has_email email) (users d)); cbn.
  - unfold all_paired in *. cbn. apply Forall_map.
    revert Hd. apply Forall_impl. intros u Hu.
    destruct (has_email email u); [apply Hchange | exact Hu].
  - now rewrite Hw.
Qed.

Lemma keeps_paired_cascade E user : keeps all_paired (delete_cascade E user).
Proof.
  unfold delete_cascade.
  repeat (apply keeps_bind; [|intros _]).
  - destruct (the_profile user); [|apply keeps_ret].
    apply keeps_tx_statement, keeps_modify. intros d w _ Hd. exact Hd.
  - apply keeps_tx_statement, keeps_modify. intros d w _ Hd. exact Hd.
  - destruct (the_profile user); [|apply keeps_ret].
    apply keeps_tx_statement, keeps_modify. intros d w Hw Hd.
    destruct (existsb _ _); cbn; [exact Hd | now rewrite Hw].
  - apply keeps_tx_statement, keeps_modify. intros d w Hw Hd.
    destruct (existsb _ _); cbn; [|now rewrite Hw].
    unfold all_paired in *. cbn. rewrite Forall_forall in *.
    intros x Hx. apply filter_In in Hx. now apply Hd.
Qed.

Lemma paired_both_set c t u :
  paired {| user_id := user_id u; user_firstName := user_firstName u;
            user_lastName := user_lastName u; user_email := user_email u;
            user_password := user_password u;
            user_otp := Some c; user_otpExpiry := Some t;
            user_isVerified := user_isVerified u |}.
Proof. split; discriminate. Qed.

(** Every route keeps the two OTP columns paired. *)
Lemma handle_keeps_paired E q : keeps all_paired (handle E q).
Proof.
  destruct q as [f l e p | e o | e p | e | e o p | e p | t | t]; cbn [handle].
  - (* signup *)
    apply keeps_try_catch; [|intros; apply keeps_ret].
    destruct (negb (validatePassword p)); [apply keeps_ret|].
    apply keeps_bind; [apply keeps_findUnique|]. intros [existing|]; [apply keeps_ret|].
    apply keeps_bind.
    { unfold bcrypt_hash. apply keeps_bind; [apply keeps_emit | intros; apply keeps_ret]. }
    intros hashed. apply keeps_bind.
    { apply keeps_paired_create. cbn. split; discriminate. }
    intros user. apply keeps_bind; [|intros; apply keeps_ret].
    unfold sendEmail. apply keeps_bind; [apply keeps_emit|]. intros _.
    destruct (smtp_error E); [apply keeps_throw | apply keeps_ret].
  - (* verify-otp *)
    apply keeps_try_catch; [|intros; apply keeps_ret].
    apply keeps_bind; [apply keeps_findUnique|]. intros [user|]; [|apply keeps_ret].
    destruct (_ || _); [apply keeps_ret|].
    apply keeps_bind.
    { apply keeps_paired_update. intros u. split; reflexivity. }
    intros _. apply keeps_bind; [|intros; apply keeps_ret].
    unfold jwt_sign_userId. apply keeps_bind; [apply keeps_emit | intros; apply keeps_ret].
  - (* login *)
    apply keeps_try_catch; [|intros; apply keeps_ret].
    apply keeps_bind; [apply keeps_findUnique|]. intros [user|]; [|apply keeps_ret].
    destruct (negb (user_isVerified user)); [apply keeps_ret|].
    apply keeps_bind.
    { unfold bcrypt_compare. apply keeps_bind; [apply keeps_emit | intros; apply keeps_ret]. }
    intros valid. destruct (negb valid); [apply keeps_ret|].
    apply keeps_bind; [|intros; apply keeps_ret].
    unfold jwt_sign_userId. apply keeps_bind; [apply keeps_emit | intros; apply keeps_ret].
  - (* forgot-password *)
    apply keeps_try_catch; [|intros; apply keeps_ret].
    apply keeps_bind; [apply keeps_findUnique|]. intros [user|]; [|apply keeps_ret].
    apply keeps_bind.
    { apply keeps_paired_update. intros u. apply paired_both_set. }
    intros _. apply keeps_bind; [|intros; apply keeps_ret].
    unfold sendEmail. apply keeps_bind; [apply keeps_emit|]. intros _.
    destruct (smtp_error E); [apply keeps_throw | apply keeps_ret].
  - (* reset-password *)
    apply keeps_try_catch; [|intros; apply keeps_ret].
    destruct (negb (validatePassword p)); [apply keeps_ret|].
    apply keeps_bind; [apply keeps_findUnique|]. intros [user|]; [|apply keeps_ret].
    destruct (_ || _); [apply keeps_ret|].
    apply keeps_bind.
    { unfold bcrypt_hash. apply keeps_bind; [apply keeps_emit | intros; apply keeps_ret]. }
    intros hashed. apply keeps_bind; [|intros; apply keeps_ret].
    apply keeps_paired_update. intros u. split; reflexivity.
  - (* delete-account *)
    apply keeps_try_catch; [|intros; apply keeps_ret].
    apply keeps_bind; [apply keeps_findUnique_include|].
    intros [user|]; [|apply keeps_ret].
    apply keeps_bind.
    { unfold bcrypt_compare. apply keeps_bind; [apply keeps_emit | intros; apply keeps_ret]. }
    intros valid. destruct (negb valid); [apply keeps_ret|].
    apply keeps_bind; [|intros; apply keeps_ret].
    apply keeps_transaction, keeps_paired_cascade.
  - (* logout *)
    apply keeps_try_catch; [|intros; apply keeps_ret].
    destruct (negb (truthy t)); apply keeps_ret.
  - (* google-signup *)
    apply keeps_try_catch; [|intros; apply keeps_ret].
    apply keeps_bind.
    { unfold verifyIdToken. apply keeps_bind; [apply keeps_emit|]. intros _.
      destruct (google_ticket E t); [apply keeps_ret | apply keeps_throw]. }
    intros [payload|]; [|apply keeps_ret].
    destruct (negb (truthy (payload_email payload))); [apply keeps_ret|].
    apply keeps_bind; [apply keeps_findUnique|]. intros [user|].
    + apply keeps_bind; [|intros; apply keeps_ret].
      unfold jwt_sign_userId. apply keeps_bind; [apply keeps_emit | intros; apply keeps_ret].
    + destruct (googleNames _ _ _ _) as [firstName lastName].
      apply keeps_bind.
      { apply keeps_paired_create. cbn. split; reflexivity. }
      intros user. apply keeps_bind; [|intros; apply keeps_ret].
      unfold jwt_sign_userId. apply keeps_bind; [apply keeps_emit | intros; apply keeps_ret].
Qed.

(** C7. In every database the router can reach, from one without
    pending codes and through any sequence of requests to any of its
    routes (signup, verifyOtp, forgotPassword and resetPassword among
    them), each account has its code and its expiry both null or both
    set, never one without the other. *)
Theorem otp_and_expiry_are_paired :
  forall d, reachable d ->
    forall u, In u (users d) ->
      (user_otp u = None /\ user_otpExpiry u = None) \/
      (exists c t, user_otp u = Some c /\ user_otpExpiry u = Some t).
Proof.
  intros d Hreach.
  assert (Hall : all_paired d).
  { induction Hreach as [d Hfresh | E q d Hreach IH].
    - unfold all_paired. revert Hfresh. apply Forall_impl.
      intros u [Ho He]. split; intros _; assumption.
    - exact (handle_keeps_paired E q {| db := d; log := [] |} IH). }
  intros u Hin.
  unfold all_paired in Hall. rewrite Forall_forall in Hall.
  specialize (Hall u Hin). destruct Hall as [H1 H2].
  destruct (user_otp u) as [c|], (user_otpExpiry u) as [t|].
  - right. now exists c, t.
  - specialize (H2 eq_refl). discriminate.
  - specialize (H1 eq_refl). discriminate.
  - now left.
Qed.

Lemma otp_and_expiry_are_paired_witness :
  reachable signed_up_db /\
  In ann (users signed_up_db) /\
  ((user_otp ann = None /\ user_otpExpiry ann = None) \/
   (exists c t, user_otp ann = Some c /\ user_otpExpiry ann = Some t)).
Proof.
  assert (Hreach : reachable signed_up_db).
  { apply reach_serve, reach_fresh. constructor. }
  assert (Hin : In ann (users signed_up_db)).
  { vm_compute. left. reflexivity. }
  split; [exact Hreach|]. split; [exact Hin|].
  exact (otp_and_expiry_are_paired signed_up_db Hreach ann Hin).
Defined.

(* ================================================================== *)
(** * Deleting an account                                             *)
(* ================================================================== *)

Lemma NoDup_map_inj {A B} (f : A -> B) l x y :
  NoDup (map f l) -> In x l -> In y l -> f x = f y -> x = y.
Proof.
  induction l as [|a l IH]; cbn; [tauto|].
  intros Hnd Hx Hy Hf. inversion Hnd as [|? ? Hnotin Hnd']; subst.
  destruct Hx as [->|Hx], Hy as [->|Hy].
  - reflexivity.
  - elim Hnotin. rewrite Hf. now apply in_map.
  - elim Hnotin. rewrite <- Hf. now apply in_map.
  - now apply IH.
Qed.

Lemma first_error_none E ns :
  first_error E ns = None <-> (forall n, In n ns -> tx_error E n = None).
Proof.
  induction ns as [|n ns IH]; cbn.
  - split; [intros _ n [] | reflexivity].
  - destruct (tx_error E n) as [e|] eqn:Hn.
    + split; [discriminate|]. intros H. specialize (H n (or_introl eq_refl)). congruence.
    + rewrite IH. split.
      * intros H m [<-|Hm]; [exact Hn | now apply H].
      * intros H m Hm. apply H. now right.
Qed.

Lemma first_error_some E ns e :
  first_error E ns = Some e -> exists n, In n ns /\ tx_error E n = Some e.
Proof.
  induction ns as [|n ns IH]; cbn; [discriminate|].
  destruct (tx_error E n) as [e'|] eqn:Hn.
  - intros [= <-]. exists n. split; [now left | exact Hn].
  - intros H. destruct (IH H) as (m & Hm & He). exists m. split; [now right | exact He].
Qed.

(** What [delete-account] does for an account whose password is
    accepted: it either commits all four deletions or, at the first
    failing statement, answers 500 on the database it started from. *)
Lemma delete_account_run E d email password u :
  find (has_email email) (users d) = Some u ->
  String.length (user_password u) = 60%nat ->
  bcrypt_matches E password (user_password u) = true ->
  serve E (DeleteAccount email password) d
  = match first_error E (tx_statements (has_profile d u)) with
    | Some e =>
        (Ok (server_error "Error deleting account" e),
         {| db := d; log := [BcryptCompare password (user_password u)] |})
    | None =>
        (Ok (message_only 200 "Account deleted successfully"),
         {| db := without_account d u;
            log := [BcryptCompare password (user_password u)] |})
    end.
Proof.
  intros Hfind Hlen Hmatch.
  assert (Hid : existsb (fun x => user_id x =? user_id u) (users d) = true).
  { apply existsb_exists. exists u. split; [|apply Z.eqb_refl].
    now apply find_some in Hfind. }
  unfold serve, handle, delete_account, try_catch, user_findUnique_include,
    bcrypt_compare, transaction, delete_cascade, tx_statement, has_profile,
    without_account, profile_of, tx_statements, first_error.
  unfold bind at 1 2 3. unfold get_db at 1, ret at 1, emit at 1. cbn [db log fst snd].
  rewrite Hfind. cbn [the_user the_profile].
  unfold ret at 1. rewrite Hlen, Hmatch. cbn [Nat.eqb negb].
  destruct (find (fun p => profile_userId p =? user_id u) (profiles d)) as [p|] eqn:Hp.
  - pose proof (find_existsb _ _ _ Hp) as Hpe.
    destruct (tx_error E 1) as [e1|]; [reflexivity|].
    destruct (tx_error E 2) as [e2|]; [reflexivity|].
    destruct (tx_error E 3) as [e3|]; [reflexivity|].
    destruct (tx_error E 4) as [e4|];
      [ unfold projectAverage_deleteMany, project_deleteMany, profile_delete,
          bind, get_db, put_db, ret, throw; cbn; rewrite Hpe; reflexivity |].
    destruct (tx_error E 5) as [e5|];
      unfold projectAverage_deleteMany, project_deleteMany, profile_delete,
        user_delete, set_users, bind, get_db, put_db, ret, throw; cbn;
      rewrite Hpe; cbn; rewrite Hid; reflexivity.
  - destruct (tx_error E 2) as [e2|]; [reflexivity|].
    destruct (tx_error E 4) as [e4|]; [reflexivity|].
    destruct (tx_error E 5) as [e5|];
      unfold project_deleteMany, user_delete, set_users, bind, get_db, put_db,
        ret, throw; cbn; rewrite Hid; reflexivity.
Qed.

Lemma without_account_gone d u :
  unique_keys d -> In u (users d) -> account_gone d u (without_account d u).
Proof.
  intros [Hemails Hprofiles] Hin.
  unfold account_gone, without_account, profile_of. cbn.
  split; [|split; [|split; [|split]]].
  - destruct (find _ (filter _ (users d))) as [x|] eqn:Hx; [|reflexivity].
    apply find_some in Hx. destruct Hx as [Hxin Hxe].
    apply filter_In in Hxin. destruct Hxin as [Hxin Hxid].
    apply String.eqb_eq in Hxe.
    assert (x = u) by (apply (NoDup_map_inj user_email (users d)); assumption).
    subst x. rewrite Z.eqb_refl in Hxid. discriminate.
  - intros x Hx. apply filter_In in Hx. destruct Hx as [_ Hx].
    apply negb_true_iff, Z.eqb_neq in Hx. exact Hx.
  - intros p Hp.
    destruct (find (fun p => profile_userId p =? user_id u) (profiles d)) eqn:Hfind.
    + apply filter_In in Hp. destruct Hp as [_ Hp].
      apply negb_true_iff, Z.eqb_neq in Hp. exact Hp.
    + apply (find_none _ _ Hfind) in Hp. now apply Z.eqb_neq in Hp.
  - intros j Hj. apply filter_In in Hj. destruct Hj as [_ Hj].
    apply negb_true_iff, Z.eqb_neq in Hj. exact Hj.
  - intros p a Hp Hpu Ha.
    destruct (find (fun p => profile_userId p =? user_id u) (profiles d))
      as [p0|] eqn:Hfind.
    + apply find_some in Hfind. destruct Hfind as [Hp0 Hp0u].
      apply Z.eqb_eq in Hp0u.
      assert (p = p0).
      { apply (NoDup_map_inj profile_userId (profiles d)); try assumption.
        congruence. }
      subst p0. apply filter_In in Ha. destruct Ha as [_ Ha].
      apply negb_true_iff, Z.eqb_neq in Ha. exact Ha.
    + apply (find_none _ _ Hfind) in Hp. apply Z.eqb_neq in Hp. contradiction.
Qed.

(** C4. [deleteAccount] is all-or-nothing.  For an account whose
    password is accepted, either no statement of the transaction fails,
    the answer is the success message, and no row of the account is
    left (no user row, no profile, no project, no project average of
    its profile); or the store fails at one of the statements, the
    answer is the 500 error with that failure's message, and the
    database is exactly the one before the call. *)
Theorem delete_account_is_all_or_nothing :
  forall E d email password u,
    unique_keys d ->
    find (has_email email) (users d) = Some u ->
    String.length (user_password u) = 60%nat ->
    bcrypt_matches E password (user_password u) = true ->
    ((forall n, In n (tx_statements (has_profile d u)) -> tx_error E n = None) /\
     response_of (serve E (DeleteAccount email password) d)
     = Some {| status := 200;
               body := JObj [("message", JStr "Account deleted successfully")] |} /\
     account_gone d u (db_of (serve E (DeleteAccount email password) d)))
    \/
    (exists n e,
        In n (tx_statements (has_profile d u)) /\ tx_error E n = Some e /\
        response_of (serve E (DeleteAccount email password) d)
        = Some {| status := 500;
                  body := JObj [("message", JStr "Error deleting account");
                                ("error", JStr e)] |} /\
        db_of (serve E (DeleteAccount email password) d) = d).
Proof.
  intros E d email password u Hkeys Hfind Hlen Hmatch.
  unfold response_of, db_of.
  rewrite (delete_account_run E d email password u Hfind Hlen Hmatch).
  destruct (first_error E (tx_statements (has_profile d u))) as [e|] eqn:Herr.
  - right. destruct (first_error_some _ _ _ Herr) as (n & Hn & He).
    exists n, e. repeat split; assumption.
  - left. split; [now apply first_error_none|]. split; [reflexivity|].
    cbn. apply without_account_gone; [exact Hkeys|].
    now apply find_some in Hfind.
Qed.

Lemma carol_db_unique_keys : unique_keys carol_db.
Proof.
  split; cbn; repeat constructor; cbn; intuition discriminate.
Qed.

(** The store fails at the third statement: nothing is deleted.  It
    does not fail: nothing of the account is left. *)
Lemma delete_account_is_all_or_nothing_witness :
  db_of (serve failing_env (DeleteAccount "carol@example.com" "Secret1!") carol_db)
  = carol_db /\
  account_gone carol_db carol
    (db_of (serve accepting_env (DeleteAccount "carol@example.com" "Secret1!") carol_db)).
Proof.
  split.
  - destruct (delete_account_is_all_or_nothing failing_env carol_db
                "carol@example.com" "Secret1!" carol carol_db_unique_keys
                eq_refl eq_refl eq_refl)
      as [(Hnone & _) | (n & e & _ & _ & _ & Hsame)].
    + specialize (Hnone 3%nat). cbn in Hnone.
      assert (Some "Connection lost" = @None string) by (apply Hnone; tauto).
      discriminate.
    + exact Hsame.
  - destruct (delete_account_is_all_or_nothing accepting_env carol_db
                "carol@example.com" "Secret1!" carol carol_db_unique_keys
                eq_refl eq_refl eq_refl)
      as [(_ & _ & Hgone) | (n & e & _ & He & _)].
    + exact Hgone.
    + discriminate.
Defined.

(* ================================================================== *)
(** * One-time codes: the generation                                  *)
(* ================================================================== *)

Lemma round_half_even_bounds n q :
  0 < q -> n / 2 ^ q <= Float64.round_half_even n q <= n / 2 ^ q + 1.
Proof.
  intros Hq. unfold Float64.round_half_even.
  destruct (_ <? _); [lia|]. destruct (_ <? _); [lia|]. destruct (Z.even _); lia.
Qed.

Lemma round_half_even_mono n n' q :
  0 < q -> n <= n' -> Float64.round_half_even n q <= Float64.round_half_even n' q.
Proof.
  intros Hq Hle.
  assert (Hpow : 0 < 2 ^ q) by (apply Z.pow_pos_nonneg; lia).
  pose proof (Z.div_le_mono n n' (2 ^ q) Hpow Hle) as Hdiv.
  destruct (Z.eq_dec (n / 2 ^ q) (n' / 2 ^ q)) as [Heq|Hne].
  - assert (Hmod : n mod 2 ^ q <= n' mod 2 ^ q).
    { rewrite !Z.mod_eq by lia. rewrite Heq. lia. }
    unfold Float64.round_half_even. rewrite Heq.
    destruct (n mod 2 ^ q <? 2 ^ (q - 1)) eqn:H1;
      destruct (n' mod 2 ^ q <? 2 ^ (q - 1)) eqn:H2;
      destruct (2 ^ (q - 1) <? n mod 2 ^ q) eqn:H3;
      destruct (2 ^ (q - 1) <? n' mod 2 ^ q) eqn:H4;
      destruct (Z.even (n' / 2 ^ q)); lia.
  - pose proof (round_half_even_bounds n q Hq).
    pose proof (round_half_even_bounds n' q Hq). lia.
Qed.

(** Rounding a multiple of [2^q] away [q] bits is exact. *)
Lemma round_half_even_exact m q :
  0 < q -> Float64.round_half_even (m * 2 ^ q) q = m.
Proof.
  intros Hq.
  assert (Hpow : 0 < 2 ^ q) by (apply Z.pow_pos_nonneg; lia).
  assert (Hh : 0 < 2 ^ (q - 1)) by (apply Z.pow_pos_nonneg; lia).
  unfold Float64.round_half_even.
  rewrite Z.mod_mul, Z.div_mul by lia.
  destruct (0 <? 2 ^ (q - 1)) eqn:H; [reflexivity|]. lia.
Qed.

Lemma log2_lt_pow2_le p k : 0 <= k -> p < 2 ^ k -> Z.log2 p < k \/ p <= 0.
Proof.
  intros Hk Hp. destruct (Z_lt_le_dec 0 p) as [Hpos|]; [left | now right].
  now apply Z.log2_lt_pow2.
Qed.

Lemma round_unfold t p :
  Float64.round t p
  = if Float64.cut t p =? 0 then p
    else Float64.round_half_even p (Float64.cut t p) * 2 ^ (Float64.cut t p - t).
Proof. reflexivity. Qed.

Lemma cut_mono t p p' : p <= p' -> Float64.cut t p <= Float64.cut t p'.
Proof. intros H. unfold Float64.cut. pose proof (Z.log2_le_mono p p' H). lia. Qed.

Lemma below_cut t p : 0 <= t -> 0 <= p -> p < 2 ^ (Float64.cut t p + 53).
Proof.
  intros Ht Hp. unfold Float64.cut.
  destruct (Z.eq_dec p 0) as [->|Hne].
  - apply Z.pow_pos_nonneg; lia.
  - pose proof (Z.log2_nonneg p).
    apply Z.lt_le_trans with (2 ^ (Z.succ (Z.log2 p))).
    + apply Z.log2_spec. lia.
    + apply Z.pow_le_mono_r; lia.
Qed.

Lemma above_cut t p : 0 <= t -> t < Float64.cut t p -> 2 ^ (Float64.cut t p + 52) <= p.
Proof.
  unfold Float64.cut. intros Ht H.
  assert (Hlog : Z.max (Z.log2 p - 52) t = Z.log2 p - 52) by lia.
  rewrite Hlog in *.
  assert (Hp : 0 < p).
  { destruct (Z_lt_le_dec 0 p); [assumption|]. rewrite Z.log2_nonpos in H by lia. lia. }
  replace (Z.log2 p - 52 + 52) with (Z.log2 p) by lia.
  now apply Z.log2_spec.
Qed.

(** Rounding is monotone. *)
Lemma round_mono t p p' :
  0 <= t -> 0 <= p -> p <= p' -> Float64.round t p <= Float64.round t p'.
Proof.
  intros Ht Hp Hle.
  pose proof (cut_mono t p p' Hle) as Hcut.
  assert (Hqt : t <= Float64.cut t p) by (unfold Float64.cut; lia).
  rewrite !round_unfold.
  destruct (Z.eqb_spec (Float64.cut t p') 0) as [Hz'|Hnz'].
  - destruct (Z.eqb_spec (Float64.cut t p) 0); lia.
  - assert (Hq' : 0 < Float64.cut t p') by lia.
    destruct (Z.eq_dec (Float64.cut t p) (Float64.cut t p')) as [Heq|Hne].
    + destruct (Z.eqb_spec (Float64.cut t p) 0); [lia|]. rewrite Heq.
      apply Z.mul_le_mono_nonneg_r; [apply Z.pow_nonneg; lia|].
      now apply round_half_even_mono.
    + (* the larger value is cut higher up: a power of two lies between *)
      assert (Hlt : Float64.cut t p < Float64.cut t p') by lia.
      assert (Hhigh : 2 ^ (Float64.cut t p' + 52) <= p') by (apply above_cut; lia).
      assert (Hupper : 2 ^ (52 + Float64.cut t p' - t)
                       <= Float64.round_half_even p' (Float64.cut t p') * 2 ^ (Float64.cut t p' - t)).
      { replace (52 + Float64.cut t p' - t) with (52 + (Float64.cut t p' - t)) by lia.
        rewrite Z.pow_add_r by lia.
        apply Z.mul_le_mono_nonneg_r; [apply Z.pow_nonneg; lia|].
        pose proof (round_half_even_bounds p' (Float64.cut t p') Hq').
        assert (2 ^ 52 <= p' / 2 ^ Float64.cut t p'); [|lia].
        apply Z.div_le_lower_bound; [apply Z.pow_pos_nonneg; lia|].
        rewrite <- Z.pow_add_r by lia.
        exact Hhigh. }
      apply Z.le_trans with (2 ^ (52 + Float64.cut t p' - t)); [|exact Hupper].
      pose proof (below_cut t p Ht Hp) as Hlow.
      destruct (Z.eqb_spec (Float64.cut t p) 0) as [Hz|Hnz].
      * rewrite Hz in Hlow. cbn [Z.add] in Hlow.
        apply Z.le_trans with (2 ^ 53); [lia|].
        apply Z.pow_le_mono_r; lia.
      * assert (Hq : 0 < Float64.cut t p) by lia.
        apply Z.le_trans with (2 ^ 53 * 2 ^ (Float64.cut t p - t)).
        -- apply Z.mul_le_mono_nonneg_r; [apply Z.pow_nonneg; lia|].
           pose proof (round_half_even_bounds p (Float64.cut t p) Hq).
           assert (p / 2 ^ Float64.cut t p < 2 ^ 53); [|lia].
           apply Z.div_lt_upper_bound; [apply Z.pow_pos_nonneg; lia|].
           rewrite <- Z.pow_add_r by lia. exact Hlow.
        -- rewrite <- Z.pow_add_r by lia. apply Z.pow_le_mono_r; lia.
Qed.

(** On the sample draws, the product and the sum computed by [Float64]
    are the ones of the Standard Library's IEEE 754 model. *)
Example Float64_agrees_with_spec_float :
  forallb
    (fun r =>
       Float64.is_double r &&
       match Float64.of_spec_float
               (SFadd 53 1024
                  (Float64.to_spec_float (Float64.of_int 100000))
                  (SFmul 53 1024 (Float64.to_spec_float r)
                     (Float64.to_spec_float (Float64.of_int 900000))))
       with
       | Some s =>
           s =? Float64.add (Float64.of_int 100000)
                  (Float64.mul r (Float64.of_int 900000))
       | None => false
       end)
    Float64.sample_draws
  = true.
Proof. vm_compute. reflexivity. Qed.

(** A value with at most 53 significant bits above the weight 2^-1074
    is a binary64 number: rounding returns it. *)
Lemma round_exact t k j :
  0 <= t -> t <= j -> 0 <= k < 2 ^ 53 ->
  Float64.round t (k * 2 ^ j) = k * 2 ^ (j - t).
Proof.
  intros Ht Hj Hk.
  assert (Hcut : Float64.cut t (k * 2 ^ j) <= j).
  { unfold Float64.cut. apply Z.max_lub; [|exact Hj].
    destruct (Z.eq_dec k 0) as [->|Hne]; [cbn; lia|].
    assert (Z.log2 (k * 2 ^ j) < 53 + j); [|lia].
    apply Z.log2_lt_pow2.
    - apply Z.mul_pos_pos; [lia | apply Z.pow_pos_nonneg; lia].
    - rewrite Z.pow_add_r by lia.
      apply Z.mul_lt_mono_pos_r; [apply Z.pow_pos_nonneg; lia | lia]. }
  assert (Hqt : t <= Float64.cut t (k * 2 ^ j)) by (unfold Float64.cut; lia).
  rewrite round_unfold.
  destruct (Z.eqb_spec (Float64.cut t (k * 2 ^ j)) 0) as [Hz|Hnz].
  - assert (t = 0) by lia. subst t. now rewrite Z.sub_0_r.
  - set (q := Float64.cut t (k * 2 ^ j)) in *.
    replace (k * 2 ^ j) with (k * 2 ^ (j - q) * 2 ^ q).
    + rewrite round_half_even_exact by lia.
      rewrite <- Z.mul_assoc, <- Z.pow_add_r by lia.
      f_equal. f_equal. lia.
    + rewrite <- Z.mul_assoc, <- Z.pow_add_r by lia. f_equal. f_equal. lia.
Qed.

(** The largest binary64 number below 1 is 1 - 2^-53. *)
Lemma random_below_one r :
  Float64.is_random r -> 0 <= r <= (2 ^ 53 - 1) * 2 ^ 1021.
Proof.
  intros [Hdouble Hlt]. unfold Float64.is_double in Hdouble.
  apply andb_prop in Hdouble. destruct Hdouble as [Hpos Hfix].
  apply Z.leb_le in Hpos. apply Z.eqb_eq in Hfix.
  split; [exact Hpos|].
  unfold Float64.unit in Hlt.
  rewrite round_unfold in Hfix.
  destruct (Z.eqb_spec (Float64.cut 0 r) 0) as [Hz|Hnz].
  - (* fewer than 54 bits *)
    pose proof (below_cut 0 r (Z.le_refl 0) Hpos) as Hlow. rewrite Hz in Hlow.
    apply Z.le_trans with (2 ^ 53 * 1); [cbn in *; lia|].
    apply Z.le_trans with (2 ^ 53 * 2 ^ 1020); [|vm_compute; discriminate].
    apply Z.mul_le_mono_nonneg_l; [vm_compute; discriminate|].
    vm_compute; discriminate.
  - set (q := Float64.cut 0 r) in *.
    assert (Hq : 0 < q) by (unfold q, Float64.cut in *; lia).
    assert (Hq1021 : q <= 1021).
    { unfold q, Float64.cut.
      destruct (log2_lt_pow2_le r 1074 ltac:(lia) Hlt) as [H|H]; [lia|].
      assert (r = 0) by lia. subst r. cbn. lia. }
    rewrite Z.sub_0_r in Hfix.
    set (m := Float64.round_half_even r q) in *.
    assert (Hpow : 0 < 2 ^ q) by (apply Z.pow_pos_nonneg; lia).
    assert (Hm : m <= 2 ^ 53).
    { pose proof (round_half_even_bounds r q Hq) as Hb. fold m in Hb.
      assert (r / 2 ^ q < 2 ^ 53); [|lia].
      apply Z.div_lt_upper_bound; [exact Hpow|].
      rewrite <- Z.pow_add_r by lia.
      exact (below_cut 0 r (Z.le_refl 0) Hpos). }
    destruct (Z.eq_dec q 1021) as [Hq'|Hq'].
    + rewrite Hq' in *. rewrite <- Hfix.
      apply Z.mul_le_mono_nonneg_r; [lia|].
      assert (m < 2 ^ 53); [|lia].
      apply (Z.mul_lt_mono_pos_r (2 ^ 1021)); [exact Hpow|].
      rewrite Hfix, <- Z.pow_add_r by lia. exact Hlt.
    + rewrite <- Hfix.
      apply Z.le_trans with (2 ^ 53 * 2 ^ 1020).
      * apply Z.le_trans with (m * 2 ^ 1020).
        -- apply Z.mul_le_mono_nonneg_l.
           ++ pose proof (round_half_even_bounds r q Hq) as Hb. fold m in Hb.
              pose proof (Z.div_pos r (2 ^ q) Hpos Hpow). lia.
           ++ apply Z.pow_le_mono_r; lia.
        -- apply Z.mul_le_mono_nonneg_r; [apply Z.pow_nonneg; lia | exact Hm].
      * vm_compute. discriminate.
Qed.

Lemma otp_number_range r :
  Float64.is_random r -> 100000 <= otp_number r <= 999999.
Proof.
  intros Hr. apply random_below_one in Hr.
  set (top := (2 ^ 53 - 1) * 2 ^ 1021) in *.
  unfold otp_number, Float64.mul, Float64.add.
  assert (Hc : 0 <= Float64.of_int 900000) by (vm_compute; discriminate).
  assert (Hy0 : Float64.round 1074 (0 * Float64.of_int 900000)
                <= Float64.round 1074 (r * Float64.of_int 900000)).
  { apply round_mono; [lia | lia |]. apply Z.mul_le_mono_nonneg_r; lia. }
  assert (Hy1 : Float64.round 1074 (r * Float64.of_int 900000)
                <= Float64.round 1074 (top * Float64.of_int 900000)).
  { apply round_mono; [lia | |].
    - apply Z.mul_nonneg_nonneg; lia.
    - apply Z.mul_le_mono_nonneg_r; lia. }
  set (y := Float64.round 1074 (r * Float64.of_int 900000)) in *.
  assert (Hy0' : 0 <= y).
  { apply Z.le_trans with (Float64.round 1074 (0 * Float64.of_int 900000));
      [vm_compute; discriminate | exact Hy0]. }
  assert (Hs0 : Float64.round 0 (Float64.of_int 100000 + 0)
                <= Float64.round 0 (Float64.of_int 100000 + y)).
  { apply round_mono; [lia | vm_compute; discriminate | lia]. }
  assert (Hs1 : Float64.round 0 (Float64.of_int 100000 + y)
                <= Float64.round 0
                     (Float64.of_int 100000
                      + Float64.round 1074 (top * Float64.of_int 900000))).
  { apply round_mono; [lia | | lia].
    assert (0 <= Float64.of_int 100000) by (vm_compute; discriminate). lia. }
  assert (Hunit : 0 < Float64.unit) by (vm_compute; reflexivity).
  unfold Float64.floor. split.
  - apply Z.le_trans
      with (Float64.round 0 (Float64.of_int 100000 + 0) / Float64.unit).
    + vm_compute. discriminate.
    + now apply Z.div_le_mono.
  - apply Z.le_trans
      with (Float64.round 0
              (Float64.of_int 100000
               + Float64.round 1074 (top * Float64.of_int 900000))
            / Float64.unit).
    + now apply Z.div_le_mono.
    + vm_compute. discriminate.
Qed.

Lemma digit_char_is_digit d : 0 <= d < 10 -> is_digit (digit_char d) = true.
Proof.
  intros H.
  assert (Hd : d = 0 \/ d = 1 \/ d = 2 \/ d = 3 \/ d = 4 \/ d = 5 \/ d = 6 \/
               d = 7 \/ d = 8 \/ d = 9) by lia.
  repeat (destruct Hd as [->|Hd]; [reflexivity|]). subst d. reflexivity.
Qed.

Lemma digit_value_char d : 0 <= d < 10 -> digit_value (digit_char d) = d.
Proof.
  intros H.
  assert (Hd : d = 0 \/ d = 1 \/ d = 2 \/ d = 3 \/ d = 4 \/ d = 5 \/ d = 6 \/
               d = 7 \/ d = 8 \/ d = 9) by lia.
  repeat (destruct Hd as [->|Hd]; [reflexivity|]). subst d. reflexivity.
Qed.

(** The numeral of a number of six digits, digit by digit. *)
Lemma Number_toString_six n :
  100000 <= n <= 999999 ->
  Number_toString n
  = String (digit_char (n / 100000 mod 10))
      (String (digit_char (n / 10000 mod 10))
         (String (digit_char (n / 1000 mod 10))
            (String (digit_char (n / 100 mod 10))
               (String (digit_char (n / 10 mod 10))
                  (String (digit_char (n mod 10)) ""))))).
Proof.
  intros Hn. unfold Number_toString.
  assert (Hlog : 16 <= Z.log2 n).
  { apply Z.log2_le_pow2; [lia|]. change (2 ^ 16) with 65536. lia. }
  destruct (Z.to_nat (Z.log2 n)) as [|[|[|[|[|fuel]]]]] eqn:Hfuel; try lia.
  cbn [digits_onto].
  assert (H1 : n / 10 / 10 = n / 100) by (rewrite Z.div_div by lia; reflexivity).
  assert (H2 : n / 100 / 10 = n / 1000) by (rewrite Z.div_div by lia; reflexivity).
  assert (H3 : n / 1000 / 10 = n / 10000) by (rewrite Z.div_div by lia; reflexivity).
  assert (H4 : n / 10000 / 10 = n / 100000) by (rewrite Z.div_div by lia; reflexivity).
  rewrite H1, H2, H3, H4.
  assert (B0 : (n <? 10) = false) by (apply Z.ltb_ge; lia).
  assert (B1 : (n / 10 <? 10) = false)
    by (apply Z.ltb_ge, Z.div_le_lower_bound; lia).
  assert (B2 : (n / 100 <? 10) = false)
    by (apply Z.ltb_ge, Z.div_le_lower_bound; lia).
  assert (B3 : (n / 1000 <? 10) = false)
    by (apply Z.ltb_ge, Z.div_le_lower_bound; lia).
  assert (B4 : (n / 10000 <? 10) = false)
    by (apply Z.ltb_ge, Z.div_le_lower_bound; lia).
  assert (B5 : (n / 100000 <? 10) = true)
    by (apply Z.ltb_lt, Z.div_lt_upper_bound; lia).
  rewrite B0, B1, B2, B3, B4, B5. reflexivity.
Qed.

(** The numeral of a number of six digits: six decimal digits, the
    first of them not 0, which denote the number. *)
Lemma Number_toString_six_digits n :
  100000 <= n <= 999999 ->
  six_digits (Number_toString n) /\
  decimal_value (Number_toString n) = n /\
  (exists c rest, Number_toString n = String c rest /\ c <> "0"%char).
Proof.
  intros Hn. rewrite (Number_toString_six n Hn).
  assert (D5 : 1 <= n / 100000 mod 10 < 10).
  { rewrite Z.mod_small.
    - split; [apply Z.div_le_lower_bound; lia | apply Z.div_lt_upper_bound; lia].
    - split; [apply Z.div_pos; lia | apply Z.div_lt_upper_bound; lia]. }
  pose proof (Z.mod_pos_bound (n / 10000) 10 eq_refl) as D4.
  pose proof (Z.mod_pos_bound (n / 1000) 10 eq_refl) as D3.
  pose proof (Z.mod_pos_bound (n / 100) 10 eq_refl) as D2.
  pose proof (Z.mod_pos_bound (n / 10) 10 eq_refl) as D1.
  pose proof (Z.mod_pos_bound n 10 eq_refl) as D0.
  split; [split|split].
  - reflexivity.
  - cbn [all_chars]. rewrite !digit_char_is_digit by lia. reflexivity.
  - unfold decimal_value. cbn [decimal_value_from].
    rewrite !digit_value_char by lia.
    clear D0 D1 D2 D3 D4 D5. Z.div_mod_to_equations. lia.
  - eexists _, _. split; [reflexivity|].
    intros Hc. apply (f_equal digit_value) in Hc.
    rewrite digit_value_char in Hc by lia.
    change (digit_value "0") with 0 in Hc. lia.
Qed.

(** No draw yields a number outside 100000..999999, and every number
    in that range is yielded by some draw. *)
Lemma otp_number_attained n :
  100000 <= n <= 999999 ->
  Float64.is_random (draw_for n) /\ otp_number (draw_for n) = n.
Proof.
  intros Hn. unfold draw_for.
  set (m := n - 100000).
  set (k := (2 * m + 1) * 2 ^ 52 / 900000).
  assert (Hp52 : 2 ^ 52 = 4503599627370496) by reflexivity.
  assert (Hp53 : 2 ^ 53 = 9007199254740992) by reflexivity.
  assert (Hp51 : 2 ^ 51 = 2251799813685248) by reflexivity.
  assert (Hk1 : 900000 * k <= (2 * m + 1) * 2 ^ 52)
    by (apply Z.mul_div_le; lia).
  assert (Hk2 : (2 * m + 1) * 2 ^ 52 < 900000 * Z.succ k)
    by (apply Z.mul_succ_div_gt; lia).
  assert (Hk : 0 <= k < 2 ^ 53).
  { split; [apply Z.div_pos; lia|]. rewrite Hp52 in *. rewrite Hp53. lia. }
  (* the draw is a number of [0, 1) *)
  assert (Hrandom : Float64.is_random (k * 2 ^ 1021)).
  { split.
    - unfold Float64.is_double. apply andb_true_intro. split.
      + apply Z.leb_le. apply Z.mul_nonneg_nonneg; [lia | apply Z.pow_nonneg; lia].
      + apply Z.eqb_eq. rewrite round_exact by lia. now rewrite Z.sub_0_r.
    - unfold Float64.unit. change 1074 with (53 + 1021).
      rewrite Z.pow_add_r by lia.
      apply Z.mul_lt_mono_pos_r; [apply Z.pow_pos_nonneg; lia | lia]. }
  split; [exact Hrandom|].
  unfold otp_number, Float64.mul, Float64.add, Float64.floor, Float64.of_int,
    Float64.unit.
  set (a := 2 ^ 1072).
  assert (Ha : 0 < a) by (apply Z.pow_pos_nonneg; lia).
  assert (Hunit : 2 ^ 1074 = 4 * a).
  { unfold a. change 1074 with (2 + 1072). now rewrite Z.pow_add_r by lia. }
  (* the product lies between m + 1/4 and m + 3/4 *)
  set (P := k * 2 ^ 1021 * (900000 * 2 ^ 1074)).
  assert (HP : P = 900000 * k * 2 ^ 2095).
  { unfold P. change 2095 with (1021 + 1074). rewrite Z.pow_add_r by lia. ring. }
  assert (Hsplit : 2 ^ 2146 = 2 ^ 51 * 2 ^ 2095).
  { change 2146 with (51 + 2095). now rewrite Z.pow_add_r by lia. }
  assert (Hb : 0 < 2 ^ 2095) by (apply Z.pow_pos_nonneg; lia).
  assert (HPlow : (4 * m + 1) * 2 ^ 2146 <= P).
  { rewrite HP, Hsplit, Z.mul_assoc.
    apply Z.mul_le_mono_nonneg_r; [lia|]. rewrite Hp51. rewrite Hp52 in *. lia. }
  assert (HPhigh : P <= (4 * m + 3) * 2 ^ 2146).
  { rewrite HP, Hsplit, Z.mul_assoc.
    apply Z.mul_le_mono_nonneg_r; [lia|]. rewrite Hp51. rewrite Hp52 in *. lia. }
  assert (HPpos : 0 <= P).
  { apply Z.le_trans with ((4 * m + 1) * 2 ^ 2146); [|exact HPlow].
    apply Z.mul_nonneg_nonneg; [lia | apply Z.pow_nonneg; lia]. }
  assert (Hylow : (4 * m + 1) * a <= Float64.round 1074 P).
  { replace ((4 * m + 1) * a) with (Float64.round 1074 ((4 * m + 1) * 2 ^ 2146)).
    - apply round_mono; [lia | | exact HPlow].
      apply Z.mul_nonneg_nonneg; [lia | apply Z.pow_nonneg; lia].
    - rewrite round_exact by lia. reflexivity. }
  assert (Hyhigh : Float64.round 1074 P <= (4 * m + 3) * a).
  { replace ((4 * m + 3) * a) with (Float64.round 1074 ((4 * m + 3) * 2 ^ 2146)).
    - apply round_mono; [lia | exact HPpos | exact HPhigh].
    - rewrite round_exact by lia. reflexivity. }
  set (y := Float64.round 1074 P) in *.
  (* so does the sum, between n + 1/4 and n + 3/4 *)
  rewrite Hunit.
  assert (Hslow : (4 * n + 1) * a <= Float64.round 0 (100000 * (4 * a) + y)).
  { replace ((4 * n + 1) * a) with (Float64.round 0 ((4 * n + 1) * 2 ^ 1072)).
    - apply round_mono; [lia | | fold a; lia].
      apply Z.mul_nonneg_nonneg; [lia | apply Z.pow_nonneg; lia].
    - rewrite round_exact by lia. reflexivity. }
  assert (Hshigh : Float64.round 0 (100000 * (4 * a) + y) <= (4 * n + 3) * a).
  { replace ((4 * n + 3) * a) with (Float64.round 0 ((4 * n + 3) * 2 ^ 1072)).
    - apply round_mono; [lia | lia | fold a; lia].
    - rewrite round_exact by lia. reflexivity. }
  set (s := Float64.round 0 (100000 * (4 * a) + y)) in *.
  symmetry. apply (Z.div_unique s (4 * a) n (s - 4 * a * n)); lia.
Qed.

Lemma signup_run E d firstName lastName email password :
  validatePassword password = true ->
  find (has_email email) (users d) = None ->
  smtp_error E = None ->
  serve E (Signup firstName lastName email password) d
  = (Ok {| status := 201;
           body := JObj [("message", JStr "User created. Please verify your email.")] |},
     {| db :=
          {| users :=
               users d ++
               [ {| user_id := nextUserId d;
                    user_firstName := firstName; user_lastName := lastName;
                    user_email := email;
                    user_password := bcrypt_digest E password;
                    user_otp := Some (generateOtp (Math_random E));
                    user_otpExpiry := Some (Date_now E + 600000);
                    user_isVerified := false |} ];
             profiles := profiles d; projects := projects d;
             projectAverages := projectAverages d;
             nextUserId := nextUserId d + 1 |};
        log := [ BcryptHash password;
                 SendMail email "Verify your email"
                   ("Your OTP is: " ++ generateOtp (Math_random E)) ] |}).
Proof.
  intros Hvalid Hfind Hsmtp. run_route. rewrite Hvalid. step. rewrite Hfind.
  step. rewrite (find_none_existsb _ _ Hfind). step. rewrite Hsmtp. reflexivity.
Qed.

Lemma forgot_password_run E d email u :
  find (has_email email) (users d) = Some u ->
  smtp_error E = None ->
  serve E (ForgotPassword email) d
  = (Ok {| status := 200;
           body := JObj [("message", JStr "Password reset OTP sent to email")] |},
     {| db :=
          set_users d
            (map (fun x =>
                    if has_email email x
                    then {| user_id := user_id x;
                            user_firstName := user_firstName x;
                            user_lastName := user_lastName x;
                            user_email := user_email x;
                            user_password := user_password x;
                            user_otp := Some (generateOtp (Math_random E));
                            user_otpExpiry := Some (Date_now E + 600000);
                            user_isVerified := user_isVerified x |}
                    else x) (users d));
        log := [ SendMail email "Reset Password"
                   ("Your password reset OTP is: " ++ generateOtp (Math_random E)) ] |}).
Proof.
  intros Hfind Hsmtp. run_route. rewrite Hfind. step.
  rewrite (find_existsb _ _ _ Hfind). step. rewrite Hsmtp. reflexivity.
Qed.

(** C1, as the code has it.  The code that [signup] and
    [forgotPassword] issue is the numeral of
    [Math.floor(100000 + Math.random() * 900000)]: six decimal digits
    denoting a number from 100000 to 999999, so never with a leading
    zero; it is stored with the expiry [Date.now()] plus 600000 ms (10
    minutes) and mailed.  Every number from 100000 to 999999 is the
    code of some draw. *)
Theorem issued_code_is_six_digits_from_100000 :
  (forall E,
      Float64.is_random (Math_random E) ->
      exists code,
        code = generateOtp (Math_random E) /\
        six_digits code /\
        100000 <= decimal_value code <= 999999 /\
        (exists c rest, code = String c rest /\ c <> "0"%char) /\
        (forall d firstName lastName email password,
            validatePassword password = true ->
            find (has_email email) (users d) = None ->
            smtp_error E = None ->
            response_of (serve E (Signup firstName lastName email password) d)
            = Some (message_only 201 "User created. Please verify your email.") /\
            users (db_of (serve E (Signup firstName lastName email password) d))
            = (users d ++
               [ {| user_id := nextUserId d;
                    user_firstName := firstName; user_lastName := lastName;
                    user_email := email;
                    user_password := bcrypt_digest E password;
                    user_otp := Some code;
                    user_otpExpiry := Some (Date_now E + 10 * 60 * 1000);
                    user_isVerified := false |} ])%list /\
            In (SendMail email "Verify your email" ("Your OTP is: " ++ code))
               (log_of (serve E (Signup firstName lastName email password) d))) /\
        (forall d email u,
            find (has_email email) (users d) = Some u ->
            smtp_error E = None ->
            response_of (serve E (ForgotPassword email) d)
            = Some (message_only 200 "Password reset OTP sent to email") /\
            (exists u',
                find (has_email email) (users (db_of (serve E (ForgotPassword email) d)))
                = Some u' /\
                user_otp u' = Some code /\
                user_otpExpiry u' = Some (Date_now E + 10 * 60 * 1000)) /\
            In (SendMail email "Reset Password" ("Your password reset OTP is: " ++ code))
               (log_of (serve E (ForgotPassword email) d)))) /\
  (forall n,
      100000 <= n <= 999999 ->
      exists r, Float64.is_random r /\
                generateOtp r = Number_toString n /\
                decimal_value (generateOtp r) = n).
Proof.
  split.
  - intros E Hr. exists (generateOtp (Math_random E)).
    pose proof (otp_number_range _ Hr) as Hrange.
    destruct (Number_toString_six_digits _ Hrange) as (Hsix & Hvalue & Hlead).
    fold (generateOtp (Math_random E)) in Hsix, Hvalue, Hlead.
    split; [reflexivity|]. split; [exact Hsix|].
    split; [rewrite Hvalue; exact Hrange|]. split; [exact Hlead|]. split.
    + intros d firstName lastName email password Hvalid Hfind Hsmtp.
      unfold response_of, db_of, log_of.
      rewrite (signup_run E d firstName lastName email password Hvalid Hfind Hsmtp).
      cbn [fst snd db log users]. split; [reflexivity|]. split; [reflexivity|].
      right. left. reflexivity.
    + intros d email u Hfind Hsmtp.
      unfold response_of, db_of, log_of.
      rewrite (forgot_password_run E d email u Hfind Hsmtp).
      cbn [fst snd db log users set_users]. split; [reflexivity|]. split.
      * clear Hr Hrange Hsix Hvalue Hlead.
        induction (users d) as [|x xs IH]; cbn in Hfind |- *; [discriminate|].
        destruct (has_email email x) eqn:Hx.
        -- cbn. unfold has_email in Hx |- *. cbn. rewrite Hx.
           eexists. split; [reflexivity|]. split; reflexivity.
        -- cbn. rewrite Hx. now apply IH.
      * left. reflexivity.
  - intros n Hn. exists (draw_for n).
    destruct (otp_number_attained n Hn) as [Hrandom Hnumber].
    split; [exact Hrandom|]. unfold generateOtp. rewrite Hnumber.
    split; [reflexivity|].
    now destruct (Number_toString_six_digits n Hn) as (_ & Hvalue & _).
Qed.

Lemma issued_code_is_six_digits_from_100000_witness :
  Float64.is_random (Math_random some_env) /\
  exists code,
    code = "100000" /\
    users (db_of (serve some_env (Signup "Ann" "Lee" "ann@example.com" "Abc123!")
                    empty_db))
    = [ {| user_id := 1; user_firstName := "Ann"; user_lastName := "Lee";
           user_email := "ann@example.com"; user_password := "$2a$10$Abc123!";
           user_otp := Some code; user_otpExpiry := Some 1700000600000;
           user_isVerified := false |} ].
Proof.
  assert (Hr : Float64.is_random (Math_random some_env)).
  { split; vm_compute; reflexivity. }
  split; [exact Hr|].
  destruct (proj1 issued_code_is_six_digits_from_100000 some_env Hr)
    as (code & Hcode & _ & _ & _ & Hsignup & _).
  exists code. split; [rewrite Hcode; vm_compute; reflexivity|].
  destruct (Hsignup empty_db "Ann" "Lee" "ann@example.com" "Abc123!"
              eq_refl eq_refl eq_refl) as (_ & Husers & _).
  exact Husers.
Defined.

(** C1 as stated fails: the codes are not drawn from the full range
    000000 to 999999.  Some six-digit numerals, those with a leading
    zero such as 000000, are the code of no draw; the least draw, 0,
    gives 100000. *)
Lemma leading_zero_code_is_never_issued :
  six_digits "000000" /\
  generateOtp 0 = "100000" /\
  ~ (forall code, six_digits code ->
       exists r, Float64.is_random r /\ generateOtp r = code).
Proof.
  split; [split; reflexivity|]. split; [vm_compute; reflexivity|].
  intros H. destruct (H "000000") as (r & Hr & Hcode); [split; reflexivity|].
  pose proof (otp_number_range r Hr) as Hrange.
  destruct (Number_toString_six_digits _ Hrange) as (_ & Hvalue & _).
  fold (generateOtp r) in Hvalue. rewrite Hcode in Hvalue.
  change (decimal_value "000000") with 0 in Hvalue. lia.
Qed.

(* ================================================================== *)
(** * Further properties: what every route keeps                      *)
(* ================================================================== *)

Section RoutesKeep.

Variable P : Db -> Prop.

Hypothesis create_keeps : forall data, keeps P (user_create data).

Hypothesis update_keeps :
  forall email change, keeps_identity change -> keeps P (user_update email change).

Lemma keeps_bcrypt_hash E s : keeps P (bcrypt_hash E s).
Proof.
  unfold bcrypt_hash. apply keeps_bind; [apply keeps_emit | intros; apply keeps_ret].
Qed.

Lemma keeps_bcrypt_compare E s hash : keeps P (bcrypt_compare E s hash).
Proof.
  unfold bcrypt_compare. apply keeps_bind; [apply keeps_emit | intros; apply keeps_ret].
Qed.

Lemma keeps_jwt_sign E userId expiresIn : keeps P (jwt_sign_userId E userId expiresIn).
Proof.
  unfold jwt_sign_userId. apply keeps_bind; [apply keeps_emit | intros; apply keeps_ret].
Qed.

Lemma keeps_sendEmail E to subject text : keeps P (sendEmail E to subject text).
Proof.
  unfold sendEmail. apply keeps_bind; [apply keeps_emit|]. intros _.
  destruct (smtp_error E); [apply keeps_throw | apply keeps_ret].
Qed.

Lemma keeps_verifyIdToken E token : keeps P (verifyIdToken E token).
Proof.
  unfold verifyIdToken. apply keeps_bind; [apply keeps_emit|]. intros _.
  destruct (google_ticket E token); [apply keeps_ret | apply keeps_throw].
Qed.

(** A property of the database that creating an account and updating
    one (identity left alone) keep is kept by every route; for
    [delete-account], provided the cascade keeps it too. *)
Lemma routes_keep E q :
  (is_delete q = true -> forall user, keeps P (delete_cascade E user)) ->
  keeps P (handle E q).
Proof.
  intros Hcascade.
  destruct q as [f l e p | e o | e p | e | e o p | e p | t | t]; cbn [handle].
  - (* signup *)
    apply keeps_try_catch; [|intros; apply keeps_ret].
    destruct (negb (validatePassword p)); [apply keeps_ret|].
    apply keeps_bind; [apply keeps_findUnique|]. intros [existing|]; [apply keeps_ret|].
    apply keeps_bind; [apply keeps_bcrypt_hash|]. intros hashed.
    apply keeps_bind; [apply create_keeps|]. intros user.
    apply keeps_bind; [apply keeps_sendEmail | intros; apply keeps_ret].
  - (* verify-otp *)
    apply keeps_try_catch; [|intros; apply keeps_ret].
    apply keeps_bind; [apply keeps_findUnique|]. intros [user|]; [|apply keeps_ret].
    destruct (_ || _); [apply keeps_ret|].
    apply keeps_bind.
    { apply update_keeps. intros u. repeat split. }
    intros _. apply keeps_bind; [apply keeps_jwt_sign | intros; apply keeps_ret].
  - (* login *)
    apply keeps_try_catch; [|intros; apply keeps_ret].
    apply keeps_bind; [apply keeps_findUnique|]. intros [user|]; [|apply keeps_ret].
    destruct (negb (user_isVerified user)); [apply keeps_ret|].
    apply keeps_bind; [apply keeps_bcrypt_compare|].
    intros valid. destruct (negb valid); [apply keeps_ret|].
    apply keeps_bind; [apply keeps_jwt_sign | intros; apply keeps_ret].
  - (* forgot-password *)
    apply keeps_try_catch; [|intros; apply keeps_ret].
    apply keeps_bind; [apply keeps_findUnique|]. intros [user|]; [|apply keeps_ret].
    apply keeps_bind.
    { apply update_keeps. intros u. repeat split. cbn. auto. }
    intros _. apply keeps_bind; [apply keeps_sendEmail | intros; apply keeps_ret].
  - (* reset-password *)
    apply keeps_try_catch; [|intros; apply keeps_ret].
    destruct (negb (validatePassword p)); [apply keeps_ret|].
    apply keeps_bind; [apply keeps_findUnique|]. intros [user|]; [|apply keeps_ret].
    destruct (_ || _); [apply keeps_ret|].
    apply keeps_bind; [apply keeps_bcrypt_hash|]. intros hashed.
    apply keeps_bind; [|intros; apply keeps_ret].
    apply update_keeps. intros u. repeat split. cbn. auto.
  - (* delete-account *)
    apply keeps_try_catch; [|intros; apply keeps_ret].
    apply keeps_bind; [apply keeps_findUnique_include|].
    intros [user|]; [|apply keeps_ret].
    apply keeps_bind; [apply keeps_bcrypt_compare|].
    intros valid. destruct (negb valid); [apply keeps_ret|].
    apply keeps_bind; [|intros; apply keeps_ret].
    apply keeps_transaction, Hcascade. reflexivity.
  - (* logout *)
    apply keeps_try_catch; [|intros; apply keeps_ret].
    destruct (negb (truthy t)); apply keeps_ret.
  - (* google-signup *)
    apply keeps_try_catch; [|intros; apply keeps_ret].
    apply keeps_bind; [apply keeps_verifyIdToken|].
    intros [payload|]; [|apply keeps_ret].
    destruct (negb (truthy (payload_email payload))); [apply keeps_ret|].
    apply keeps_bind; [apply keeps_findUnique|]. intros [user|].
    + apply keeps_bind; [apply keeps_jwt_sign | intros; apply keeps_ret].
    + destruct (googleNames _ _ _ _) as [firstName lastName].
      apply keeps_bind; [apply create_keeps|]. intros user.
      apply keeps_bind; [apply keeps_jwt_sign | intros; apply keeps_ret].
Qed.

End RoutesKeep.

Lemma NoDup_map_filter {A B} (f : A -> B) (g : A -> bool) l :
  NoDup (map f l) -> NoDup (map f (filter g l)).
Proof.
  induction l as [|a l IH]; cbn; [auto|].
  intros H. inversion H as [|? ? Hnotin Hnd]; subst.
  destruct (g a); cbn; [|now apply IH].
  constructor; [|now apply IH].
  intros Hin. apply Hnotin. apply in_map_iff in Hin.
  destruct Hin as (x & Hx & Hxin). apply filter_In in Hxin.
  apply in_map_iff. exists x. tauto.
Qed.

Lemma NoDup_snoc {A} (l : list A) a : NoDup l -> ~ In a l -> NoDup (l ++ [a]).
Proof.
  induction l as [|b l IH]; cbn; intros Hnd Hnotin.
  - constructor; [tauto | constructor].
  - inversion Hnd as [|? ? Hb Hl]; subst. constructor.
    + intros Hin. apply in_app_or in Hin. cbn in Hin. intuition congruence.
    + apply IH; tauto.
Qed.

Lemma existsb_has_email_false email us :
  existsb (has_email email) us = false -> ~ In email (map user_email us).
Proof.
  intros Hex Hin. apply in_map_iff in Hin. destruct Hin as (x & Hx & Hxin).
  assert (existsb (has_email email) us = true); [|congruence].
  apply existsb_exists. exists x. split; [exact Hxin|].
  unfold has_email. rewrite Hx. apply String.eqb_refl.
Qed.

Lemma map_email_update email change us :
  keeps_identity change ->
  map user_email (map (fun u => if has_email email u then change u else u) us)
  = map user_email us.
Proof.
  intros Hchange. rewrite map_map. apply map_ext. intros u.
  destruct (has_email email u); [|reflexivity]. apply (Hchange u).
Qed.

Lemma create_keeps_unique_emails data : keeps unique_emails (user_create data).
Proof.
  unfold user_create. apply keeps_modify. intros d w Hw Hd.
  destruct (existsb (has_email (new_email data)) (users d)) eqn:Hex; cbn.
  - now rewrite Hw.
  - unfold unique_emails in *. cbn. rewrite map_app. cbn.
    apply NoDup_snoc; [exact Hd | now apply existsb_has_email_false].
Qed.

Lemma update_keeps_unique_emails email change :
  keeps_identity change -> keeps unique_emails (user_update email change).
Proof.
  intros Hchange. unfold user_update. apply keeps_modify. intros d w Hw Hd.
  destruct (existsb (has_email email) (users d)); cbn.
  - unfold unique_emails in *. cbn. now rewrite map_email_update.
  - now rewrite Hw.
Qed.

Lemma cascade_keeps_unique_emails E user :
  keeps unique_emails (delete_cascade E user).
Proof.
  unfold delete_cascade.
  repeat (apply keeps_bind; [|intros _]).
  - destruct (the_profile user); [|apply keeps_ret].
    apply keeps_tx_statement, keeps_modify. intros d w _ Hd. exact Hd.
  - apply keeps_tx_statement, keeps_modify. intros d w _ Hd. exact Hd.
  - destruct (the_profile user); [|apply keeps_ret].
    apply keeps_tx_statement, keeps_modify. intros d w Hw Hd.
    destruct (existsb _ _); cbn; [exact Hd | now rewrite Hw].
  - apply keeps_tx_statement, keeps_modify. intros d w Hw Hd.
    destruct (existsb _ _); cbn; [|now rewrite Hw].
    unfold unique_emails in *. cbn. now apply NoDup_map_filter.
Qed.

(** X1.  Every route keeps the emails unique: whatever the request and
    whatever the collaborators answer, a database in which no two
    accounts share an email is left as one. *)
Theorem emails_stay_unique :
  forall E q d,
    NoDup (map user_email (users d)) ->
    NoDup (map user_email (users (db_of (serve E q d)))).
Proof.
  intros E q d Hd.
  apply (routes_keep unique_emails create_keeps_unique_emails
           update_keeps_unique_emails E q
           (fun _ user => cascade_keeps_unique_emails E user)
           {| db := d; log := [] |} Hd).
Qed.

Lemma emails_stay_unique_witness :
  NoDup (map user_email
           (users (db_of (serve google_env (GoogleSignup "id-token") alice_db)))).
Proof.
  apply (emails_stay_unique google_env (GoogleSignup "id-token") alice_db).
  cbn. repeat constructor; cbn; intuition discriminate.
Defined.

Lemma find_app_old {A} (f : A -> bool) l l' x :
  find f l = Some x -> find f (l ++ l') = Some x.
Proof.
  induction l as [|a l IH]; cbn; [discriminate|].
  destruct (f a); [auto | exact IH].
Qed.

Lemma find_map_same_email email (g : User -> User) us :
  (forall u, user_email (g u) = user_email u) ->
  find (has_email email) (map g us) = option_map g (find (has_email email) us).
Proof.
  intros Hg. induction us as [|a us IH]; cbn; [reflexivity|].
  unfold has_email at 1. rewrite Hg. fold (has_email email a).
  destruct (has_email email a); [reflexivity | exact IH].
Qed.

Lemma update_same_email email change :
  keeps_identity change ->
  forall u, user_email (if has_email email u then change u else u) = user_email u.
Proof.
  intros Hchange u. destruct (has_email email u); [apply (Hchange u) | reflexivity].
Qed.

Lemma create_keeps_verified email data :
  keeps (verified_account email) (user_create data).
Proof.
  unfold user_create. apply keeps_modify. intros d w Hw Hd.
  destruct (existsb _ _); cbn; [now rewrite Hw|].
  destruct Hd as (u & Hfind & Hver). exists u. split; [|exact Hver].
  cbn. now apply find_app_old.
Qed.

Lemma update_keeps_verified email target change :
  keeps_identity change ->
  keeps (verified_account email) (user_update target change).
Proof.
  intros Hchange. unfold user_update. apply keeps_modify. intros d w Hw Hd.
  destruct (existsb _ _); cbn; [|now rewrite Hw].
  destruct Hd as (u & Hfind & Hver).
  exists (if has_email target u then change u else u). split.
  - cbn. rewrite (find_map_same_email email _ _ (update_same_email target change Hchange)).
    now rewrite Hfind.
  - destruct (has_email target u); [now apply (Hchange u) | exact Hver].
Qed.

(** X2.  A verified account stays verified: no route but [delete-account]
    removes the account of an email or takes its verification away. *)
Theorem verified_account_stays_verified :
  forall E q d email,
    is_delete q = false ->
    verified_account email d ->
    verified_account email (db_of (serve E q d)).
Proof.
  intros E q d email Hq Hd.
  apply (routes_keep (verified_account email) (create_keeps_verified email)
           (update_keeps_verified email) E q); [|exact Hd].
  intros Hdel. congruence.
Qed.

Lemma verified_account_stays_verified_witness :
  verified_account "bob@example.com"
    (db_of (serve some_env (ForgotPassword "bob@example.com") bob_db)).
Proof.
  apply (verified_account_stays_verified some_env
           (ForgotPassword "bob@example.com") bob_db "bob@example.com").
  - reflexivity.
  - exists bob. split; reflexivity.
Defined.

Lemma same_identity_refl x : same_identity x x.
Proof. repeat split. Qed.

Lemma create_keeps_still_there x data : keeps (still_there x) (user_create data).
Proof.
  unfold user_create. apply keeps_modify. intros d w Hw Hd.
  destruct (existsb _ _); cbn; [now rewrite Hw|].
  destruct Hd as (x' & Hin & Hsame). exists x'. split; [|exact Hsame].
  cbn. apply in_or_app. now left.
Qed.

Lemma update_keeps_still_there x target change :
  keeps_identity change -> keeps (still_there x) (user_update target change).
Proof.
  intros Hchange. unfold user_update. apply keeps_modify. intros d w Hw Hd.
  destruct (existsb _ _); cbn; [|now rewrite Hw].
  destruct Hd as (x' & Hin & Hsame).
  exists (if has_email target x' then change x' else x'). split.
  - cbn. apply in_map_iff. now exists x'.
  - destruct (has_email target x'); [|exact Hsame].
    destruct (Hchange x') as [(H1 & H2 & H3 & H4) _].
    destruct Hsame as (S1 & S2 & S3 & S4).
    repeat split; congruence.
Qed.

(** X3.  Accounts persist with their identity: after any request other
    than to [delete-account], every account that was in the database
    is still there with the same id, email, first name and last
    name. *)
Theorem accounts_keep_their_identity :
  forall E q d x,
    is_delete q = false ->
    In x (users d) ->
    exists x',
      In x' (users (db_of (serve E q d))) /\
      user_id x' = user_id x /\ user_email x' = user_email x /\
      user_firstName x' = user_firstName x /\ user_lastName x' = user_lastName x.
Proof.
  intros E q d x Hq Hin.
  apply (routes_keep (still_there x) (create_keeps_still_there x)
           (update_keeps_still_there x) E q); [intros Hdel; congruence|].
  exists x. split; [exact Hin | apply same_identity_refl].
Qed.

Lemma accounts_keep_their_identity_witness :
  exists x',
    In x' (users (db_of (serve (at_time some_env 1700000100000)
                           (VerifyOtp "alice@example.com" "482913") alice_db))) /\
    user_id x' = 1 /\ user_email x' = "alice@example.com" /\
    user_firstName x' = "Alice" /\ user_lastName x' = "Liddell".
Proof.
  apply (accounts_keep_their_identity (at_time some_env 1700000100000)
           (VerifyOtp "alice@example.com" "482913") alice_db alice).
  - reflexivity.
  - left. reflexivity.
Defined.

Lemma create_keeps_dependents d0 data : keeps (same_dependents d0) (user_create data).
Proof.
  unfold user_create. apply keeps_modify. intros d w Hw Hd.
  destruct (existsb _ _); cbn; [now rewrite Hw | exact Hd].
Qed.

Lemma update_keeps_dependents d0 target change :
  keeps (same_dependents d0) (user_update target change).
Proof.
  unfold user_update. apply keeps_modify. intros d w Hw Hd.
  destruct (existsb _ _); cbn; [exact Hd | now rewrite Hw].
Qed.

(** X4.  Only [delete-account] touches the dependent tables: after any
    other request the profiles, the projects and the project averages
    are exactly the ones before it. *)
Theorem only_delete_touches_dependents :
  forall E q d,
    is_delete q = false ->
    profiles (db_of (serve E q d)) = profiles d /\
    projects (db_of (serve E q d)) = projects d /\
    projectAverages (db_of (serve E q d)) = projectAverages d.
Proof.
  intros E q d Hq.
  apply (routes_keep (same_dependents d) (create_keeps_dependents d)
           (fun target change _ => update_keeps_dependents d target change) E q);
    [intros Hdel; congruence | repeat split].
Qed.

Lemma only_delete_touches_dependents_witness :
  profiles (db_of (serve some_env (Signup "Dan" "Orr" "dan@example.com" "Abc123!")
                     carol_db))
  = profiles carol_db /\
  projects (db_of (serve some_env (Signup "Dan" "Orr" "dan@example.com" "Abc123!")
                     carol_db))
  = projects carol_db /\
  projectAverages (db_of (serve some_env (Signup "Dan" "Orr" "dan@example.com" "Abc123!")
                            carol_db))
  = projectAverages carol_db.
Proof.
  apply (only_delete_touches_dependents some_env
           (Signup "Dan" "Orr" "dan@example.com" "Abc123!") carol_db).
  reflexivity.
Defined.

(* ================================================================== *)
(** * Further properties: the routes one by one                       *)
(* ================================================================== *)

Lemma login_run E d email password u :
  find (has_email email) (users d) = Some u ->
  serve E (Login email password) d
  = if negb (user_isVerified u) then
      (Ok UnverifiedError, {| db := d; log := [] |})
    else if password_accepted E password (user_password u) then
      (Ok {| status := 200;
             body := JObj [("token", JStr (jwt_sign E (user_id u) "240h"))] |},
       {| db := d;
          log := [BcryptCompare password (user_password u);
                  JwtSign (user_id u) "240h"] |})
    else
      (Ok InvalidCredentialError,
       {| db := d; log := [BcryptCompare password (user_password u)] |}).
Proof.
  intros Hfind. run_route. rewrite Hfind. unfold password_accepted.
  destruct (user_isVerified u); [|reflexivity]. step.
  destruct (if (String.length (user_password u) =? 60)%nat
            then bcrypt_matches E password (user_password u) else false);
    reflexivity.
Qed.

Lemma login_not_found E d email password :
  find (has_email email) (users d) = None ->
  serve E (Login email password) d = (Ok NotFoundError, {| db := d; log := [] |}).
Proof. intros Hfind. run_route. now rewrite Hfind. Qed.

Lemma verify_otp_not_found E d email otp :
  find (has_email email) (users d) = None ->
  serve E (VerifyOtp email otp) d = (Ok NotFoundError, {| db := d; log := [] |}).
Proof. intros Hfind. run_route. now rewrite Hfind. Qed.

Lemma forgot_password_not_found E d email :
  find (has_email email) (users d) = None ->
  serve E (ForgotPassword email) d = (Ok NotFoundError, {| db := d; log := [] |}).
Proof. intros Hfind. run_route. now rewrite Hfind. Qed.

Lemma delete_account_not_found E d email password :
  find (has_email email) (users d) = None ->
  serve E (DeleteAccount email password) d
  = (Ok NotFoundError, {| db := d; log := [] |}).
Proof. intros Hfind. run_route. now rewrite Hfind. Qed.

Lemma reset_password_not_found E d email otp newPassword :
  validatePassword newPassword = true ->
  find (has_email email) (users d) = None ->
  serve E (ResetPassword email otp newPassword) d
  = (Ok NotFoundError, {| db := d; log := [] |}).
Proof.
  intros Hvalid Hfind. run_route. rewrite Hvalid. step. now rewrite Hfind.
Qed.

Lemma signup_conflict_run E d firstName lastName email password u :
  validatePassword password = true ->
  find (has_email email) (users d) = Some u ->
  serve E (Signup firstName lastName email password) d
  = (Ok ConflictError, {| db := d; log := [] |}).
Proof.
  intros Hvalid Hfind. run_route. rewrite Hvalid. step. now rewrite Hfind.
Qed.

(** X5.  The routes that look an account up answer 404 for an email without
    one, and do nothing else: [verify-otp], [login], [forgot-password],
    [delete-account], and [reset-password] once the new password has
    passed the policy. *)
Theorem unknown_email_is_not_found :
  forall E d email otp password,
    find (has_email email) (users d) = None ->
    serve E (VerifyOtp email otp) d
    = (Ok (message_only 404 "User not found"), {| db := d; log := [] |}) /\
    serve E (Login email password) d
    = (Ok (message_only 404 "User not found"), {| db := d; log := [] |}) /\
    serve E (ForgotPassword email) d
    = (Ok (message_only 404 "User not found"), {| db := d; log := [] |}) /\
    serve E (DeleteAccount email password) d
    = (Ok (message_only 404 "User not found"), {| db := d; log := [] |}) /\
    (validatePassword password = true ->
     serve E (ResetPassword email otp password) d
     = (Ok (message_only 404 "User not found"), {| db := d; log := [] |})).
Proof.
  intros E d email otp password Hfind.
  repeat split.
  - now apply verify_otp_not_found.
  - now apply login_not_found.
  - now apply forgot_password_not_found.
  - now apply delete_account_not_found.
  - intros Hvalid. now apply reset_password_not_found.
Qed.

Lemma unknown_email_is_not_found_witness :
  serve some_env (ForgotPassword "nobody@example.com") alice_db
  = (Ok NotFoundError, {| db := alice_db; log := [] |}).
Proof.
  exact (proj1 (proj2 (proj2
           (unknown_email_is_not_found some_env alice_db "nobody@example.com"
              "123456" "Abc123!" eq_refl)))).
Defined.

(** X6.  [signup] with an email that already has an account, whatever the
    state of that account, answers 400 "Email already registered"
    before the password is hashed; nothing is stored or mailed. *)
Theorem signup_conflict_changes_nothing :
  forall E d firstName lastName email password u,
    validatePassword password = true ->
    find (has_email email) (users d) = Some u ->
    serve E (Signup firstName lastName email password) d
    = (Ok (message_only 400 "Email already registered"),
       {| db := d; log := [] |}).
Proof.
  intros E d firstName lastName email password u Hvalid Hfind.
  now apply (signup_conflict_run E d firstName lastName email password u).
Qed.

Lemma signup_conflict_changes_nothing_witness :
  serve some_env (Signup "Al" "Ice" "alice@example.com" "Abc123!") alice_db
  = (Ok ConflictError, {| db := alice_db; log := [] |}).
Proof.
  apply (signup_conflict_changes_nothing some_env alice_db "Al" "Ice"
           "alice@example.com" "Abc123!" alice); reflexivity.
Defined.

(** X7.  [login] answers with a token exactly when the email has a verified
    account and bcrypt accepts the password against its hash; the
    token is then signed for that account's id with a validity of 240
    hours.  In no case does [login] change the database. *)
Theorem login_issues_token_iff :
  forall E d email password,
    db_of (serve E (Login email password) d) = d /\
    exists resp,
      response_of (serve E (Login email password) d) = Some resp /\
      (has_token resp = true <->
       exists u, find (has_email email) (users d) = Some u /\
                 user_isVerified u = true /\
                 String.length (user_password u) = 60%nat /\
                 bcrypt_matches E password (user_password u) = true) /\
      (has_token resp = true ->
       exists u, find (has_email email) (users d) = Some u /\
                 resp = {| status := 200;
                           body := JObj [("token",
                                          JStr (jwt_sign E (user_id u) "240h"))] |} /\
                 In (JwtSign (user_id u) "240h")
                    (log_of (serve E (Login email password) d))).
Proof.
  intros E d email password. unfold db_of, response_of, log_of.
  destruct (find (has_email email) (users d)) as [u|] eqn:Hfind.
  - rewrite (login_run E d email password u Hfind). unfold password_accepted.
    destruct (user_isVerified u) eqn:Hver; cbn [negb].
    + destruct (Nat.eqb_spec (String.length (user_password u)) 60) as [Hlen|Hlen].
      * destruct (bcrypt_matches E password (user_password u)) eqn:Hmatch.
        -- split; [reflexivity|]. eexists. split; [reflexivity|]. split.
           ++ split; [|reflexivity]. intros _. exists u. auto.
           ++ intros _. exists u. cbn. auto.
        -- split; [reflexivity|]. eexists. split; [reflexivity|]. split.
           ++ split; [discriminate|]. intros (u' & Hu' & _ & _ & Hm). congruence.
           ++ discriminate.
      * split; [reflexivity|]. eexists. split; [reflexivity|]. split.
        -- split; [discriminate|]. intros (u' & Hu' & _ & Hl & _).
           injection Hu' as <-. contradiction.
        -- discriminate.
    + split; [reflexivity|]. eexists. split; [reflexivity|]. split.
      * split; [discriminate|]. intros (u' & Hu' & Hv & _). congruence.
      * discriminate.
  - rewrite (login_not_found E d email password Hfind).
    split; [reflexivity|]. eexists. split; [reflexivity|]. split.
    + split; [discriminate|]. intros (u' & Hu' & _). discriminate.
    + discriminate.
Qed.

Lemma find_update email change us u :
  (forall x, user_email (change x) = user_email x) ->
  find (has_email email) us = Some u ->
  find (has_email email)
    (map (fun x => if has_email email x then change x else x) us)
  = Some (change u).
Proof.
  intros Hchange Hfind.
  rewrite find_map_same_email.
  - rewrite Hfind. cbn. apply find_some in Hfind. now rewrite (proj2 Hfind).
  - intros x. destruct (has_email email x); [apply Hchange | reflexivity].
Qed.

Lemma signup_stores E d firstName lastName email password :
  validatePassword password = true ->
  find (has_email email) (users d) = None ->
  db_of (serve E (Signup firstName lastName email password) d)
  = {| users :=
         users d ++
         [ {| user_id := nextUserId d;
              user_firstName := firstName; user_lastName := lastName;
              user_email := email;
              user_password := bcrypt_digest E password;
              user_otp := Some (generateOtp (Math_random E));
              user_otpExpiry := Some (Date_now E + 600000);
              user_isVerified := false |} ];
       profiles := profiles d; projects := projects d;
       projectAverages := projectAverages d;
       nextUserId := nextUserId d + 1 |} /\
  response_of (serve E (Signup firstName lastName email password) d)
  = Some (match smtp_error E with
          | Some e => server_error "Error creating user" e
          | None => message_only 201 "User created. Please verify your email."
          end) /\
  log_of (serve E (Signup firstName lastName email password) d)
  = [ BcryptHash password;
      SendMail email "Verify your email"
        ("Your OTP is: " ++ generateOtp (Math_random E)) ].
Proof.
  intros Hvalid Hfind. unfold db_of, response_of, log_of. run_route.
  rewrite Hvalid. step. rewrite Hfind. step.
  rewrite (find_none_existsb _ _ Hfind). step.
  destruct (smtp_error E); repeat split; reflexivity.
Qed.

Lemma forgot_password_stores E d email u :
  find (has_email email) (users d) = Some u ->
  db_of (serve E (ForgotPassword email) d)
  = set_users d
      (map (fun x =>
              if has_email email x
              then {| user_id := user_id x;
                      user_firstName := user_firstName x;
                      user_lastName := user_lastName x;
                      user_email := user_email x;
                      user_password := user_password x;
                      user_otp := Some (generateOtp (Math_random E));
                      user_otpExpiry := Some (Date_now E + 600000);
                      user_isVerified := user_isVerified x |}
              else x) (users d)) /\
  response_of (serve E (ForgotPassword email) d)
  = Some (match smtp_error E with
          | Some e => server_error "Error processing request" e
          | None => message_only 200 "Password reset OTP sent to email"
          end) /\
  log_of (serve E (ForgotPassword email) d)
  = [ SendMail email "Reset Password"
        ("Your password reset OTP is: " ++ generateOtp (Math_random E)) ].
Proof.
  intros Hfind. unfold db_of, response_of, log_of. run_route.
  rewrite Hfind. step. rewrite (find_existsb _ _ _ Hfind). step.
  destruct (smtp_error E); repeat split; reflexivity.
Qed.

(** X8.  When the mail cannot be delivered, [sendEmail] throws the
    transport's error again and [signup] answers 500 with that error's
    message; the account it has just created is not rolled back: it is
    in the database, unverified, with its pending code. *)
Theorem signup_mail_failure_keeps_the_account :
  forall E d firstName lastName email password e,
    validatePassword password = true ->
    find (has_email email) (users d) = None ->
    smtp_error E = Some e ->
    response_of (serve E (Signup firstName lastName email password) d)
    = Some {| status := 500;
              body := JObj [("message", JStr "Error creating user");
                            ("error", JStr e)] |} /\
    find (has_email email)
         (users (db_of (serve E (Signup firstName lastName email password) d)))
    = Some {| user_id := nextUserId d;
              user_firstName := firstName; user_lastName := lastName;
              user_email := email;
              user_password := bcrypt_digest E password;
              user_otp := Some (generateOtp (Math_random E));
              user_otpExpiry := Some (Date_now E + 10 * 60 * 1000);
              user_isVerified := false |}.
Proof.
  intros E d firstName lastName email password e Hvalid Hfind Hsmtp.
  destruct (signup_stores E d firstName lastName email password Hvalid Hfind)
    as (Hdb & Hresp & _).
  rewrite Hresp, Hdb, Hsmtp. split; [reflexivity|].
  cbn [users]. apply find_app_new; [exact Hfind|].
  unfold has_email. cbn. apply String.eqb_refl.
Qed.

Lemma signup_mail_failure_keeps_the_account_witness :
  response_of (serve smtp_down_env
                 (Signup "Ann" "Lee" "ann@example.com" "Abc123!") empty_db)
  = Some (server_error "Error creating user" "connect ECONNREFUSED") /\
  find (has_email "ann@example.com")
       (users (db_of (serve smtp_down_env
                        (Signup "Ann" "Lee" "ann@example.com" "Abc123!") empty_db)))
  = Some ann.
Proof.
  apply (signup_mail_failure_keeps_the_account smtp_down_env empty_db
           "Ann" "Lee" "ann@example.com" "Abc123!" "connect ECONNREFUSED");
    reflexivity.
Defined.

(** X9.  When the mail cannot be delivered, [forgot-password] answers 500,
    and the new code it has stored stays stored: the pending code and
    expiry of the account are the new ones, which were never mailed. *)
Theorem forgot_password_mail_failure_keeps_the_code :
  forall E d email u e,
    find (has_email email) (users d) = Some u ->
    smtp_error E = Some e ->
    response_of (serve E (ForgotPassword email) d)
    = Some {| status := 500;
              body := JObj [("message", JStr "Error processing request");
                            ("error", JStr e)] |} /\
    find (has_email email) (users (db_of (serve E (ForgotPassword email) d)))
    = Some {| user_id := user_id u;
              user_firstName := user_firstName u;
              user_lastName := user_lastName u;
              user_email := user_email u;
              user_password := user_password u;
              user_otp := Some (generateOtp (Math_random E));
              user_otpExpiry := Some (Date_now E + 10 * 60 * 1000);
              user_isVerified := user_isVerified u |}.
Proof.
  intros E d email u e Hfind Hsmtp.
  destruct (forgot_password_stores E d email u Hfind) as (Hdb & Hresp & _).
  rewrite Hresp, Hdb, Hsmtp. split; [reflexivity|].
  cbn [users set_users].
  exact (find_update email
           (fun x => {| user_id := user_id x;
                        user_firstName := user_firstName x;
                        user_lastName := user_lastName x;
                        user_email := user_email x;
                        user_password := user_password x;
                        user_otp := Some (generateOtp (Math_random E));
                        user_otpExpiry := Some (Date_now E + 600000);
                        user_isVerified := user_isVerified x |})
           (users d) u (fun _ => eq_refl) Hfind).
Qed.

Lemma forgot_password_mail_failure_keeps_the_code_witness :
  response_of (serve smtp_down_env (ForgotPassword "bob@example.com") bob_db)
  = Some (server_error "Error processing request" "connect ECONNREFUSED") /\
  find (has_email "bob@example.com")
       (users (db_of (serve smtp_down_env (ForgotPassword "bob@example.com") bob_db)))
  = Some {| user_id := 1; user_firstName := "Bob"; user_lastName := "Stone";
            user_email := "bob@example.com"; user_password := "";
            user_otp := Some (generateOtp 0);
            user_otpExpiry := Some 1700000600000;
            user_isVerified := true |}.
Proof.
  apply (forgot_password_mail_failure_keeps_the_code smtp_down_env bob_db
           "bob@example.com" bob "connect ECONNREFUSED"); reflexivity.
Defined.

Lemma otp_check_passes now u supplied :
  user_otp u = Some supplied ->
  ~ expired now (user_otpExpiry u) ->
  strict_neq (user_otp u) supplied || date_gt now (user_otpExpiry u) = false.
Proof.
  intros Hotp Hnot.
  destruct (strict_neq (user_otp u) supplied || date_gt now (user_otpExpiry u)) eqn:H;
    [|reflexivity].
  apply otp_check_true in H. destruct H as [H|H]; [congruence | contradiction].
Qed.


(** The row of [u] once [verify-otp] has accepted its code. *)
Lemma verify_otp_accepts E d email supplied u :
  find (has_email email) (users d) = Some u ->
  user_otp u = Some supplied ->
  ~ expired (Date_now E) (user_otpExpiry u) ->
  response_of (serve E (VerifyOtp email supplied) d)
  = Some {| status := 200;
            body := JObj [("message", JStr "Email verified successfully");
                          ("token", JStr (jwt_sign E (user_id u) "240h"))] |} /\
  find (has_email email) (users (db_of (serve E (VerifyOtp email supplied) d)))
  = Some {| user_id := user_id u;
            user_firstName := user_firstName u;
            user_lastName := user_lastName u;
            user_email := user_email u;
            user_password := user_password u;
            user_otp := None; user_otpExpiry := None;
            user_isVerified := true |}.
Proof.
  intros Hfind Hotp Hnot. unfold response_of, db_of.
  rewrite (verify_otp_run E d email supplied u Hfind),
    (otp_check_passes _ _ _ Hotp Hnot).
  split; [reflexivity|]. cbn [snd db users set_users].
  exact (find_update email
           (fun x => {| user_id := user_id x;
                        user_firstName := user_firstName x;
                        user_lastName := user_lastName x;
                        user_email := user_email x;
                        user_password := user_password x;
                        user_otp := None; user_otpExpiry := None;
                        user_isVerified := true |})
           (users d) u (fun _ => eq_refl) Hfind).
Qed.

Lemma reset_password_accepts E d email supplied newPassword u :
  validatePassword newPassword = true ->
  find (has_email email) (users d) = Some u ->
  user_otp u = Some supplied ->
  ~ expired (Date_now E) (user_otpExpiry u) ->
  serve E (ResetPassword email supplied newPassword) d
  = (Ok (message_only 200 "Password reset successfully"),
     {| db := db_of (serve E (ResetPassword email supplied newPassword) d);
        log := [BcryptHash newPassword] |}) /\
  find (has_email email)
       (users (db_of (serve E (ResetPassword email supplied newPassword) d)))
  = Some {| user_id := user_id u;
            user_firstName := user_firstName u;
            user_lastName := user_lastName u;
            user_email := user_email u;
            user_password := bcrypt_digest E newPassword;
            user_otp := None; user_otpExpiry := None;
            user_isVerified := user_isVerified u |}.
Proof.
  intros Hvalid Hfind Hotp Hnot. unfold db_of.
  rewrite (reset_password_run E d email supplied newPassword u Hvalid Hfind),
    (otp_check_passes _ _ _ Hotp Hnot).
  split; [reflexivity|]. cbn [snd db users set_users].
  exact (find_update email
           (fun x => {| user_id := user_id x;
                        user_firstName := user_firstName x;
                        user_lastName := user_lastName x;
                        user_email := user_email x;
                        user_password := bcrypt_digest E newPassword;
                        user_otp := None; user_otpExpiry := None;
                        user_isVerified := user_isVerified x |})
           (users d) u (fun _ => eq_refl) Hfind).
Qed.

(** X10.  After [verify-otp] has accepted the pending code, the account is
    verified with both OTP columns cleared and everything else as it
    was, and a [login] with a password that bcrypt accepts against the
    stored hash answers with a token for the account. *)
Theorem verified_account_can_log_in :
  forall E E' d email supplied password u,
    find (has_email email) (users d) = Some u ->
    user_otp u = Some supplied ->
    ~ expired (Date_now E) (user_otpExpiry u) ->
    find (has_email email) (users (db_of (serve E (VerifyOtp email supplied) d)))
    = Some {| user_id := user_id u;
              user_firstName := user_firstName u;
              user_lastName := user_lastName u;
              user_email := user_email u;
              user_password := user_password u;
              user_otp := None; user_otpExpiry := None;
              user_isVerified := true |} /\
    (password_accepted E' password (user_password u) = true ->
     response_of (serve E' (Login email password)
                    (db_of (serve E (VerifyOtp email supplied) d)))
     = Some {| status := 200;
               body := JObj [("token", JStr (jwt_sign E' (user_id u) "240h"))] |}).
Proof.
  intros E E' d email supplied password u Hfind Hotp Hnot.
  destruct (verify_otp_accepts E d email supplied u Hfind Hotp Hnot) as [_ Hrow].
  split; [exact Hrow|]. intros Hpw.
  unfold response_of. rewrite (login_run E' _ email password _ Hrow).
  cbn [user_isVerified negb user_password user_id]. now rewrite Hpw.
Qed.

Lemma verified_account_can_log_in_witness :
  response_of
    (serve accepting_env (Login "dora@example.com" "Secret1!")
       (db_of (serve some_env (VerifyOtp "dora@example.com" "654321") dora_db)))
  = Some {| status := 200; body := JObj [("token", JStr "jwt.240h")] |}.
Proof.
  refine (proj2 (verified_account_can_log_in some_env accepting_env dora_db
                   "dora@example.com" "654321" "Secret1!" dora eq_refl eq_refl _)
                eq_refl).
  cbn. lia.
Defined.




(** X12.  The code that [signup] stores verifies the new account up to and
    including the instant of its expiry, ten minutes after the signup,
    and not after: [verify-otp] with that code answers with a token
    exactly when its clock is at most the signup's clock plus 600000
    ms.  (Whether the mail with the code went out plays no part.) *)
Theorem signup_code_verifies_for_ten_minutes :
  forall E E' d firstName lastName email password,
    validatePassword password = true ->
    find (has_email email) (users d) = None ->
    (Date_now E' <= Date_now E + 10 * 60 * 1000 ->
     response_of
       (serve E' (VerifyOtp email (generateOtp (Math_random E)))
          (db_of (serve E (Signup firstName lastName email password) d)))
     = Some {| status := 200;
               body := JObj [("message", JStr "Email verified successfully");
                             ("token", JStr (jwt_sign E' (nextUserId d) "240h"))] |}) /\
    (Date_now E + 10 * 60 * 1000 < Date_now E' ->
     response_of
       (serve E' (VerifyOtp email (generateOtp (Math_random E)))
          (db_of (serve E (Signup firstName lastName email password) d)))
     = Some (message_only 400 "Invalid or expired OTP")).
Proof.
  intros E E' d firstName lastName email password Hvalid Hfind.
  destruct (signup_stores E d firstName lastName email password Hvalid Hfind)
    as (Hdb & _ & _).
  set (row := {| user_id := nextUserId d;
                 user_firstName := firstName; user_lastName := lastName;
                 user_email := email;
                 user_password := bcrypt_digest E password;
                 user_otp := Some (generateOtp (Math_random E));
                 user_otpExpiry := Some (Date_now E + 600000);
                 user_isVerified := false |}) in *.
  assert (Hrow : find (has_email email)
                   (users (db_of (serve E (Signup firstName lastName email password) d)))
                 = Some row).
  { rewrite Hdb. cbn [users]. apply find_app_new; [exact Hfind|].
    unfold has_email. cbn. apply String.eqb_refl. }
  split; intros Hclock.
  - apply (verify_otp_accepts E' _ email _ row Hrow eq_refl). cbn. lia.
  - unfold response_of. rewrite (verify_otp_run E' _ email _ row Hrow).
    assert (Hcheck : strict_neq (user_otp row) (generateOtp (Math_random E))
                     || date_gt (Date_now E') (user_otpExpiry row) = true).
    { apply otp_check_true. right. cbn. lia. }
    now rewrite Hcheck.
Qed.

Lemma signup_code_verifies_for_ten_minutes_witness :
  response_of
    (serve (at_time some_env 1700000600000)
       (VerifyOtp "ann@example.com" (generateOtp 0))
       (db_of (serve some_env (Signup "Ann" "Lee" "ann@example.com" "Abc123!")
                 empty_db)))
  = Some {| status := 200;
            body := JObj [("message", JStr "Email verified successfully");
                          ("token", JStr "jwt.240h")] |} /\
  response_of
    (serve (at_time some_env 1700000600001)
       (VerifyOtp "ann@example.com" (generateOtp 0))
       (db_of (serve some_env (Signup "Ann" "Lee" "ann@example.com" "Abc123!")
                 empty_db)))
  = Some InvalidOtpError.
Proof.
  split.
  - refine (proj1 (signup_code_verifies_for_ten_minutes some_env
                     (at_time some_env 1700000600000) empty_db
                     "Ann" "Lee" "ann@example.com" "Abc123!" eq_refl eq_refl) _).
    cbn. lia.
  - refine (proj2 (signup_code_verifies_for_ten_minutes some_env
                     (at_time some_env 1700000600001) empty_db
                     "Ann" "Lee" "ann@example.com" "Abc123!" eq_refl eq_refl) _).
    cbn. lia.
Defined.

(** X13.  [forgot-password] followed, within ten minutes, by
    [reset-password] with the issued code and a new password that
    meets the policy replaces the stored hash by the hash of the new
    password and clears the code.  Neither route looks at
    [isVerified] or changes it: an unverified account can reset its
    password and is unverified afterwards. *)
Theorem forgot_then_reset_replaces_the_password :
  forall E E' d email newPassword u,
    find (has_email email) (users d) = Some u ->
    validatePassword newPassword = true ->
    Date_now E' <= Date_now E + 10 * 60 * 1000 ->
    response_of
      (serve E' (ResetPassword email (generateOtp (Math_random E)) newPassword)
         (db_of (serve E (ForgotPassword email) d)))
    = Some (message_only 200 "Password reset successfully") /\
    find (has_email email)
      (users (db_of
                (serve E' (ResetPassword email (generateOtp (Math_random E)) newPassword)
                   (db_of (serve E (ForgotPassword email) d)))))
    = Some {| user_id := user_id u;
              user_firstName := user_firstName u;
              user_lastName := user_lastName u;
              user_email := user_email u;
              user_password := bcrypt_digest E' newPassword;
              user_otp := None; user_otpExpiry := None;
              user_isVerified := user_isVerified u |}.
Proof.
  intros E E' d email newPassword u Hfind Hvalid Hclock.
  destruct (forgot_password_stores E d email u Hfind) as (Hdb & _ & _).
  set (row := {| user_id := user_id u;
                 user_firstName := user_firstName u;
                 user_lastName := user_lastName u;
                 user_email := user_email u;
                 user_password := user_password u;
                 user_otp := Some (generateOtp (Math_random E));
                 user_otpExpiry := Some (Date_now E + 600000);
                 user_isVerified := user_isVerified u |}).
  assert (Hrow : find (has_email email) (users (db_of (serve E (ForgotPassword email) d)))
                 = Some row).
  { rewrite Hdb. cbn [users set_users].
    exact (find_update email
             (fun x => {| user_id := user_id x;
                          user_firstName := user_firstName x;
                          user_lastName := user_lastName x;
                          user_email := user_email x;
                          user_password := user_password x;
                          user_otp := Some (generateOtp (Math_random E));
                          user_otpExpiry := Some (Date_now E + 600000);
                          user_isVerified := user_isVerified x |})
             (users d) u (fun _ => eq_refl) Hfind). }
  assert (Hnot : ~ expired (Date_now E') (user_otpExpiry row)) by (cbn; lia).
  destruct (reset_password_accepts E' _ email _ newPassword row Hvalid Hrow eq_refl Hnot)
    as [Hrun Hafter].
  split; [|exact Hafter].
  unfold response_of. now rewrite Hrun.
Qed.

Lemma forgot_then_reset_replaces_the_password_witness :
  find (has_email "alice@example.com")
    (users (db_of
              (serve some_env (ResetPassword "alice@example.com" (generateOtp 0) "Abc123!")
                 (db_of (serve some_env (ForgotPassword "alice@example.com") alice_db)))))
  = Some {| user_id := 1; user_firstName := "Alice"; user_lastName := "Liddell";
            user_email := "alice@example.com";
            user_password := "$2a$10$Abc123!";
            user_otp := None; user_otpExpiry := None;
            user_isVerified := false |}.
Proof.
  refine (proj2 (forgot_then_reset_replaces_the_password some_env some_env alice_db
                   "alice@example.com" "Abc123!" alice eq_refl eq_refl _)).
  cbn. lia.
Defined.

(** X14.  [forgot-password] overwrites the pending code: whether or not the
    mail goes out, a code other than the new one, the previously
    pending code included, is refused afterwards. *)
Theorem forgot_password_overwrites_the_pending_code :
  forall E E' d email previous u,
    find (has_email email) (users d) = Some u ->
    previous <> generateOtp (Math_random E) ->
    serve E' (VerifyOtp email previous) (db_of (serve E (ForgotPassword email) d))
    = (Ok (message_only 400 "Invalid or expired OTP"),
       {| db := db_of (serve E (ForgotPassword email) d); log := [] |}).
Proof.
  intros E E' d email previous u Hfind Hne.
  destruct (forgot_password_stores E d email u Hfind) as (Hdb & _ & _).
  assert (Hrow : find (has_email email) (users (db_of (serve E (ForgotPassword email) d)))
                 = Some {| user_id := user_id u;
                           user_firstName := user_firstName u;
                           user_lastName := user_lastName u;
                           user_email := user_email u;
                           user_password := user_password u;
                           user_otp := Some (generateOtp (Math_random E));
                           user_otpExpiry := Some (Date_now E + 600000);
                           user_isVerified := user_isVerified u |}).
  { rewrite Hdb. cbn [users set_users].
    exact (find_update email
             (fun x => {| user_id := user_id x;
                          user_firstName := user_firstName x;
                          user_lastName := user_lastName x;
                          user_email := user_email x;
                          user_password := user_password x;
                          user_otp := Some (generateOtp (Math_random E));
                          user_otpExpiry := Some (Date_now E + 600000);
                          user_isVerified := user_isVerified x |})
             (users d) u (fun _ => eq_refl) Hfind). }
  rewrite (verify_otp_run E' _ email previous _ Hrow).
  match goal with
  | |- (if ?c then _ else _) = _ => assert (Hcheck : c = true)
  end.
  { apply otp_check_true. left. cbn [user_otp].
    intros Hsame. injection Hsame as Hsame. now apply Hne. }
  now rewrite Hcheck.
Qed.

Lemma forgot_password_overwrites_the_pending_code_witness :
  serve some_env (VerifyOtp "alice@example.com" "482913")
        (db_of (serve some_env (ForgotPassword "alice@example.com") alice_db))
  = (Ok InvalidOtpError,
     {| db := db_of (serve some_env (ForgotPassword "alice@example.com") alice_db);
        log := [] |}).
Proof.
  apply (forgot_password_overwrites_the_pending_code some_env some_env alice_db
           "alice@example.com" "482913" alice eq_refl).
  vm_compute. discriminate.
Defined.

Lemma delete_account_refused E d email password u :
  find (has_email email) (users d) = Some u ->
  password_accepted E password (user_password u) = false ->
  serve E (DeleteAccount email password) d
  = (Ok InvalidCredentialError,
     {| db := d; log := [BcryptCompare password (user_password u)] |}).
Proof.
  intros Hfind Hpw. unfold password_accepted in Hpw.
  run_route. rewrite Hfind. step. cbn [the_user]. now rewrite Hpw.
Qed.



Lemma password_accepted_true E s hash :
  password_accepted E s hash = true ->
  String.length hash = 60%nat /\ bcrypt_matches E s hash = true.
Proof.
  unfold password_accepted.
  destruct (Nat.eqb_spec (String.length hash) 60); [auto | discriminate].
Qed.

Lemma delete_account_commits E d email password u :
  find (has_email email) (users d) = Some u ->
  password_accepted E password (user_password u) = true ->
  (forall n, In n (tx_statements (has_profile d u)) -> tx_error E n = None) ->
  serve E (DeleteAccount email password) d
  = (Ok (message_only 200 "Account deleted successfully"),
     {| db := without_account d u;
        log := [BcryptCompare password (user_password u)] |}).
Proof.
  intros Hfind Hpw Hnone.
  destruct (password_accepted_true _ _ _ Hpw) as [Hlen Hmatch].
  rewrite (delete_account_run E d email password u Hfind Hlen Hmatch).
  apply first_error_none in Hnone. now rewrite Hnone.
Qed.

(** X16.  A successful [delete-account] removes nothing else: every other
    account, every profile and project of another user, and every
    project average that is not of the deleted account's profile are
    in the database afterwards. *)
Theorem delete_account_spares_the_others :
  forall E d email password u,
    find (has_email email) (users d) = Some u ->
    password_accepted E password (user_password u) = true ->
    (forall n, In n (tx_statements (has_profile d u)) -> tx_error E n = None) ->
    (forall x, In x (users d) -> user_id x <> user_id u ->
               In x (users (db_of (serve E (DeleteAccount email password) d)))) /\
    (forall p, In p (profiles d) -> profile_userId p <> user_id u ->
               In p (profiles (db_of (serve E (DeleteAccount email password) d)))) /\
    (forall j, In j (projects d) -> project_userId j <> user_id u ->
               In j (projects (db_of (serve E (DeleteAccount email password) d)))) /\
    (forall a, In a (projectAverages d) ->
               (forall p, profile_of d u = Some p ->
                          average_profileId a <> profile_id p) ->
               In a (projectAverages
                       (db_of (serve E (DeleteAccount email password) d)))).
Proof.
  intros E d email password u Hfind Hpw Hnone. unfold db_of.
  rewrite (delete_account_commits E d email password u Hfind Hpw Hnone).
  cbn [snd db]. unfold without_account. cbn.
  split; [|split; [|split]].
  - intros x Hx Hne. apply filter_In. split; [exact Hx|].
    now apply negb_true_iff, Z.eqb_neq.
  - intros p Hp Hne. destruct (profile_of d u); [|exact Hp].
    apply filter_In. split; [exact Hp|]. now apply negb_true_iff, Z.eqb_neq.
  - intros j Hj Hne. apply filter_In. split; [exact Hj|].
    now apply negb_true_iff, Z.eqb_neq.
  - intros a Ha Hforeign. destruct (profile_of d u) as [p|]; [|exact Ha].
    apply filter_In. split; [exact Ha|].
    apply negb_true_iff, Z.eqb_neq. now apply Hforeign.
Qed.

Lemma delete_account_spares_the_others_witness :
  In bob (users (db_of (serve accepting_env
                          (DeleteAccount "carol@example.com" "Secret1!") carol_db))) /\
  In {| project_id := 2; project_userId := 1 |}
     (projects (db_of (serve accepting_env
                         (DeleteAccount "carol@example.com" "Secret1!") carol_db))).
Proof.
  destruct (delete_account_spares_the_others accepting_env carol_db
              "carol@example.com" "Secret1!" carol eq_refl eq_refl
              (fun _ _ => eq_refl))
    as (Husers & _ & Hprojects & _).
  split.
  - apply Husers; [left; reflexivity | discriminate].
  - apply Hprojects; [right; left; reflexivity | discriminate].
Defined.

Lemma find_after_delete email us u :
  NoDup (map user_email us) ->
  find (has_email email) us = Some u ->
  find (has_email email) (filter (fun x => negb (user_id x =? user_id u)) us) = None.
Proof.
  intros Hnd Hfind.
  destruct (find _ (filter _ us)) as [x|] eqn:Hx; [|reflexivity].
  apply find_some in Hx. destruct Hx as [Hxin Hxe].
  apply filter_In in Hxin. destruct Hxin as [Hxin Hxid].
  apply find_has_email in Hfind. destruct Hfind as [Hue Huin].
  apply String.eqb_eq in Hxe.
  assert (x = u) by (apply (NoDup_map_inj user_email us); congruence).
  subst x. rewrite Z.eqb_refl in Hxid. discriminate.
Qed.

(** X17.  After a successful [delete-account] the email is free: a [login]
    with it answers 404, and a [signup] with it creates a new
    account. *)
Theorem deleted_email_is_free_again :
  forall E E' d email password u firstName lastName newPassword,
    NoDup (map user_email (users d)) ->
    find (has_email email) (users d) = Some u ->
    password_accepted E password (user_password u) = true ->
    (forall n, In n (tx_statements (has_profile d u)) -> tx_error E n = None) ->
    response_of (serve E' (Login email newPassword)
                   (db_of (serve E (DeleteAccount email password) d)))
    = Some (message_only 404 "User not found") /\
    (validatePassword newPassword = true ->
     smtp_error E' = None ->
     response_of (serve E' (Signup firstName lastName email newPassword)
                    (db_of (serve E (DeleteAccount email password) d)))
     = Some (message_only 201 "User created. Please verify your email.")).
Proof.
  intros E E' d email password u firstName lastName newPassword
    Hnd Hfind Hpw Hnone.
  assert (Hgone : find (has_email email)
                    (users (db_of (serve E (DeleteAccount email password) d)))
                  = None).
  { unfold db_of.
    rewrite (delete_account_commits E d email password u Hfind Hpw Hnone).
    cbn [snd db]. unfold without_account. cbn [users].
    now apply find_after_delete. }
  split.
  - unfold response_of. now rewrite (login_not_found E' _ email newPassword Hgone).
  - intros Hvalid Hsmtp.
    destruct (signup_stores E' _ firstName lastName email newPassword Hvalid Hgone)
      as (_ & Hresp & _).
    now rewrite Hresp, Hsmtp.
Qed.

Lemma deleted_email_is_free_again_witness :
  response_of (serve some_env (Login "carol@example.com" "Abc123!")
                 (db_of (serve accepting_env
                           (DeleteAccount "carol@example.com" "Secret1!") carol_db)))
  = Some NotFoundError /\
  response_of (serve some_env (Signup "Carol" "Reyes" "carol@example.com" "Abc123!")
                 (db_of (serve accepting_env
                           (DeleteAccount "carol@example.com" "Secret1!") carol_db)))
  = Some (message_only 201 "User created. Please verify your email.").
Proof.
  destruct (deleted_email_is_free_again accepting_env some_env carol_db
              "carol@example.com" "Secret1!" carol "Carol" "Reyes" "Abc123!"
              (proj1 carol_db_unique_keys) eq_refl eq_refl (fun _ _ => eq_refl))
    as [Hlogin Hsignup].
  split; [exact Hlogin|]. now apply Hsignup.
Defined.

Lemma truthy_true v : truthy v = true -> exists s, v = Some s /\ s <> "".
Proof.
  destruct v as [s|]; cbn; [|discriminate].
  destruct (String.eqb_spec s ""); [discriminate|]. intros _. now exists s.
Qed.

Lemma google_signup_throws E d token e :
  google_ticket E token = Throw e ->
  serve E (GoogleSignup token) d
  = (Ok (server_error "Error during Google signup" e),
     {| db := d; log := [VerifyIdToken token] |}).
Proof. intros H. run_route. now rewrite H. Qed.

Lemma google_signup_no_email E d token payload :
  google_ticket E token = Ok payload ->
  match payload with
  | Some p => truthy (payload_email p) = false
  | None => True
  end ->
  serve E (GoogleSignup token) d
  = (Ok InvalidAssertionError, {| db := d; log := [VerifyIdToken token] |}).
Proof.
  intros H Hp. run_route. rewrite H. step.
  destruct payload as [p|]; [|reflexivity]. now rewrite Hp.
Qed.

(** X18.  How [google-signup] refuses an assertion.  When Google's verifier
    rejects the token the answer is 500 with the verifier's message;
    when the verified token has no payload, or a payload without an
    email or with an empty one, the answer is 400 "Invalid Google token
    or missing email".  In each case the database is untouched and no
    token is signed. *)
Theorem google_signin_refuses_bad_assertions :
  forall E d token,
    (forall e,
        google_ticket E token = Throw e ->
        serve E (GoogleSignup token) d
        = (Ok {| status := 500;
                 body := JObj [("message", JStr "Error during Google signup");
                               ("error", JStr e)] |},
           {| db := d; log := [VerifyIdToken token] |})) /\
    (forall payload,
        google_ticket E token = Ok payload ->
        payload = None \/
        (exists p, payload = Some p /\
                   (payload_email p = None \/ payload_email p = Some "")) ->
        serve E (GoogleSignup token) d
        = (Ok (message_only 400 "Invalid Google token or missing email"),
           {| db := d; log := [VerifyIdToken token] |})).
Proof.
  intros E d token. split.
  - intros e H. now apply google_signup_throws.
  - intros payload H Hp. apply (google_signup_no_email E d token payload H).
    destruct Hp as [-> | (p & -> & [Hnone|Hempty])]; [exact I | |].
    + now rewrite Hnone.
    + now rewrite Hempty.
Qed.

(** X19.  Google sign-in for an email that already has an account answers
    with a token for that account without asking for its password and
    without looking at [isVerified], and leaves the account as it is:
    an account that was not verified stays unverified, and a password
    [login] to it is still refused as unverified. *)
Theorem google_signin_does_not_verify_an_account :
  forall E E' d token payload email password u,
    google_ticket E token = Ok (Some payload) ->
    payload_email payload = Some email ->
    email <> "" ->
    find (has_email email) (users d) = Some u ->
    response_of (serve E (GoogleSignup token) d)
    = Some {| status := 200;
              body := JObj [("message", JStr "User already exists");
                            ("token", JStr (jwt_sign E (user_id u) "24h"));
                            ("user", identity u)] |} /\
    db_of (serve E (GoogleSignup token) d) = d /\
    (user_isVerified u = false ->
     response_of (serve E' (Login email password)
                    (db_of (serve E (GoogleSignup token) d)))
     = Some (message_only 400 "Please verify your email first")).
Proof.
  intros E E' d token payload email password u Hticket Hemail Hne Hfind.
  unfold response_of, db_of.
  rewrite (google_signup_existing E d token payload email u Hticket Hemail Hne Hfind).
  split; [reflexivity|]. split; [reflexivity|]. intros Hver. cbn [snd db].
  rewrite (login_run E' d email password u Hfind), Hver. reflexivity.
Qed.

Lemma google_signin_does_not_verify_an_account_witness :
  response_of (serve alice_google_env (GoogleSignup "id-token") alice_db)
  = Some {| status := 200;
            body := JObj [("message", JStr "User already exists");
                          ("token", JStr "jwt.24h");
                          ("user", identity alice)] |} /\
  db_of (serve alice_google_env (GoogleSignup "id-token") alice_db) = alice_db /\
  response_of (serve some_env (Login "alice@example.com" "Secret1!")
                 (db_of (serve alice_google_env (GoogleSignup "id-token") alice_db)))
  = Some UnverifiedError.
Proof.
  destruct (google_signin_does_not_verify_an_account alice_google_env some_env
              alice_db "id-token" alice_payload "alice@example.com" "Secret1!" alice
              eq_refl eq_refl)
    as (Hresp & Hdb & Hlogin).
  - discriminate.
  - reflexivity.
  - split; [exact Hresp|]. split; [exact Hdb|]. now apply Hlogin.
Defined.

(** X20.  The regular expression of [validatePassword] accepts a password
    exactly when it has a lowercase letter, an uppercase letter, a
    digit and one of [@ $ ! % * ? &], at least six characters, and no
    character outside those four classes. *)
Theorem validatePassword_accepts_exactly :
  forall password,
    validatePassword password = true <->
    (has_char is_lower password = true /\
     has_char is_upper password = true /\
     has_char is_digit password = true /\
     has_char is_symbol password = true /\
     (6 <= String.length password)%nat /\
     has_char (fun c => negb (is_allowed c)) password = false).
Proof.
  intros password. rewrite validatePassword_spec. unfold policy_spec.
  assert (Hall : all_chars is_allowed password = true <->
                 has_char (fun c => negb (is_allowed c)) password = false).
  { induction password as [|c rest IH]; cbn; [tauto|].
    destruct (is_allowed c); cbn; [exact IH | split; discriminate]. }
  rewrite !andb_true_iff, Hall, Nat.leb_le. tauto.
Qed.

Lemma google_signin_refuses_bad_assertions_witness :
  serve some_env (GoogleSignup "not-a-token") alice_db
  = (Ok (server_error "Error during Google signup" "Wrong number of segments in token"),
     {| db := alice_db; log := [VerifyIdToken "not-a-token"] |}).
Proof.
  exact (proj1 (google_signin_refuses_bad_assertions some_env alice_db "not-a-token")
           "Wrong number of segments in token" eq_refl).
Defined.

Lemma google_signup_creates_log E d token payload email :
  google_ticket E token = Ok (Some payload) ->
  payload_email payload = Some email ->
  email <> "" ->
  find (has_email email) (users d) = None ->
  log_of (serve E (GoogleSignup token) d)
  = [VerifyIdToken token; JwtSign (nextUserId d) "24h"].
Proof.
  intros Hticket Hemail Hne Hfind.
  unfold log_of. run_route.
  rewrite Hticket. step. rewrite (truthy_some _ _ Hemail Hne). step.
  rewrite Hemail. step. rewrite Hfind.
  destruct (googleNames email (payload_name payload) (payload_given_name payload)
              (payload_family_name payload)) as [firstName lastName].
  step. rewrite (find_none_existsb _ _ Hfind). reflexivity.
Qed.

Ltac token_free Hresp Htok :=
  cbn in Hresp; injection Hresp as <-; cbn in Htok; discriminate Htok.

(** X21.  A token is only ever issued on success and for an existing
    account.  Whatever the request, if the answer carries a token then
    its status is 200 or 201, the route is [verify-otp], [login] or
    [google-signup], and the token was signed for the id of an account
    that is in the database after the request, with a validity of 240
    hours for the first two routes and 24 hours for the third. *)
Theorem tokens_are_only_issued_on_success :
  forall E q d resp,
    response_of (serve E q d) = Some resp ->
    has_token resp = true ->
    (status resp = 200 \/ status resp = 201) /\
    exists x expiresIn,
      In x (users (db_of (serve E q d))) /\
      In (JwtSign (user_id x) expiresIn) (log_of (serve E q d)) /\
      match q with
      | VerifyOtp _ _ | Login _ _ => expiresIn = "240h"
      | GoogleSignup _ => expiresIn = "24h"
      | _ => False
      end.
Proof.
  intros E q d resp Hresp Htok.
  destruct q as [f l e p | e o | e p | e | e o p | e p | t | t].
  - (* signup *)
    exfalso. destruct (validatePassword p) eqn:Hvalid.
    + destruct (find (has_email e) (users d)) as [u|] eqn:Hfind.
      * rewrite (signup_conflict_run E d f l e p u Hvalid Hfind) in Hresp.
        token_free Hresp Htok.
      * destruct (signup_stores E d f l e p Hvalid Hfind) as (_ & Hr & _).
        rewrite Hr in Hresp. destruct (smtp_error E); token_free Hresp Htok.
    + rewrite (signup_invalid E f l e p d Hvalid) in Hresp. token_free Hresp Htok.
  - (* verify-otp *)
    destruct (find (has_email e) (users d)) as [u|] eqn:Hfind.
    + destruct (strict_neq (user_otp u) o || date_gt (Date_now E) (user_otpExpiry u))
        eqn:Hcheck.
      * exfalso. rewrite (verify_otp_run E d e o u Hfind), Hcheck in Hresp.
        token_free Hresp Htok.
      * unfold db_of, log_of. rewrite (verify_otp_run E d e o u Hfind), Hcheck in *.
        cbn in Hresp. injection Hresp as <-. split; [now left|].
        eexists _, "240h". split; [|split; [|reflexivity]].
        -- cbn [snd db users set_users]. apply in_map_iff.
           exists u. split; [reflexivity|]. now apply find_some in Hfind.
        -- apply find_some in Hfind. rewrite (proj2 Hfind). cbn. now left.
    + exfalso. rewrite (verify_otp_not_found E d e o Hfind) in Hresp.
      token_free Hresp Htok.
  - (* login *)
    destruct (find (has_email e) (users d)) as [u|] eqn:Hfind.
    + unfold db_of, log_of. rewrite (login_run E d e p u Hfind) in *.
      destruct (negb (user_isVerified u)); [exfalso; token_free Hresp Htok|].
      destruct (password_accepted E p (user_password u));
        [|exfalso; token_free Hresp Htok].
      cbn in Hresp. injection Hresp as <-. split; [now left|].
      exists u, "240h". split; [|split; [|reflexivity]].
      * now apply find_some in Hfind.
      * cbn. tauto.
    + exfalso. rewrite (login_not_found E d e p Hfind) in Hresp.
      token_free Hresp Htok.
  - (* forgot-password *)
    exfalso. destruct (find (has_email e) (users d)) as [u|] eqn:Hfind.
    + destruct (forgot_password_stores E d e u Hfind) as (_ & Hr & _).
      rewrite Hr in Hresp. destruct (smtp_error E); token_free Hresp Htok.
    + rewrite (forgot_password_not_found E d e Hfind) in Hresp.
      token_free Hresp Htok.
  - (* reset-password *)
    exfalso. destruct (validatePassword p) eqn:Hvalid.
    + destruct (find (has_email e) (users d)) as [u|] eqn:Hfind.
      * rewrite (reset_password_run E d e o p u Hvalid Hfind) in Hresp.
        destruct (_ || _); token_free Hresp Htok.
      * rewrite (reset_password_not_found E d e o p Hvalid Hfind) in Hresp.
        token_free Hresp Htok.
    + rewrite (reset_password_invalid E e o p d Hvalid) in Hresp.
      token_free Hresp Htok.
  - (* delete-account *)
    exfalso. destruct (find (has_email e) (users d)) as [u|] eqn:Hfind.
    + destruct (password_accepted E p (user_password u)) eqn:Hpw.
      * destruct (password_accepted_true _ _ _ Hpw) as [Hlen Hmatch].
        rewrite (delete_account_run E d e p u Hfind Hlen Hmatch) in Hresp.
        destruct (first_error _ _); token_free Hresp Htok.
      * rewrite (delete_account_refused E d e p u Hfind Hpw) in Hresp.
        token_free Hresp Htok.
    + rewrite (delete_account_not_found E d e p Hfind) in Hresp.
      token_free Hresp Htok.
  - (* logout *)
    exfalso. unfold serve, handle, logout, try_catch, ret in Hresp.
    destruct (negb (truthy t)); token_free Hresp Htok.
  - (* google-signup *)
    destruct (google_ticket E t) as [payload|err] eqn:Hticket.
    + destruct payload as [payload|].
      * destruct (truthy (payload_email payload)) eqn:Htruthy.
        -- destruct (truthy_true _ Htruthy) as (email & Hemail & Hne).
           destruct (find (has_email email) (users d)) as [u|] eqn:Hfind.
           ++ unfold db_of, log_of.
              rewrite (google_signup_existing E d t payload email u
                         Hticket Hemail Hne Hfind) in *.
              cbn in Hresp. injection Hresp as <-. split; [now left|].
              exists u, "24h". split; [|split; [|reflexivity]].
              ** now apply find_some in Hfind.
              ** cbn. tauto.
           ++ destruct (google_signup_creates E d t payload email
                          Hticket Hemail Hne Hfind)
                as (u & Hu & _ & Hid & _ & _ & _ & _ & _ & _ & Hr).
              rewrite Hr in Hresp. injection Hresp as <-. split; [now right|].
              exists u, "24h". split; [|split; [|reflexivity]].
              ** now apply find_some in Hu.
              ** rewrite (google_signup_creates_log E d t payload email
                            Hticket Hemail Hne Hfind), Hid.
                 cbn. tauto.
        -- exfalso.
           rewrite (google_signup_no_email E d t (Some payload) Hticket Htruthy)
             in Hresp.
           token_free Hresp Htok.
      * exfalso. rewrite (google_signup_no_email E d t None Hticket I) in Hresp.
        token_free Hresp Htok.
    + exfalso. rewrite (google_signup_throws E d t err Hticket) in Hresp.
      token_free Hresp Htok.
Qed.

Lemma tokens_are_only_issued_on_success_witness :
  exists x expiresIn,
    In x (users (db_of (serve google_env (GoogleSignup "id-token") empty_db))) /\
    In (JwtSign (user_id x) expiresIn)
       (log_of (serve google_env (GoogleSignup "id-token") empty_db)) /\
    expiresIn = "24h".
Proof.
  refine (proj2 (tokens_are_only_issued_on_success google_env
                   (GoogleSignup "id-token") empty_db _ eq_refl eq_refl)).
Defined.

Lemma In_update_other email change us x :
  In x us -> user_email x <> email ->
  In x (map (fun y => if has_email email y then change y else y) us).
Proof.
  intros Hin Hne. apply in_map_iff. exists x. split; [|exact Hin].
  unfold has_email. destruct (String.eqb_spec (user_email x) email);
    [contradiction | reflexivity].
Qed.

(** X22.  A request changes no account but the one it is about: after any
    request other than to [delete-account], every account whose email
    is not the request's is in the database exactly as it was. *)
Theorem other_accounts_are_untouched :
  forall E q d x,
    is_delete q = false ->
    In x (users d) ->
    subject E q <> Some (user_email x) ->
    In x (users (db_of (serve E q d))).
Proof.
  intros E q d x Hq Hin Hsubject. unfold db_of.
  destruct q as [f l e p | e o | e p | e | e o p | e p | t | t];
    cbn [subject] in Hsubject.
  - (* signup *)
    destruct (validatePassword p) eqn:Hvalid.
    + destruct (find (has_email e) (users d)) as [u|] eqn:Hfind.
      * now rewrite (signup_conflict_run E d f l e p u Hvalid Hfind).
      * destruct (signup_stores E d f l e p Hvalid Hfind) as (Hdb & _).
        unfold db_of in Hdb. rewrite Hdb. cbn [users].
        apply in_or_app. now left.
    + now rewrite (signup_invalid E f l e p d Hvalid).
  - (* verify-otp *)
    destruct (find (has_email e) (users d)) as [u|] eqn:Hfind.
    + rewrite (verify_otp_run E d e o u Hfind).
      destruct (_ || _); [exact Hin|]. cbn [snd db users set_users].
      apply In_update_other; [exact Hin | congruence].
    + now rewrite (verify_otp_not_found E d e o Hfind).
  - (* login *)
    destruct (find (has_email e) (users d)) as [u|] eqn:Hfind.
    + rewrite (login_run E d e p u Hfind).
      destruct (negb _); [exact Hin|]. destruct (password_accepted _ _ _); exact Hin.
    + now rewrite (login_not_found E d e p Hfind).
  - (* forgot-password *)
    destruct (find (has_email e) (users d)) as [u|] eqn:Hfind.
    + destruct (forgot_password_stores E d e u Hfind) as (Hdb & _).
      unfold db_of in Hdb. rewrite Hdb. cbn [users set_users].
      apply In_update_other; [exact Hin | congruence].
    + now rewrite (forgot_password_not_found E d e Hfind).
  - (* reset-password *)
    destruct (validatePassword p) eqn:Hvalid.
    + destruct (find (has_email e) (users d)) as [u|] eqn:Hfind.
      * rewrite (reset_password_run E d e o p u Hvalid Hfind).
        destruct (_ || _); [exact Hin|]. cbn [snd db users set_users].
        apply In_update_other; [exact Hin | congruence].
      * now rewrite (reset_password_not_found E d e o p Hvalid Hfind).
    + now rewrite (reset_password_invalid E e o p d Hvalid).
  - discriminate Hq.
  - (* logout *)
    unfold serve, handle, logout, try_catch, ret.
    destruct (negb (truthy t)); exact Hin.
  - (* google-signup *)
    destruct (google_ticket E t) as [payload|err] eqn:Hticket.
    + destruct payload as [payload|].
      * destruct (truthy (payload_email payload)) eqn:Htruthy.
        -- destruct (truthy_true _ Htruthy) as (email & Hemail & Hne).
           destruct (find (has_email email) (users d)) as [u|] eqn:Hfind.
           ++ now rewrite (google_signup_existing E d t payload email u
                             Hticket Hemail Hne Hfind).
           ++ destruct (google_signup_creates E d t payload email
                          Hticket Hemail Hne Hfind) as (u & _ & Husers & _).
              unfold db_of in Husers. rewrite Husers.
              apply in_or_app. now left.
        -- now rewrite (google_signup_no_email E d t (Some payload) Hticket Htruthy).
      * now rewrite (google_signup_no_email E d t None Hticket I).
    + now rewrite (google_signup_throws E d t err Hticket).
Qed.

Lemma other_accounts_are_untouched_witness :
  In bob (users (db_of (serve some_env
                          (ResetPassword "dora@example.com" "654321" "Abc123!")
                          dora_db))).
Proof.
  apply (other_accounts_are_untouched some_env
           (ResetPassword "dora@example.com" "654321" "Abc123!") dora_db bob).
  - reflexivity.
  - left. reflexivity.
  - discriminate.
Defined.
